(** * Bedrock knowledge base on S3 Vectors: provisioning, ingestion, teardown

    A shallow embedding of [knowledge_base_s3.py] (class
    [BedrockKnowledgeBase]) and of the ingestion functions of
    [create_knowledge_base_s3vectors.py].

    The Python code is a sequence of calls to AWS clients.  Every client
    call is an event: the program hands a [Call] to the cloud, the cloud
    answers with a [Response] or raises an exception, and moves to a new
    state.  The programs are written once, against an arbitrary cloud
    (class [Cloud]); the statements quantify over every cloud, and three
    concrete clouds ([Account], a simulated AWS account; [Script], which
    plays back a list of answers; [Always], which gives one answer for
    ever) give the runs that are evaluated.

    A run leaves a log of the calls made, with the answers they got, and
    of the waits; what the code does "before", "after" or "without" a call
    is stated on this log.  A loop that nothing bounds takes a number of
    iterations it may use ([fuel]), and a run that uses them all ends as
    [OutOfFuel].

    Console output ([print], [pp.pprint]) is not modelled.  A string is
    the sequence of its bytes (UTF-8).  [str.lower] and the class [\s] of
    the regular expressions are those of Python on ASCII strings; the
    bytes of a character outside ASCII are left as they are, which is what
    Python does for the characters that have no lower case and are not
    white space, and not for the others (an upper-case letter outside
    ASCII, the no-break space): a statement that depends on it says
    [ascii_only]. *)

From stdpp Require Import base decidable option list strings gmap pretty.
From Stdlib Require Import Ascii ZArith Lia.

Local Open Scope string_scope.
Local Open Scope list_scope.

(** ** Exceptions *)

Inductive service := S3 | S3Vectors | IAM | STS | BedrockAgent.

(** The exceptions of class [Exception] that the modelled code can meet.
    [ClientError svc code] is botocore's [ClientError] raised by the client
    of service [svc] with error code [code]; the modelled exception classes
    [client.exceptions.X] are its subclasses, one per service and code. *)
Inductive exn :=
| ClientError (svc : service) (code : string)
| ValueError (msg : string)
| KeyError (key : string)
| IndexError
| OtherException (name : string).

(** What an [except] clause names. *)
Inductive exn_class :=
| Exception_                                   (* except Exception *)
| ClientError_                                 (* except ClientError *)
| Modeled (svc : service) (code : string).     (* except client.exceptions.<code> *)

Definition service_eqb (a b : service) : bool :=
  match a, b with
  | S3, S3 | S3Vectors, S3Vectors | IAM, IAM | STS, STS
  | BedrockAgent, BedrockAgent => true
  | _, _ => false
  end.

Definition isinstance (e : exn) (c : exn_class) : bool :=
  match c with
  | Exception_ => true
  | ClientError_ =>
      match e with
      | ClientError _ _ => true
      | _ => false
      end
  | Modeled svc code =>
      match e with
      | ClientError svc' code' => service_eqb svc svc' && String.eqb code code'
      | _ => false
      end
  end.

(** ** Requests and responses *)

Record Statement := {
  Effect : string;
  Principal_Service : option string;
  Action : string;
  Resource : option string
}.

Record PolicyDocument := {
  Version : string;
  Statement_ : list Statement
}.

Record ChunkingConfiguration := {
  chunkingStrategy : string;
  maxTokens : nat;
  overlapPercentage : nat
}.

(** The document descriptor of [ingest_single_document]:
    [{'content': {'custom': {'customDocumentIdentifier': {'id': ..},
      's3Location': {'uri': ..}, 'sourceType': ..}, 'dataSourceType': ..}}]. *)
Record Document := {
  customDocumentIdentifier_id : string;
  s3Location_uri : string;
  sourceType : string;
  dataSourceType : string
}.

Record DocumentIdentifier := {
  di_dataSourceType : string;
  di_custom_id : string
}.

Inductive Call :=
(* sts *)
| GetCallerIdentity
(* s3 *)
| HeadBucket (Bucket : string)
| CreateBucket (Bucket : string) (LocationConstraint : option string)
| ListObjects (Bucket : string)
| DeleteObject (Bucket Key : string)
| DeleteBucket (Bucket : string)
(* s3vectors *)
| CreateVectorBucket (vectorBucketName : string)
| GetVectorBucket (vectorBucketName : string)
| CreateIndex (vectorBucketName indexName : string) (dimension : nat)
              (dataType distanceMetric : string)
| GetIndex (vectorBucketName indexName : string)
(* iam *)
| CreatePolicy (PolicyName : string) (doc : PolicyDocument) (Description : string)
| GetPolicy (PolicyArn : string)
| CreatePolicyVersion (PolicyArn : string) (doc : PolicyDocument) (SetAsDefault : bool)
| CreateRole (RoleName : string) (doc : PolicyDocument) (Description : string)
             (MaxSessionDuration : nat)
| GetRole (RoleName : string)
| UpdateAssumeRolePolicy (RoleName : string) (doc : PolicyDocument)
| AttachRolePolicy (RoleName PolicyArn : string)
| ListAttachedRolePolicies (RoleName : string)
| DetachRolePolicy (RoleName PolicyArn : string)
| DeleteRole (RoleName : string)
| DeletePolicy (PolicyArn : string)
(* bedrock-agent *)
| CreateKnowledgeBase (name : string) (description : option string)
                      (roleArn kbType embeddingModelArn storageType
                       vectorBucketArn indexArn : string)
| ListKnowledgeBases (maxResults : nat)
| GetKnowledgeBase (knowledgeBaseId : string)
| CreateDataSource (name : string) (description : option string)
                   (knowledgeBaseId dsType : string)
                   (chunking : ChunkingConfiguration)
| ListDataSources (knowledgeBaseId : string) (maxResults : nat)
| GetDataSource (dataSourceId knowledgeBaseId : string)
| DeleteDataSource (dataSourceId knowledgeBaseId : string)
| DeleteKnowledgeBase (knowledgeBaseId : string)
| StartIngestionJob (knowledgeBaseId dataSourceId : string)
| GetIngestionJob (knowledgeBaseId dataSourceId ingestionJobId : string)
| IngestKnowledgeBaseDocuments (dataSourceId : string) (documents : list Document)
                               (knowledgeBaseId : string)
| GetKnowledgeBaseDocuments (knowledgeBaseId dataSourceId : string)
                            (documentIdentifiers : list DocumentIdentifier).

Record Role := {
  RoleName : string;
  RoleArn : string;
  AssumeRolePolicyDocument : PolicyDocument
}.

Record KnowledgeBase := {
  knowledgeBaseId : string;
  kb_name_ : string;
  kb_status : string
}.

Record DataSource := {
  dataSourceId : string;
  ds_knowledgeBaseId : string
}.

Record IngestionJob := {
  ingestionJobId : string;
  job_status : string
}.

(** A response is the dictionary boto3 returns; only the keys the code
    reads are kept.  Reading a key that the response does not carry raises
    [KeyError], as in Python. *)
Inductive Response :=
| RNone
| RCallerIdentity (Account : option string)
| RObjects (Contents : option (list string))
| RVectorBucket (vectorBucketArn : string)
| RIndex (indexArn : string)
| RPolicy (Arn : string)
| RRole (role : Role)
| RAttachedPolicies (arns : list string)
| RKnowledgeBase (kb : KnowledgeBase)
| RKnowledgeBaseSummaries (summaries : list KnowledgeBase)
| RDataSource (ds : DataSource)
| RDataSourceSummaries (summaries : list DataSource)
| RIngestionJob (job : IngestionJob)
| RDocumentDetails (statuses : list string).

(** [time.sleep]: a number of seconds, or the randomised wait of the
    [retry] decorator (milliseconds, between two bounds). *)
Inductive Delay :=
| Seconds (n : nat)
| RandomMillis (lo hi : nat).

(** What a run leaves in its log: the calls with the answers they got, and
    the waits. *)
Inductive Event :=
| Called (c : Call) (a : Response + exn)
| Slept (d : Delay).

(** ** The cloud, and the monad of the programs *)

Class Cloud (W : Type) := {
  respond : W → Call → (Response + exn) * W;
  elapse : W → Delay → W
}.

Inductive outcome (A : Type) :=
| Ret (a : A)
| Raise (e : exn)
| OutOfFuel.
Arguments Ret {A} a.
Arguments Raise {A} e.
Arguments OutOfFuel {A}.

Record St (W : Type) := mkSt { cloud : W; log : list Event }.
Arguments mkSt {W} cloud log.
Arguments cloud {W} s.
Arguments log {W} s.

Definition M (W A : Type) : Type := St W → outcome A * St W.

Section Monad.
Context {W : Type} `{Cloud W}.

Definition ret {A} (a : A) : M W A := fun st => (Ret a, st).

Definition bind {A B} (m : M W A) (k : A → M W B) : M W B :=
  fun st =>
    match m st with
    | (Ret a, st') => k a st'
    | (Raise e, st') => (Raise e, st')
    | (OutOfFuel, st') => (OutOfFuel, st')
    end.

Definition raise {A} (e : exn) : M W A := fun st => (Raise e, st).

Definition out_of_fuel {A} : M W A := fun st => (OutOfFuel, st).

(** A client call: logged, then answered by the cloud. *)
Definition call (c : Call) : M W Response :=
  fun st =>
    let '(r, w) := respond (cloud st) c in
    let st' := mkSt w (log st ++ [Called c r]) in
    match r with
    | inl resp => (Ret resp, st')
    | inr e => (Raise e, st')
    end.

Definition sleep (d : Delay) : M W unit :=
  fun st => (Ret tt, mkSt (elapse (cloud st) d) (log st ++ [Slept d])).

(** [try: body / except c1: h1 / except c2: h2 ...]: the first clause
    whose class the exception is an instance of handles it. *)
Definition try_except {A} (body : M W A)
    (handlers : list (exn_class * (exn → M W A))) : M W A :=
  fun st =>
    match body st with
    | (Raise e, st') =>
        match List.find (fun h => isinstance e (fst h)) handlers with
        | Some h => snd h e st'
        | None => (Raise e, st')
        end
    | r => r
    end.
End Monad.

Declare Scope prog_scope.
Delimit Scope prog_scope with prog.
Notation "'let*' x ':=' c 'in' k" := (bind c (fun x => k))
  (at level 10, x name, c at level 100, k at level 200) : prog_scope.
Notation "c ';;' k" := (bind c (fun _ => k))
  (at level 100, k at level 200, right associativity) : prog_scope.

Local Open Scope prog_scope.

(** ** Python library functions used by the code *)

(** [str.lower]: the ASCII letters [A] to [Z] are lowered, every other
    byte is kept.  This is Python's [str.lower] on every ASCII string. *)
Definition lower_ascii (c : ascii) : ascii :=
  let n := nat_of_ascii c in
  if (65 <=? n)%nat && (n <=? 90)%nat then ascii_of_nat (n + 32) else c.

Fixpoint lower (s : string) : string :=
  match s with
  | EmptyString => EmptyString
  | String c r => String (lower_ascii c) (lower r)
  end.

(** [s[:n]]. *)
Definition take_prefix (n : nat) (s : string) : string := String.substring 0 n s.

(** [s.endswith(suffix)]. *)
Definition endswith (s suffix : string) : bool :=
  let n := String.length s in
  let k := String.length suffix in
  (k <=? n)%nat && String.eqb (String.substring (n - k) k s) suffix.

(** The class [[\s-]] of the regular expression of the document
    identifiers: the ASCII white space (as [str.isspace] has it: 9 to 13,
    28 to 32) and the hyphen.  This is Python's class on every ASCII
    string; the white space outside ASCII (the no-break space, the em
    space) is outside the model. *)
Definition is_space_or_hyphen (c : ascii) : bool :=
  let n := nat_of_ascii c in
  ((9 <=? n)%nat && (n <=? 13)%nat) || ((28 <=? n)%nat && (n <=? 32)%nat)
  || (n =? 45)%nat.

(** [re.sub(r'[\s-]+', '-', s)]: every maximal run of the class becomes
    one hyphen.  [in_run] tells that the previous character was in the
    class. *)
Fixpoint sub_runs (in_run : bool) (s : string) : string :=
  match s with
  | EmptyString => EmptyString
  | String c r =>
      if is_space_or_hyphen c
      then (if in_run then sub_runs true r else String "-" (sub_runs true r))
      else String c (sub_runs false r)
  end.

Definition re_sub_space_hyphen (s : string) : string := sub_runs false s.

(** [s.rfind(c)] as a position, [-1] when [c] does not occur. *)
Fixpoint rfind_from (i : Z) (c : ascii) (s : string) : Z :=
  match s with
  | EmptyString => (-1)%Z
  | String d r =>
      let later := rfind_from (i + 1)%Z c r in
      if (0 <=? later)%Z then later
      else if Ascii.eqb c d then i else (-1)%Z
  end.

Definition rfind (c : ascii) (s : string) : Z := rfind_from 0%Z c s.

(** Some character of [s] at a position in [[lo, hi)] is not a dot. *)
Fixpoint non_dot_between (i lo hi : Z) (s : string) : bool :=
  match s with
  | EmptyString => false
  | String d r =>
      ((lo <=? i)%Z && (i <? hi)%Z && negb (Ascii.eqb d "."))
      || non_dot_between (i + 1)%Z lo hi r
  end.

(** [os.path.splitext(p)[0]] (posixpath): the extension starts at the last
    dot of the last path component, leading dots of the component apart. *)
Definition splitext_root (p : string) : string :=
  let sepIndex := rfind "/" p in
  let dotIndex := rfind "." p in
  if (sepIndex <? dotIndex)%Z && non_dot_between 0%Z (sepIndex + 1)%Z dotIndex p
  then take_prefix (Z.to_nat dotIndex) p
  else p.

(** ** create_knowledge_base_s3vectors.py: ingestion *)

(** Tags of a document: a key and its values ([{'animal': ['cat'], ..}]). *)
Abbreviation Metadata := (gmap string (list string)).

(** What [os.listdir(kb_folder)] gives: the names of the entries of the
    folder, or the [OSError] it raises when the folder is missing, is not a
    folder or may not be read.  A list of names stands for the folder that
    has these entries. *)
Inductive Folder :=
| Listing (entries : list string)
| Unlistable (e : exn).

#[warning="-uniform-inheritance"]
Coercion Listing : list >-> Folder.

Section Ingestion.
Context {W : Type} `{Cloud W}.

(** [response['documentDetails']]. *)
Definition documentDetails (r : Response) : M W (list string) :=
  match r with
  | RDocumentDetails statuses => ret statuses
  | _ => raise (KeyError "documentDetails")
  end.

(** [l[0]]. *)
Definition item0 {A} (l : list A) : M W A :=
  match l with
  | x :: _ => ret x
  | [] => raise IndexError
  end.

Definition max_wait : nat := 60.

(** One status check of the monitoring loop, the inner [try] of
    [ingest_single_document].  [Some b]: the function returns [b];
    [None]: the loop goes on. *)
Definition check_status (knowledge_base_id data_source_id doc_id : string)
    : M W (option bool) :=
  try_except
    (let* get_response :=
       call (GetKnowledgeBaseDocuments knowledge_base_id data_source_id
               [{| di_dataSourceType := "CUSTOM"; di_custom_id := doc_id |}]) in
     let* details := documentDetails get_response in
     match details with
     | [] => ret None
     | status :: _ =>
         if String.eqb status "INDEXED" then ret (Some true)
         else if String.eqb status "FAILED" then ret (Some false)
         else ret None
     end)
    [(Exception_, fun e => ret None)].

(** [while waited < max_wait: time.sleep(5); waited += 5; ...], then the
    timeout.  The loop is bounded by [max_wait]; [fuel] is the number of
    iterations the model allows. *)
Fixpoint monitor (fuel : nat) (knowledge_base_id data_source_id doc_id : string)
    (waited : nat) : M W bool :=
  if (waited <? max_wait)%nat then
    match fuel with
    | O => out_of_fuel
    | S fuel' =>
        sleep (Seconds 5) ;;
        let waited := waited + 5 in
        let* r := check_status knowledge_base_id data_source_id doc_id in
        match r with
        | Some b => ret b
        | None => monitor fuel' knowledge_base_id data_source_id doc_id waited
        end
    end
  else ret false.

Definition ingest_single_document
    (knowledge_base_id data_source_id s3_uri doc_id : string)
    (metadata : Metadata) : M W bool :=
  let doc := {| customDocumentIdentifier_id := doc_id;
                s3Location_uri := s3_uri;
                sourceType := "S3_LOCATION";
                dataSourceType := "CUSTOM" |} in
  try_except
    (let* response :=
       call (IngestKnowledgeBaseDocuments data_source_id [doc] knowledge_base_id) in
     let* details := documentDetails response in
     let* doc_detail := item0 details in
     monitor max_wait knowledge_base_id data_source_id doc_id 0)
    [(Exception_, fun e => ret false)].

(** [f's3://{s3_bucket}/{kb_file}']. *)
Definition s3_uri_of (s3_bucket kb_file : string) : string :=
  "s3://" +:+ s3_bucket +:+ "/" +:+ kb_file.

(** [os.path.splitext(re.sub(r'[\s-]+', '-', kb_file))[0].lower()]. *)
Definition doc_id_of (kb_file : string) : string :=
  let clean_filename := re_sub_space_hyphen kb_file in
  lower (splitext_root clean_filename).

(** The [for kb_file in kb_files] loop of [ingest_knowledge_base_documents],
    with its [break]. *)
Fixpoint ingest_each (metadata_map : gmap string Metadata)
    (knowledge_base_id data_source_id s3_bucket : string)
    (kb_files : list string) (success_count fail_count : nat)
    : M W (nat * nat) :=
  match kb_files with
  | [] => ret (success_count, fail_count)
  | kb_file :: rest =>
      let s3_uri := s3_uri_of s3_bucket kb_file in
      let doc_id := doc_id_of kb_file in
      let metadata := default ∅ (metadata_map !! kb_file) in
      let* ok := ingest_single_document knowledge_base_id data_source_id
                   s3_uri doc_id metadata in
      if ok
      then ingest_each metadata_map knowledge_base_id data_source_id s3_bucket
             rest (success_count + 1) fail_count
      else ret (success_count, fail_count + 1)
  end.

Definition metadata_map : gmap string Metadata :=
  list_to_map
    [("cat-food-wikipedia.pdf",
        list_to_map [("animal", ["cat"]); ("topic", ["food"])]);
     ("cat-play-and-toys-wikipedia.pdf",
        list_to_map [("animal", ["cat"]); ("topic", ["play"; "toys"])]);
     ("dog-food-wikipedia.pdf",
        list_to_map [("animal", ["dog"]); ("topic", ["food"])]);
     ("dog-grooming-wikipedia.pdf",
        list_to_map [("animal", ["dog"]); ("topic", ["grooming"])])].

(** [os.listdir(kb_folder)]: it is called outside any [try], so that its
    error is the error of the caller. *)
Definition listdir (kb_folder : Folder) : M W (list string) :=
  match kb_folder with
  | Listing entries => ret entries
  | Unlistable e => raise e
  end.

(** [[file for file in entries if file.endswith('.pdf')]], [entries] being
    what [os.listdir] returned. *)
Definition kb_files_of (kb_folder : list string) : list string :=
  List.filter (fun file => endswith file ".pdf") kb_folder.

Definition ingest_knowledge_base_documents
    (knowledge_base_id data_source_id s3_bucket : string)
    (kb_folder : Folder) : M W (nat * nat) :=
  let* entries := listdir kb_folder in
  let kb_files := kb_files_of entries in
  ingest_each metadata_map knowledge_base_id data_source_id s3_bucket
    kb_files 0 0.

End Ingestion.

(** ** knowledge_base_s3.py: the class BedrockKnowledgeBase *)

Definition valid_embedding_models : list string :=
  ["cohere.embed-multilingual-v3";
   "cohere.embed-english-v3";
   "amazon.titan-embed-text-v2:0"].

(** [x in l] on strings. *)
Definition str_in (x : string) (l : list string) : bool :=
  existsb (String.eqb x) l.

(** [str(valid_embedding_models)]. *)
Definition valid_embeddings_str : string :=
  "['cohere.embed-multilingual-v3', 'cohere.embed-english-v3', 'amazon.titan-embed-text-v2:0']".

(** [str(x)] of a value that is a string or [None]. *)
Definition str_of (x : option string) : string :=
  match x with
  | Some s => s
  | None => "None"
  end.

(** The attributes [__init__] sets before its four steps. *)
Record Names := {
  region_name : string;
  account_number : option string;
  suffix : string;
  kb_name : string;
  kb_description : option string;
  bucket_name : string;
  embedding_model : string;
  kb_execution_role_name : string;
  fm_policy_name : string;
  s3_policy_name : string
}.

(** The object once [__init__] has returned: the attributes above and
    those the four steps set. *)
Record BedrockKnowledgeBase := {
  names : Names;
  vector_bucket_name : string;
  vector_index_name : string;
  vector_bucket_arn : string;
  vector_index_arn : string;
  bedrock_kb_execution_role : Role;
  knowledge_base : KnowledgeBase;
  data_source : DataSource
}.

Definition foundation_model_policy_document : PolicyDocument :=
  {| Version := "2012-10-17";
     Statement_ :=
       [{| Effect := "Allow"; Principal_Service := None;
           Action := "bedrock:*"; Resource := Some "*" |}] |}.

Definition s3_policy_document : PolicyDocument :=
  {| Version := "2012-10-17";
     Statement_ :=
       [{| Effect := "Allow"; Principal_Service := None;
           Action := "s3:*"; Resource := Some "*" |};
        {| Effect := "Allow"; Principal_Service := None;
           Action := "s3vectors:*"; Resource := Some "*" |}] |}.

Definition assume_role_policy_document : PolicyDocument :=
  {| Version := "2012-10-17";
     Statement_ :=
       [{| Effect := "Allow"; Principal_Service := Some "bedrock.amazonaws.com";
           Action := "sts:AssumeRole"; Resource := None |}] |}.

Definition chunking_strategy_configuration : ChunkingConfiguration :=
  {| chunkingStrategy := "FIXED_SIZE"; maxTokens := 300; overlapPercentage := 20 |}.

Section Provisioning.
Context {W : Type} `{Cloud W}.

(** Keys read in the responses. *)
Definition get_Account (r : Response) : option string :=
  match r with
  | RCallerIdentity a => a
  | _ => None
  end.

Definition get_vectorBucketArn (r : Response) : M W string :=
  match r with
  | RVectorBucket arn => ret arn
  | _ => raise (KeyError "vectorBucketArn")
  end.

Definition get_indexArn (r : Response) : M W string :=
  match r with
  | RIndex arn => ret arn
  | _ => raise (KeyError "indexArn")
  end.

Definition get_Policy_Arn (r : Response) : M W string :=
  match r with
  | RPolicy arn => ret arn
  | _ => raise (KeyError "Policy")
  end.

Definition get_Role (r : Response) : M W Role :=
  match r with
  | RRole role => ret role
  | _ => raise (KeyError "Role")
  end.

Definition get_knowledgeBase (r : Response) : M W KnowledgeBase :=
  match r with
  | RKnowledgeBase kb => ret kb
  | _ => raise (KeyError "knowledgeBase")
  end.

Definition get_knowledgeBaseSummaries (r : Response) : M W (list KnowledgeBase) :=
  match r with
  | RKnowledgeBaseSummaries l => ret l
  | _ => raise (KeyError "knowledgeBaseSummaries")
  end.

Definition get_dataSource (r : Response) : M W DataSource :=
  match r with
  | RDataSource ds => ret ds
  | _ => raise (KeyError "dataSource")
  end.

Definition get_dataSourceSummaries (r : Response) : M W (list DataSource) :=
  match r with
  | RDataSourceSummaries l => ret l
  | _ => raise (KeyError "dataSourceSummaries")
  end.

Definition get_ingestionJob (r : Response) : M W IngestionJob :=
  match r with
  | RIngestionJob job => ret job
  | _ => raise (KeyError "ingestionJob")
  end.

Definition get_Contents (r : Response) : option (list string) :=
  match r with
  | RObjects c => c
  | _ => None
  end.

(** [interactive_sleep(seconds)]: one [time.sleep(1)] per second. *)
Fixpoint interactive_sleep (seconds : nat) : M W unit :=
  match seconds with
  | O => ret tt
  | S n => sleep (Seconds 1) ;; interactive_sleep n
  end.

(** The decorator [@retry(wait_random_min, wait_random_max,
    stop_max_attempt_number)] of the [retrying] package: the function is
    run again after every exception, a random wait apart, and the
    exception of the last attempt allowed is raised. *)
Fixpoint retry_more (wait_random_min wait_random_max more : nat) {A}
    (f : M W A) : M W A :=
  fun st =>
    match f st with
    | (Raise e, st') =>
        match more with
        | O => (Raise e, st')
        | S more' =>
            (sleep (RandomMillis wait_random_min wait_random_max) ;;
             retry_more wait_random_min wait_random_max more' f) st'
        end
    | r => r
    end.

Definition retry (wait_random_min wait_random_max stop_max_attempt_number : nat)
    {A} (f : M W A) : M W A :=
  retry_more wait_random_min wait_random_max (stop_max_attempt_number - 1) f.

Definition create_s3_bucket (self : Names) : M W unit :=
  try_except
    (call (HeadBucket (bucket_name self)) ;; ret tt)
    [(ClientError_, fun e =>
        if String.eqb (region_name self) "us-east-1"
        then call (CreateBucket (bucket_name self) None) ;; ret tt
        else call (CreateBucket (bucket_name self) (Some (region_name self))) ;;
             ret tt)].

Definition create_s3_vector_resources (self : Names)
    : M W (string * string * string * string) :=
  let vector_bucket_name := lower (kb_name self +:+ "-vectors-" +:+ suffix self) in
  let vector_index_name := lower (kb_name self +:+ "-index") in
  let* vector_bucket_arn :=
    try_except
      (let* response := call (CreateVectorBucket vector_bucket_name) in
       get_vectorBucketArn response)
      [(Modeled S3Vectors "ConflictException", fun e =>
          let* response := call (GetVectorBucket vector_bucket_name) in
          get_vectorBucketArn response)] in
  let* vector_index_arn :=
    try_except
      (let* response :=
         call (CreateIndex vector_bucket_name vector_index_name 1024
                 "float32" "euclidean") in
       get_indexArn response)
      [(Modeled S3Vectors "ConflictException", fun e =>
          let* response := call (GetIndex vector_bucket_name vector_index_name) in
          get_indexArn response)] in
  ret (vector_bucket_name, vector_index_name, vector_bucket_arn, vector_index_arn).

Definition policy_arn (self : Names) (policy_name : string) : string :=
  "arn:aws:iam::" +:+ str_of (account_number self) +:+ ":policy/" +:+ policy_name.

Definition create_bedrock_kb_execution_role (self : Names) : M W Role :=
  let* fm_policy :=
    try_except
      (call (CreatePolicy (fm_policy_name self) foundation_model_policy_document
               "Policy for accessing foundation model"))
      [(Modeled IAM "EntityAlreadyExistsException", fun e =>
          call (GetPolicy (policy_arn self (fm_policy_name self))))] in
  let* s3_policy :=
    try_except
      (call (CreatePolicy (s3_policy_name self) s3_policy_document
               "Policy for reading documents from s3"))
      [(Modeled IAM "EntityAlreadyExistsException", fun e =>
          let* s3_policy := call (GetPolicy (policy_arn self (s3_policy_name self))) in
          let* arn := get_Policy_Arn s3_policy in
          call (CreatePolicyVersion arn s3_policy_document true) ;;
          ret s3_policy)] in
  let* bedrock_kb_execution_role :=
    try_except
      (call (CreateRole (kb_execution_role_name self) assume_role_policy_document
               "Amazon Bedrock Knowledge Base Execution Role for accessing S3"
               3600))
      [(Modeled IAM "EntityAlreadyExistsException", fun e =>
          let* role := call (GetRole (kb_execution_role_name self)) in
          call (UpdateAssumeRolePolicy (kb_execution_role_name self)
                  assume_role_policy_document) ;;
          ret role)] in
  let* s3_policy_arn := get_Policy_Arn s3_policy in
  let* fm_policy_arn := get_Policy_Arn fm_policy in
  let* role := get_Role bedrock_kb_execution_role in
  call (AttachRolePolicy (RoleName role) fm_policy_arn) ;;
  call (AttachRolePolicy (RoleName role) s3_policy_arn) ;;
  interactive_sleep 60 ;;
  ret role.

(** The loop of the conflict handler:
    [kb_id = None; for kb in summaries: if kb['name'] == kb_name: kb_id = ..]. *)
Definition find_kb_id (kb_name : string) (summaries : list KnowledgeBase)
    : option string :=
  fold_left
    (fun kb_id kb =>
       if String.eqb (kb_name_ kb) kb_name then Some (knowledgeBaseId kb) else kb_id)
    summaries None.

(** [get_knowledge_base(knowledgeBaseId=kb_id)]: boto3 refuses [None] when
    it validates the parameters, before any request. *)
Definition get_knowledge_base_by (kb_id : option string) : M W Response :=
  match kb_id with
  | Some id => call (GetKnowledgeBase id)
  | None => raise (OtherException "ParamValidationError")
  end.

(** The body of [create_knowledge_base], one attempt of the decorated
    method. *)
Definition create_knowledge_base_attempt (self : Names)
    (vector_bucket_arn vector_index_arn : string)
    (bedrock_kb_execution_role : Role) : M W (KnowledgeBase * DataSource) :=
  let embedding_model_arn :=
    "arn:aws:bedrock:" +:+ region_name self +:+ "::foundation-model/"
    +:+ embedding_model self in
  let* kb :=
    try_except
      (let* create_kb_response :=
         call (CreateKnowledgeBase (kb_name self) (kb_description self)
                 (RoleArn bedrock_kb_execution_role) "VECTOR" embedding_model_arn
                 "S3_VECTORS" vector_bucket_arn vector_index_arn) in
       get_knowledgeBase create_kb_response)
      [(Exception_, fun e =>
          let* role_details := call (GetRole (kb_execution_role_name self)) in
          let* role := get_Role role_details in
          let* attached_policies :=
            call (ListAttachedRolePolicies (kb_execution_role_name self)) in
          raise e);
       (Modeled BedrockAgent "ConflictException", fun e =>
          let* kbs := call (ListKnowledgeBases 100) in
          let* summaries := get_knowledgeBaseSummaries kbs in
          let kb_id := find_kb_id (kb_name self) summaries in
          let* response := get_knowledge_base_by kb_id in
          get_knowledgeBase response)] in
  let* ds :=
    try_except
      (let* create_ds_response :=
         call (CreateDataSource (kb_name self) (kb_description self)
                 (knowledgeBaseId kb) "CUSTOM" chunking_strategy_configuration) in
       get_dataSource create_ds_response)
      [(Modeled BedrockAgent "ConflictException", fun e =>
          let* listed := call (ListDataSources (knowledgeBaseId kb) 100) in
          let* summaries := get_dataSourceSummaries listed in
          let* first := item0 summaries in
          let ds_id := dataSourceId first in
          let* get_ds_response := call (GetDataSource ds_id (knowledgeBaseId kb)) in
          get_dataSource get_ds_response)] in
  ret (kb, ds).

Definition create_knowledge_base (self : Names)
    (vector_bucket_arn vector_index_arn : string)
    (bedrock_kb_execution_role : Role) : M W (KnowledgeBase * DataSource) :=
  retry 1000 2000 7
    (create_knowledge_base_attempt self vector_bucket_arn vector_index_arn
       bedrock_kb_execution_role).

(** [BedrockKnowledgeBase(kb_name, kb_description, data_bucket_name,
    embedding_model)].  [region] is the region the process is configured
    with ([AWS_REGION], or the region of the boto3 session). *)
Definition __init__ (region : string) (kb_name : string)
    (kb_description data_bucket_name : option string) (embedding_model : string)
    : M W BedrockKnowledgeBase :=
  let* identity := call GetCallerIdentity in
  let account_number := get_Account identity in
  let suffix := take_prefix 4 (str_of account_number) in
  let bucket_name :=
    match data_bucket_name with
    | Some b => b
    | None => kb_name +:+ "-" +:+ suffix
    end in
  if negb (str_in embedding_model valid_embedding_models)
  then raise (ValueError
                ("Invalid embedding model. Your embedding model should be one of "
                 +:+ valid_embeddings_str))
  else
    let self :=
      {| region_name := region;
         account_number := account_number;
         suffix := suffix;
         kb_name := kb_name;
         kb_description := kb_description;
         bucket_name := bucket_name;
         embedding_model := embedding_model;
         kb_execution_role_name :=
           "AmazonBedrockExecutionRoleForKnowledgeBase_" +:+ suffix;
         fm_policy_name :=
           "AmazonBedrockFoundationModelPolicyForKnowledgeBase_" +:+ suffix;
         s3_policy_name := "AmazonBedrockS3PolicyForKnowledgeBase_" +:+ suffix |} in
    create_s3_bucket self ;;
    let* vector := create_s3_vector_resources self in
    let '(vector_bucket_name, vector_index_name, vector_bucket_arn,
          vector_index_arn) := vector in
    let* bedrock_kb_execution_role := create_bedrock_kb_execution_role self in
    let* kb_ds :=
      create_knowledge_base self vector_bucket_arn vector_index_arn
        bedrock_kb_execution_role in
    ret {| names := self;
           vector_bucket_name := vector_bucket_name;
           vector_index_name := vector_index_name;
           vector_bucket_arn := vector_bucket_arn;
           vector_index_arn := vector_index_arn;
           bedrock_kb_execution_role := bedrock_kb_execution_role;
           knowledge_base := fst kb_ds;
           data_source := snd kb_ds |}.

(** The [while job['status'] != 'COMPLETE'] loop of [start_ingestion_job].
    Nothing in the loop bounds it; [fuel] is the number of iterations the
    model allows. *)
Fixpoint poll_ingestion_job (fuel : nat) (self : BedrockKnowledgeBase)
    (job : IngestionJob) : M W IngestionJob :=
  if negb (String.eqb (job_status job) "COMPLETE") then
    match fuel with
    | O => out_of_fuel
    | S fuel' =>
        let* get_job_response :=
          call (GetIngestionJob (knowledgeBaseId (knowledge_base self))
                  (dataSourceId (data_source self)) (ingestionJobId job)) in
        let* job := get_ingestionJob get_job_response in
        poll_ingestion_job fuel' self job
    end
  else ret job.

Definition start_ingestion_job (fuel : nat) (self : BedrockKnowledgeBase)
    : M W unit :=
  let* start_job_response :=
    call (StartIngestionJob (knowledgeBaseId (knowledge_base self))
            (dataSourceId (data_source self))) in
  let* job := get_ingestionJob start_job_response in
  let* job := poll_ingestion_job fuel self job in
  interactive_sleep 40.

Definition get_knowledge_base_id (self : BedrockKnowledgeBase) : string :=
  knowledgeBaseId (knowledge_base self).

Definition get_datasource_id (self : BedrockKnowledgeBase) : string :=
  dataSourceId (data_source self).

Definition get_bucket_name (self : BedrockKnowledgeBase) : string :=
  bucket_name (names self).

Definition delete_iam_roles_and_policies (self : Names) : M W nat :=
  let fm_policy_arn := policy_arn self (fm_policy_name self) in
  let s3_policy_arn := policy_arn self (s3_policy_name self) in
  call (DetachRolePolicy (kb_execution_role_name self) s3_policy_arn) ;;
  call (DetachRolePolicy (kb_execution_role_name self) fm_policy_arn) ;;
  call (DeleteRole (kb_execution_role_name self)) ;;
  call (DeletePolicy s3_policy_arn) ;;
  call (DeletePolicy fm_policy_arn) ;;
  ret 0.

(** [for obj in objects['Contents']: delete_object(.., Key=obj['Key'])]. *)
Fixpoint delete_objects (bucket : string) (keys : list string) : M W unit :=
  match keys with
  | [] => ret tt
  | key :: rest => call (DeleteObject bucket key) ;; delete_objects bucket rest
  end.

Definition delete_s3 (self : Names) : M W unit :=
  let* objects := call (ListObjects (bucket_name self)) in
  match get_Contents objects with
  | Some contents => delete_objects (bucket_name self) contents
  | None => ret tt
  end ;;
  call (DeleteBucket (bucket_name self)) ;;
  ret tt.

Definition delete_kb (self : BedrockKnowledgeBase)
    (delete_s3_bucket delete_iam_roles_and_policies_ : bool) : M W unit :=
  call (DeleteDataSource (dataSourceId (data_source self))
          (knowledgeBaseId (knowledge_base self))) ;;
  call (DeleteKnowledgeBase (knowledgeBaseId (knowledge_base self))) ;;
  (if delete_s3_bucket then delete_s3 (names self) else ret tt) ;;
  (if delete_iam_roles_and_policies_
   then delete_iam_roles_and_policies (names self) ;; ret tt
   else ret tt).

End Provisioning.

(** ** create_knowledge_base_s3vectors.py: extraction and the script's
    knowledge base *)

(** [re.sub(r'[\s-]+', '-', file).lower()]: the name [extract_zip_file]
    gives to the file it has extracted. *)
Definition clean_filename (file : string) : string :=
  lower (re_sub_space_hyphen file).

Section ScriptFunctions.
Context {W : Type} `{Cloud W}.

(** [max_wait] of [create_bedrock_knowledge_base]. *)
Definition max_wait_active : nat := 120.

(** [while waited < max_wait: ...; time.sleep(10); waited += 10] of
    [create_bedrock_knowledge_base]: the loop ends by [break] when the
    status is [ACTIVE], by [raise Exception(..)] when it is [FAILED], and
    when the time is over.  [Exception(message)] is [OtherException
    message]; [fuel] is the number of iterations the model allows. *)
Fixpoint wait_until_active (fuel : nat) (kb_id : string) (waited : nat)
    : M W unit :=
  if (waited <? max_wait_active)%nat then
    match fuel with
    | O => out_of_fuel
    | S fuel' =>
        let* response := call (GetKnowledgeBase kb_id) in
        let* kb := get_knowledgeBase response in
        let status := kb_status kb in
        if String.eqb status "ACTIVE" then ret tt
        else if String.eqb status "FAILED"
        then raise (OtherException "Knowledge Base creation failed")
        else sleep (Seconds 10) ;;
             wait_until_active fuel' kb_id (waited + 10)
    end
  else ret tt.

(** [create_bedrock_knowledge_base(name, description, s3_bucket)];
    [s3_bucket] is [None] when [main] could not create the bucket. *)
Definition create_bedrock_knowledge_base (region name description : string)
    (s3_bucket : option string) : M W BedrockKnowledgeBase :=
  let* knowledge_base :=
    __init__ region name (Some description) s3_bucket
      "amazon.titan-embed-text-v2:0" in
  let kb_id := get_knowledge_base_id knowledge_base in
  wait_until_active max_wait_active kb_id 0 ;;
  ret knowledge_base.

End ScriptFunctions.

(** ** Concrete clouds *)

(** *** A simulated AWS account

    The control plane as the code and the documentation of the services
    have it: a resource is known by its name, creating a name that exists
    is refused ([ConflictException], [EntityAlreadyExistsException]),
    reading or deleting a name that does not exist is refused.  Quotas,
    eventual consistency and the ingestion data plane are not simulated. *)
Record Account := {
  acct_id : string;
  acct_region : string;
  acct_buckets : gmap string (list string);        (* bucket -> keys *)
  acct_vector_buckets : gmap string (list string); (* vector bucket -> indexes *)
  acct_policies : gmap string nat;                 (* policy arn -> versions *)
  acct_roles : gmap string (PolicyDocument * list string);
                                                   (* role -> trust, attached arns *)
  acct_kbs : gmap string KnowledgeBase;            (* name -> knowledge base *)
  acct_data_sources : gmap string (list (string * DataSource));
                                                   (* kb id -> (name, source) *)
  acct_next : nat                                  (* next identifier *)
}.

Definition new_account (id region : string) : Account :=
  {| acct_id := id; acct_region := region;
     acct_buckets := ∅; acct_vector_buckets := ∅; acct_policies := ∅;
     acct_roles := ∅; acct_kbs := ∅; acct_data_sources := ∅; acct_next := 1 |}.

Definition set_buckets (a : Account) v : Account :=
  {| acct_id := acct_id a; acct_region := acct_region a; acct_buckets := v;
     acct_vector_buckets := acct_vector_buckets a; acct_policies := acct_policies a;
     acct_roles := acct_roles a; acct_kbs := acct_kbs a;
     acct_data_sources := acct_data_sources a; acct_next := acct_next a |}.

Definition set_vector_buckets (a : Account) v : Account :=
  {| acct_id := acct_id a; acct_region := acct_region a; acct_buckets := acct_buckets a;
     acct_vector_buckets := v; acct_policies := acct_policies a;
     acct_roles := acct_roles a; acct_kbs := acct_kbs a;
     acct_data_sources := acct_data_sources a; acct_next := acct_next a |}.

Definition set_policies (a : Account) v : Account :=
  {| acct_id := acct_id a; acct_region := acct_region a; acct_buckets := acct_buckets a;
     acct_vector_buckets := acct_vector_buckets a; acct_policies := v;
     acct_roles := acct_roles a; acct_kbs := acct_kbs a;
     acct_data_sources := acct_data_sources a; acct_next := acct_next a |}.

Definition set_roles (a : Account) v : Account :=
  {| acct_id := acct_id a; acct_region := acct_region a; acct_buckets := acct_buckets a;
     acct_vector_buckets := acct_vector_buckets a; acct_policies := acct_policies a;
     acct_roles := v; acct_kbs := acct_kbs a;
     acct_data_sources := acct_data_sources a; acct_next := acct_next a |}.

Definition set_kbs (a : Account) v (next : nat) : Account :=
  {| acct_id := acct_id a; acct_region := acct_region a; acct_buckets := acct_buckets a;
     acct_vector_buckets := acct_vector_buckets a; acct_policies := acct_policies a;
     acct_roles := acct_roles a; acct_kbs := v;
     acct_data_sources := acct_data_sources a; acct_next := next |}.

Definition set_data_sources (a : Account) v (next : nat) : Account :=
  {| acct_id := acct_id a; acct_region := acct_region a; acct_buckets := acct_buckets a;
     acct_vector_buckets := acct_vector_buckets a; acct_policies := acct_policies a;
     acct_roles := acct_roles a; acct_kbs := acct_kbs a;
     acct_data_sources := v; acct_next := next |}.

Definition vector_bucket_arn_of (a : Account) (name : string) : string :=
  "arn:aws:s3vectors:" +:+ acct_region a +:+ ":" +:+ acct_id a +:+ ":bucket/" +:+ name.

Definition index_arn_of (a : Account) (bucket index : string) : string :=
  vector_bucket_arn_of a bucket +:+ "/index/" +:+ index.

Definition policy_arn_of (a : Account) (name : string) : string :=
  "arn:aws:iam::" +:+ acct_id a +:+ ":policy/" +:+ name.

Definition role_of (a : Account) (name : string) (trust : PolicyDocument) : Role :=
  {| RoleName := name;
     RoleArn := "arn:aws:iam::" +:+ acct_id a +:+ ":role/" +:+ name;
     AssumeRolePolicyDocument := trust |}.

Definition remove_str (x : string) (l : list string) : list string :=
  List.filter (fun y => negb (String.eqb x y)) l.

(** The knowledge base of identifier [id], if any. *)
Definition kb_by_id (a : Account) (id : string) : option KnowledgeBase :=
  List.find (fun kb => String.eqb (knowledgeBaseId kb) id)
    (map snd (map_to_list (acct_kbs a))).

(** Some role has the policy [arn] attached. *)
Definition policy_in_use (a : Account) (arn : string) : bool :=
  existsb (fun r => str_in arn (snd (snd r))) (map_to_list (acct_roles a)).

Definition ok (a : Account) (r : Response) : (Response + exn) * Account := (inl r, a).
Definition refuse (a : Account) (svc : service) (code : string)
    : (Response + exn) * Account := (inr (ClientError svc code), a).

Definition account_respond (a : Account) (c : Call) : (Response + exn) * Account :=
  match c with
  | GetCallerIdentity => ok a (RCallerIdentity (Some (acct_id a)))
  | HeadBucket b =>
      match acct_buckets a !! b with
      | Some _ => ok a RNone
      | None => refuse a S3 "404"
      end
  | CreateBucket b _ =>
      match acct_buckets a !! b with
      | Some _ => refuse a S3 "BucketAlreadyOwnedByYou"
      | None => ok (set_buckets a (<[b := []]> (acct_buckets a))) RNone
      end
  | ListObjects b =>
      match acct_buckets a !! b with
      | Some [] => ok a (RObjects None)
      | Some keys => ok a (RObjects (Some keys))
      | None => refuse a S3 "NoSuchBucket"
      end
  | DeleteObject b k =>
      match acct_buckets a !! b with
      | Some keys => ok (set_buckets a (<[b := remove_str k keys]> (acct_buckets a))) RNone
      | None => refuse a S3 "NoSuchBucket"
      end
  | DeleteBucket b =>
      match acct_buckets a !! b with
      | Some [] => ok (set_buckets a (delete b (acct_buckets a))) RNone
      | Some _ => refuse a S3 "BucketNotEmpty"
      | None => refuse a S3 "NoSuchBucket"
      end
  | CreateVectorBucket n =>
      match acct_vector_buckets a !! n with
      | Some _ => refuse a S3Vectors "ConflictException"
      | None => ok (set_vector_buckets a (<[n := []]> (acct_vector_buckets a)))
                  (RVectorBucket (vector_bucket_arn_of a n))
      end
  | GetVectorBucket n =>
      match acct_vector_buckets a !! n with
      | Some _ => ok a (RVectorBucket (vector_bucket_arn_of a n))
      | None => refuse a S3Vectors "NotFoundException"
      end
  | CreateIndex n i _ _ _ =>
      match acct_vector_buckets a !! n with
      | Some indexes =>
          if str_in i indexes then refuse a S3Vectors "ConflictException"
          else ok (set_vector_buckets a (<[n := indexes ++ [i]]> (acct_vector_buckets a)))
                 (RIndex (index_arn_of a n i))
      | None => refuse a S3Vectors "NotFoundException"
      end
  | GetIndex n i =>
      match acct_vector_buckets a !! n with
      | Some indexes =>
          if str_in i indexes then ok a (RIndex (index_arn_of a n i))
          else refuse a S3Vectors "NotFoundException"
      | None => refuse a S3Vectors "NotFoundException"
      end
  | CreatePolicy n _ _ =>
      let arn := policy_arn_of a n in
      match acct_policies a !! arn with
      | Some _ => refuse a IAM "EntityAlreadyExistsException"
      | None => ok (set_policies a (<[arn := 1]> (acct_policies a))) (RPolicy arn)
      end
  | GetPolicy arn =>
      match acct_policies a !! arn with
      | Some _ => ok a (RPolicy arn)
      | None => refuse a IAM "NoSuchEntityException"
      end
  | CreatePolicyVersion arn _ _ =>
      match acct_policies a !! arn with
      | Some v => ok (set_policies a (<[arn := S v]> (acct_policies a))) RNone
      | None => refuse a IAM "NoSuchEntityException"
      end
  | CreateRole n trust _ _ =>
      match acct_roles a !! n with
      | Some _ => refuse a IAM "EntityAlreadyExistsException"
      | None => ok (set_roles a (<[n := (trust, [])]> (acct_roles a)))
                  (RRole (role_of a n trust))
      end
  | GetRole n =>
      match acct_roles a !! n with
      | Some (trust, _) => ok a (RRole (role_of a n trust))
      | None => refuse a IAM "NoSuchEntityException"
      end
  | UpdateAssumeRolePolicy n trust =>
      match acct_roles a !! n with
      | Some (_, attached) =>
          ok (set_roles a (<[n := (trust, attached)]> (acct_roles a))) RNone
      | None => refuse a IAM "NoSuchEntityException"
      end
  | AttachRolePolicy n arn =>
      match acct_roles a !! n, acct_policies a !! arn with
      | Some (trust, attached), Some _ =>
          if str_in arn attached then ok a RNone
          else ok (set_roles a (<[n := (trust, attached ++ [arn])]> (acct_roles a))) RNone
      | _, _ => refuse a IAM "NoSuchEntityException"
      end
  | ListAttachedRolePolicies n =>
      match acct_roles a !! n with
      | Some (_, attached) => ok a (RAttachedPolicies attached)
      | None => refuse a IAM "NoSuchEntityException"
      end
  | DetachRolePolicy n arn =>
      match acct_roles a !! n with
      | Some (trust, attached) =>
          if str_in arn attached
          then ok (set_roles a (<[n := (trust, remove_str arn attached)]> (acct_roles a)))
                 RNone
          else refuse a IAM "NoSuchEntityException"
      | None => refuse a IAM "NoSuchEntityException"
      end
  | DeleteRole n =>
      match acct_roles a !! n with
      | Some (_, []) => ok (set_roles a (delete n (acct_roles a))) RNone
      | Some _ => refuse a IAM "DeleteConflictException"
      | None => refuse a IAM "NoSuchEntityException"
      end
  | DeletePolicy arn =>
      match acct_policies a !! arn with
      | Some _ =>
          if policy_in_use a arn then refuse a IAM "DeleteConflictException"
          else ok (set_policies a (delete arn (acct_policies a))) RNone
      | None => refuse a IAM "NoSuchEntityException"
      end
  | CreateKnowledgeBase n _ _ _ _ _ _ _ =>
      match acct_kbs a !! n with
      | Some _ => refuse a BedrockAgent "ConflictException"
      | None =>
          let kb := {| knowledgeBaseId := "KB" +:+ pretty (acct_next a);
                       kb_name_ := n; kb_status := "ACTIVE" |} in
          ok (set_kbs a (<[n := kb]> (acct_kbs a)) (S (acct_next a))) (RKnowledgeBase kb)
      end
  | ListKnowledgeBases _ =>
      ok a (RKnowledgeBaseSummaries (map snd (map_to_list (acct_kbs a))))
  | GetKnowledgeBase id =>
      match kb_by_id a id with
      | Some kb => ok a (RKnowledgeBase kb)
      | None => refuse a BedrockAgent "ResourceNotFoundException"
      end
  | CreateDataSource n _ id _ _ =>
      match kb_by_id a id with
      | Some _ =>
          let sources := default [] (acct_data_sources a !! id) in
          if str_in n (map fst sources) then refuse a BedrockAgent "ConflictException"
          else
            let ds := {| dataSourceId := "DS" +:+ pretty (acct_next a);
                         ds_knowledgeBaseId := id |} in
            ok (set_data_sources a (<[id := sources ++ [(n, ds)]]> (acct_data_sources a))
                  (S (acct_next a)))
               (RDataSource ds)
      | None => refuse a BedrockAgent "ResourceNotFoundException"
      end
  | ListDataSources id _ =>
      match kb_by_id a id with
      | Some _ =>
          ok a (RDataSourceSummaries (map snd (default [] (acct_data_sources a !! id))))
      | None => refuse a BedrockAgent "ResourceNotFoundException"
      end
  | GetDataSource ds id =>
      match List.find (fun s => String.eqb (dataSourceId (snd s)) ds)
              (default [] (acct_data_sources a !! id)) with
      | Some s => ok a (RDataSource (snd s))
      | None => refuse a BedrockAgent "ResourceNotFoundException"
      end
  | DeleteDataSource ds id =>
      let sources := default [] (acct_data_sources a !! id) in
      if existsb (fun s => String.eqb (dataSourceId (snd s)) ds) sources
      then ok (set_data_sources a
                 (<[id := List.filter
                            (fun s => negb (String.eqb (dataSourceId (snd s)) ds))
                            sources]> (acct_data_sources a))
                 (acct_next a))
              RNone
      else refuse a BedrockAgent "ResourceNotFoundException"
  | DeleteKnowledgeBase id =>
      match kb_by_id a id with
      | Some kb =>
          match default [] (acct_data_sources a !! id) with
          | [] => ok (set_kbs a (delete (kb_name_ kb) (acct_kbs a)) (acct_next a)) RNone
          | _ => refuse a BedrockAgent "ConflictException"
          end
      | None => refuse a BedrockAgent "ResourceNotFoundException"
      end
  | StartIngestionJob _ _
  | GetIngestionJob _ _ _
  | IngestKnowledgeBaseDocuments _ _ _
  | GetKnowledgeBaseDocuments _ _ _ => (inr (OtherException "NotSimulated"), a)
  end.

#[export] Instance account_cloud : Cloud Account :=
  {| respond := account_respond; elapse := fun a _ => a |}.

(** *** A cloud that plays back a script

    The answers are given in advance, one per call, whatever the call. *)
Record Script := { answers : list (Response + exn) }.

Definition script_respond (s : Script) (c : Call) : (Response + exn) * Script :=
  match answers s with
  | r :: rest => (r, {| answers := rest |})
  | [] => (inr (OtherException "EndOfScript"), s)
  end.

#[export] Instance script_cloud : Cloud Script :=
  {| respond := script_respond; elapse := fun s _ => s |}.

(** *** A cloud that always gives the same answer *)
Record Always := { answer : Response + exn }.

#[export] Instance always_cloud : Cloud Always :=
  {| respond := fun a _ => (answer a, a); elapse := fun a _ => a |}.

(** A run from a cloud state, with an empty log. *)
Definition run {W A} (m : M W A) (w : W) : outcome A * St W := m (mkSt w []).



(** ** Vocabulary of the statements *)

(** The calls of a log, in the order they were issued. *)
Definition calls_of (l : list Event) : list Call :=
  omap (fun e => match e with Called c _ => Some c | Slept _ => None end) l.

(** The answer of a status poll reports [status]:
    [get_response['documentDetails'][0]['status'] == status]. *)
Definition reports (status : string) (a : Response + exn) : bool :=
  match a with
  | inl (RDocumentDetails (s :: _)) => String.eqb s status
  | _ => false
  end.

(** The answer of a status poll ends the monitoring loop: it reports
    [INDEXED] or [FAILED].  Every other answer (another status, no document
    detail, a malformed answer, an exception) lets the loop go on. *)
Definition terminal (a : Response + exn) : bool :=
  reports "INDEXED" a || reports "FAILED" a.

(** The submission was accepted: the call returned, and its answer
    describes a document ([response['documentDetails'][0]]). *)
Definition accepted (a : Response + exn) : bool :=
  match a with
  | inl (RDocumentDetails (_ :: _)) => true
  | _ => false
  end.

(** The descriptor submitted for a document. *)
Definition descriptor (doc_id s3_uri : string) : Document :=
  {| customDocumentIdentifier_id := doc_id;
     s3Location_uri := s3_uri;
     sourceType := "S3_LOCATION";
     dataSourceType := "CUSTOM" |}.

Definition status_poll (knowledge_base_id data_source_id doc_id : string) : Call :=
  GetKnowledgeBaseDocuments knowledge_base_id data_source_id
    [{| di_dataSourceType := "CUSTOM"; di_custom_id := doc_id |}].

(** The log of a monitoring loop whose polls got the answers [polls]: a
    wait of 5 seconds, then the poll, for each. *)
Definition rounds (knowledge_base_id data_source_id doc_id : string)
    (polls : list (Response + exn)) : list Event :=
  flat_map
    (fun a => [Slept (Seconds 5);
               Called (status_poll knowledge_base_id data_source_id doc_id) a])
    polls.


Definition is_ret {A} (r : outcome A) : Prop :=
  match r with
  | Ret _ => True
  | _ => False
  end.

(** The keys an answer to [list_objects] lists. *)
Definition keys_of (a : Response + exn) : list string :=
  match a with
  | inl r => default [] (get_Contents r)
  | inr _ => []
  end.

(** The keys listed by the first [list_objects] of a log. *)
Definition listed_keys (l : list Event) : list string :=
  default []
    (head (omap (fun e => match e with
                          | Called (ListObjects _) a => Some (keys_of a)
                          | _ => None
                          end) l)).

Definition storage_plan (self : Names) (contents : list string) : list Call :=
  ListObjects (bucket_name self)
  :: map (DeleteObject (bucket_name self)) contents
  ++ [DeleteBucket (bucket_name self)].

Definition iam_plan (self : Names) : list Call :=
  [DetachRolePolicy (kb_execution_role_name self) (policy_arn self (s3_policy_name self));
   DetachRolePolicy (kb_execution_role_name self) (policy_arn self (fm_policy_name self));
   DeleteRole (kb_execution_role_name self);
   DeletePolicy (policy_arn self (s3_policy_name self));
   DeletePolicy (policy_arn self (fm_policy_name self))].

(** The calls of a teardown that nothing interrupts, given the keys the
    bucket listing returns. *)
Definition teardown_plan (self : BedrockKnowledgeBase)
    (delete_s3_bucket delete_iam : bool) (contents : list string) : list Call :=
  [DeleteDataSource (dataSourceId (data_source self))
     (knowledgeBaseId (knowledge_base self));
   DeleteKnowledgeBase (knowledgeBaseId (knowledge_base self))]
  ++ (if delete_s3_bucket then storage_plan (names self) contents else [])
  ++ (if delete_iam then iam_plan (names self) else []).

(** An index is created with the dimension 1024. *)
Definition index_dimension_ok (e : Event) : Prop :=
  match e with
  | Called (CreateIndex _ _ d _ _) _ => d = 1024
  | _ => True
  end.

(** The event is not a look-up of knowledge bases ([list_knowledge_bases],
    [get_knowledge_base]), the calls of the conflict handler. *)
Definition no_kb_lookup (e : Event) : Prop :=
  match e with
  | Called (ListKnowledgeBases _) _ | Called (GetKnowledgeBase _) _ => False
  | _ => True
  end.

(** The error of [__init__] for a model outside the allow-list. *)
Definition invalid_embedding_model : exn :=
  ValueError ("Invalid embedding model. Your embedding model should be one of "
              +:+ valid_embeddings_str).

Definition conflict : exn := ClientError BedrockAgent "ConflictException".

(** The call deletes or detaches something. *)
Definition is_delete (c : Call) : bool :=
  match c with
  | DeleteObject _ _ | DeleteBucket _ | DetachRolePolicy _ _ | DeleteRole _
  | DeletePolicy _ | DeleteDataSource _ _ | DeleteKnowledgeBase _ => true
  | _ => false
  end.

Section Statements.
Context {W : Type} `{Cloud W}.

(** The run of [m] from [st] issues calls along [plan], in its order: a
    prefix of it, and the whole of it when [m] returns. *)
Definition follows {A} (plan : list Call) (m : M W A) (st : St W) : Prop :=
  ∃ evs,
    log (snd (m st)) = log st ++ evs
    ∧ calls_of evs `prefix_of` plan
    ∧ (is_ret (fst (m st)) → calls_of evs = plan).


(** The run of [m] keeps the property [I] of the cloud and does not run
    out of fuel. *)
Definition steady {A} (I : W → Prop) (m : M W A) : Prop :=
  ∀ st, I (cloud st) → I (cloud (snd (m st))) ∧ fst (m st) ≠ OutOfFuel.

(** From a cloud that has the property [I], the run of [m] raises, and
    leaves a cloud that has it. *)
Definition raises_under {A} (I : W → Prop) (m : M W A) : Prop :=
  ∀ st, I (cloud st) → ∃ e st', m st = (Raise e, st') ∧ I (cloud st').

(** When the run of [m] returns, the cloud it leaves has the property [I]. *)
Definition ensures {A} (I : W → Prop) (m : M W A) : Prop :=
  ∀ st a st', m st = (Ret a, st') → I (cloud st').

(** Every event a run of [m] adds to the log satisfies [P]. *)
Definition emits {A} (P : Event → Prop) (m : M W A) : Prop :=
  ∀ st, ∃ evs, log (snd (m st)) = log st ++ evs ∧ Forall P evs.

(** The documents of [kb_files] are ingested one after the other from the
    state [st], every one with success, and leave the state [st']. *)
Inductive all_indexed (knowledge_base_id data_source_id s3_bucket : string)
    : list string → St W → St W → Prop :=
| all_indexed_nil st :
    all_indexed knowledge_base_id data_source_id s3_bucket [] st st
| all_indexed_cons kb_file rest st st1 st2 :
    ingest_single_document knowledge_base_id data_source_id
      (s3_uri_of s3_bucket kb_file) (doc_id_of kb_file)
      (default ∅ (metadata_map !! kb_file)) st = (Ret true, st1) →
    all_indexed knowledge_base_id data_source_id s3_bucket rest st1 st2 →
    all_indexed knowledge_base_id data_source_id s3_bucket (kb_file :: rest) st st2.

End Statements.

(** ** The claims the code does not meet, as the specification states them *)

(** Section 4.5, step 4: an exception during polling is a failure of the
    document. *)
Definition failure_on_any_exception : Prop :=
  ∀ (W : Type) (C : Cloud W) kb ds uri id (md : Metadata) (w : W) c e b st',
    run (ingest_single_document kb ds uri id md) w = (Ret b, st') →
    Called c (inr e) ∈ log st' →
    b = false.


(** Section 7: once the mandatory deletions are done, a failure of the
    storage step neither keeps the IAM step from running nor aborts the
    teardown. *)
Definition optional_steps_best_effort : Prop :=
  ∀ (W : Type) (C : Cloud W) self (w : W) r,
    let result := run (delete_kb self true true) w in
    Called (DeleteKnowledgeBase (knowledgeBaseId (knowledge_base self))) (inl r)
      ∈ log (snd result) →
    DeleteRole (kb_execution_role_name (names self)) ∈ calls_of (log (snd result))
    ∧ is_ret (fst result).

(** Section 8: a model whose width is not the dimension of the index is
    refused before any cloud call.  [width] is the width the models
    declare. *)
Definition mismatch_refused_before_any_call (width : string → nat) : Prop :=
  ∀ (W : Type) (C : Cloud W) region kb desc bucket model (w : W),
    width model ≠ 1024 →
    ∃ e st',
      run (__init__ region kb desc bucket model) w = (Raise e, st')
      ∧ log st' = [].

(** Section 4.4: a model outside the allow-list is refused with
    [ValueError] and without a cloud call. *)
Definition unknown_model_refused_without_call : Prop :=
  ∀ (W : Type) (C : Cloud W) region kb desc bucket model (w : W),
    model ∉ valid_embedding_models →
    ∃ st',
      run (__init__ region kb desc bucket model) w
      = (Raise invalid_embedding_model, st')
      ∧ log st' = [].

(** ** Scenarios *)

(** An account with nothing in it, and the construction of the knowledge
    base of the script in it. *)
Definition fresh_account : Account := new_account "123456789012" "us-east-1".

Definition construct_pets_kb (embedding_model : string)
    : M Account BedrockKnowledgeBase :=
  __init__ "us-east-1" "pets-kb" (Some "Pets Knowledge Base on cats and dogs")
    (Some "bedrock-kb-bucket-1234") embedding_model.

Definition first_run : outcome BedrockKnowledgeBase * St Account :=
  run (construct_pets_kb "amazon.titan-embed-text-v2:0") fresh_account.

(** The account as the first construction leaves it. *)
Definition provisioned : Account := cloud (snd first_run).

Definition second_run : outcome BedrockKnowledgeBase * St Account :=
  run (construct_pets_kb "amazon.titan-embed-text-v2:0") provisioned.

Definition pets_names : Names :=
  {| region_name := "us-east-1";
     account_number := Some "123456789012";
     suffix := "1234";
     kb_name := "pets-kb";
     kb_description := Some "Pets Knowledge Base on cats and dogs";
     bucket_name := "bedrock-kb-bucket-1234";
     embedding_model := "amazon.titan-embed-text-v2:0";
     kb_execution_role_name := "AmazonBedrockExecutionRoleForKnowledgeBase_1234";
     fm_policy_name := "AmazonBedrockFoundationModelPolicyForKnowledgeBase_1234";
     s3_policy_name := "AmazonBedrockS3PolicyForKnowledgeBase_1234" |}.

Definition pets_role : Role :=
  {| RoleName := "AmazonBedrockExecutionRoleForKnowledgeBase_1234";
     RoleArn :=
       "arn:aws:iam::123456789012:role/AmazonBedrockExecutionRoleForKnowledgeBase_1234";
     AssumeRolePolicyDocument := assume_role_policy_document |}.

(** The object the first construction returns. *)
Definition pets_kb : BedrockKnowledgeBase :=
  {| names := pets_names;
     vector_bucket_name := "pets-kb-vectors-1234";
     vector_index_name := "pets-kb-index";
     vector_bucket_arn :=
       "arn:aws:s3vectors:us-east-1:123456789012:bucket/pets-kb-vectors-1234";
     vector_index_arn :=
       "arn:aws:s3vectors:us-east-1:123456789012:bucket/pets-kb-vectors-1234/index/pets-kb-index";
     bedrock_kb_execution_role := pets_role;
     knowledge_base :=
       {| knowledgeBaseId := "KB1"; kb_name_ := "pets-kb"; kb_status := "ACTIVE" |};
     data_source := {| dataSourceId := "DS2"; ds_knowledgeBaseId := "KB1" |} |}.


(** The provisioned account, its data bucket removed by someone else. *)
Definition bucket_gone : Account :=
  set_buckets provisioned (delete "bedrock-kb-bucket-1234" (acct_buckets provisioned)).

(** A document whose second poll is throttled and whose third poll finds
    it indexed. *)
Definition throttled_then_indexed : Script :=
  {| answers :=
       [inl (RDocumentDetails ["STARTING"]);
        inl (RDocumentDetails ["IN_PROGRESS"]);
        inr (ClientError BedrockAgent "ThrottlingException");
        inl (RDocumentDetails ["INDEXED"])] |}.

(** A folder of three documents and a text file; the first document is
    indexed at its first poll, the second fails at its second poll. *)
Definition pets_folder : list string :=
  ["cat-food-wikipedia.pdf"; "README.txt"; "dog-food-wikipedia.pdf";
   "dog-grooming-wikipedia.pdf"].

Definition second_document_fails : Script :=
  {| answers :=
       [inl (RDocumentDetails ["STARTING"]);
        inl (RDocumentDetails ["INDEXED"]);
        inl (RDocumentDetails ["STARTING"]);
        inl (RDocumentDetails ["IN_PROGRESS"]);
        inl (RDocumentDetails ["FAILED"])] |}.

(** A cloud in which every ingestion job is [FAILED], for ever. *)
Definition job_failed : Always :=
  {| answer := inl (RIngestionJob {| ingestionJobId := "JOB1";
                                    job_status := "FAILED" |}) |}.

(** Widths of embedding models: 1024 for the models of the allow-list (the
    dimension of [create_index], which the source gives as that of
    [amazon.titan-embed-text-v2:0]), and 1536 for
    [amazon.titan-embed-text-v1], a model outside the allow-list. *)
Definition model_width (model : string) : nat :=
  if String.eqb model "amazon.titan-embed-text-v1" then 1536 else 1024.

(** ** Vocabulary of the further properties *)

(** The string is ASCII: every character is below 128. *)
Fixpoint ascii_only (s : string) : bool :=
  match s with
  | EmptyString => true
  | String c r => (nat_of_ascii c <? 128)%nat && ascii_only r
  end.

(** Some character of [s] is not a dot. *)
Fixpoint has_non_dot (s : string) : bool :=
  match s with
  | EmptyString => false
  | String c r => negb (Ascii.eqb c ".") || has_non_dot r
  end.

(** The character [c] occurs in [s]. *)
Fixpoint occurs (c : ascii) (s : string) : bool :=
  match s with
  | EmptyString => false
  | String d r => Ascii.eqb c d || occurs c r
  end.

(** The call submits documents for ingestion. *)
Definition is_submission (c : Call) : bool :=
  match c with
  | IngestKnowledgeBaseDocuments _ _ _ => true
  | _ => false
  end.

(** The submissions of a log, in the order they were made. *)
Definition submissions (l : list Event) : list Call :=
  List.filter is_submission (calls_of l).

(** The submission the batch makes for the file [kb_file] of the folder. *)
Definition submission_of (knowledge_base_id data_source_id s3_bucket kb_file : string)
    : Call :=
  IngestKnowledgeBaseDocuments data_source_id
    [descriptor (doc_id_of kb_file) (s3_uri_of s3_bucket kb_file)]
    knowledge_base_id.

(** The answer to [get_knowledge_base] describes a knowledge base whose
    status is [status]. *)
Definition kb_reports (status : string) (a : Response + exn) : bool :=
  match a with
  | inl (RKnowledgeBase kb) => String.eqb (kb_status kb) status
  | _ => false
  end.

(** The answer describes a knowledge base that is neither active nor
    failed. *)
Definition in_progress (a : Response + exn) : bool :=
  match a with
  | inl (RKnowledgeBase kb) =>
      negb (String.eqb (kb_status kb) "ACTIVE")
      && negb (String.eqb (kb_status kb) "FAILED")
  | _ => false
  end.

(** The log of a wait for a knowledge base whose polls got the answers
    [polls] and were each followed by a wait of 10 seconds. *)
Definition waiting (kb_id : string) (polls : list (Response + exn)) : list Event :=
  flat_map
    (fun a => [Called (GetKnowledgeBase kb_id) a; Slept (Seconds 10)])
    polls.

(** The poll that ends a wait, if one does. *)
Definition last_poll (kb_id : string) (last : option (Response + exn))
    : list Event :=
  match last with
  | Some a => [Called (GetKnowledgeBase kb_id) a]
  | None => []
  end.

(** The client a call is made on: [s3_client], [s3vectors_client],
    [iam_client], [sts_client], [bedrock_agent_client]. *)
Definition service_of (c : Call) : service :=
  match c with
  | GetCallerIdentity => STS
  | HeadBucket _ | CreateBucket _ _ | ListObjects _ | DeleteObject _ _
  | DeleteBucket _ => S3
  | CreateVectorBucket _ | GetVectorBucket _ | CreateIndex _ _ _ _ _
  | GetIndex _ _ => S3Vectors
  | CreatePolicy _ _ _ | GetPolicy _ | CreatePolicyVersion _ _ _
  | CreateRole _ _ _ _ | GetRole _ | UpdateAssumeRolePolicy _ _
  | AttachRolePolicy _ _ | ListAttachedRolePolicies _ | DetachRolePolicy _ _
  | DeleteRole _ | DeletePolicy _ => IAM
  | CreateKnowledgeBase _ _ _ _ _ _ _ _ | ListKnowledgeBases _
  | GetKnowledgeBase _ | CreateDataSource _ _ _ _ _ | ListDataSources _ _
  | GetDataSource _ _ | DeleteDataSource _ _ | DeleteKnowledgeBase _
  | StartIngestionJob _ _ | GetIngestionJob _ _ _
  | IngestKnowledgeBaseDocuments _ _ _ | GetKnowledgeBaseDocuments _ _ _ =>
      BedrockAgent
  end.

(** The services a teardown with the given flags may call. *)
Definition teardown_service (delete_s3_bucket delete_iam : bool) (c : Call)
    : Prop :=
  service_of c = BedrockAgent
  ∨ (delete_s3_bucket = true ∧ service_of c = S3)
  ∨ (delete_iam = true ∧ service_of c = IAM).



(** The waits of a log, in their order. *)
Definition waits_of (l : list Event) : list Delay :=
  omap (fun e => match e with Slept d => Some d | Called _ _ => None end) l.


(** The log of the polls of an ingestion job that got the answers [jobs]:
    each poll asks for the job the answer before it named. *)
Fixpoint job_polls (self : BedrockKnowledgeBase) (job : IngestionJob)
    (jobs : list IngestionJob) : list Event :=
  match jobs with
  | [] => []
  | next :: rest =>
      Called (GetIngestionJob (knowledgeBaseId (knowledge_base self))
                (dataSourceId (data_source self)) (ingestionJobId job))
        (inl (RIngestionJob next))
      :: job_polls self next rest
  end.

(** A cloud in which the ingestion job is [COMPLETE] at the second poll. *)
Definition job_completes : Script :=
  {| answers :=
       [inl (RIngestionJob {| ingestionJobId := "JOB1"; job_status := "STARTING" |});
        inl (RIngestionJob {| ingestionJobId := "JOB1"; job_status := "IN_PROGRESS" |});
        inl (RIngestionJob {| ingestionJobId := "JOB1"; job_status := "COMPLETE" |})] |}.

(** The object a construction under another name returns, in the account
    the construction of [pets_kb] left. *)
Definition birds_kb : BedrockKnowledgeBase :=
  {| names :=
       {| region_name := "us-east-1";
          account_number := Some "123456789012";
          suffix := "1234";
          kb_name := "birds-kb";
          kb_description := None;
          bucket_name := "birds-kb-1234";
          embedding_model := "cohere.embed-english-v3";
          kb_execution_role_name := "AmazonBedrockExecutionRoleForKnowledgeBase_1234";
          fm_policy_name := "AmazonBedrockFoundationModelPolicyForKnowledgeBase_1234";
          s3_policy_name := "AmazonBedrockS3PolicyForKnowledgeBase_1234" |};
     vector_bucket_name := "birds-kb-vectors-1234";
     vector_index_name := "birds-kb-index";
     vector_bucket_arn :=
       "arn:aws:s3vectors:us-east-1:123456789012:bucket/birds-kb-vectors-1234";
     vector_index_arn :=
       "arn:aws:s3vectors:us-east-1:123456789012:bucket/birds-kb-vectors-1234/index/birds-kb-index";
     bedrock_kb_execution_role := pets_role;
     knowledge_base :=
       {| knowledgeBaseId := "KB3"; kb_name_ := "birds-kb"; kb_status := "ACTIVE" |};
     data_source := {| dataSourceId := "DS4"; ds_knowledgeBaseId := "KB3" |} |}.

(** What a run of [create_bedrock_kb_execution_role] logs, by its outcome:
    when it returns, the two attachments to the role returned, both
    answered, then 60 waits of one second, after at most [budget] events
    that are not waits; when it raises, at most [budget + 2] events and no
    wait. *)
Definition role_log (budget : nat) (r : outcome Role) (evs : list Event) : Prop :=
  match r with
  | Ret role =>
      ∃ pre fm_policy_arn s3_policy_arn r1 r2,
        evs = pre
              ++ [Called (AttachRolePolicy (RoleName role) fm_policy_arn) (inl r1);
                  Called (AttachRolePolicy (RoleName role) s3_policy_arn) (inl r2)]
              ++ replicate 60 (Slept (Seconds 1))
        ∧ waits_of pre = []
        ∧ (length pre ≤ budget)%nat
  | Raise _ => waits_of evs = [] ∧ (length evs ≤ budget + 2)%nat
  | OutOfFuel => False
  end.

(** The error of IAM for a name that is taken. *)
Definition already_exists : exn := ClientError IAM "EntityAlreadyExistsException".

(** The events of the foundation-model policy obtained with the ARN [arn]:
    the policy is created, or is found to exist and fetched by the ARN
    made of the account number and of its name. *)
Definition fm_policy_events (self : Names) (arn : string) (evs : list Event)
    : Prop :=
  let create :=
    CreatePolicy (fm_policy_name self) foundation_model_policy_document
      "Policy for accessing foundation model" in
  evs = [Called create (inl (RPolicy arn))]
  ∨ evs = [Called create (inr already_exists);
           Called (GetPolicy (policy_arn self (fm_policy_name self)))
             (inl (RPolicy arn))].

(** The events of the S3 policy obtained with the ARN [arn]: created, or
    found to exist, fetched, and given a new default version. *)
Definition s3_policy_events (self : Names) (arn : string) (evs : list Event)
    : Prop :=
  let create :=
    CreatePolicy (s3_policy_name self) s3_policy_document
      "Policy for reading documents from s3" in
  evs = [Called create (inl (RPolicy arn))]
  ∨ ∃ r,
      evs = [Called create (inr already_exists);
             Called (GetPolicy (policy_arn self (s3_policy_name self)))
               (inl (RPolicy arn));
             Called (CreatePolicyVersion arn s3_policy_document true) (inl r)].

(** The events of the role obtained as [role]: created, or found to exist,
    fetched, and given the trust policy again. *)
Definition role_events (self : Names) (role : Role) (evs : list Event) : Prop :=
  let create :=
    CreateRole (kb_execution_role_name self) assume_role_policy_document
      "Amazon Bedrock Knowledge Base Execution Role for accessing S3" 3600 in
  evs = [Called create (inl (RRole role))]
  ∨ ∃ r,
      evs = [Called create (inr already_exists);
             Called (GetRole (kb_execution_role_name self)) (inl (RRole role));
             Called (UpdateAssumeRolePolicy (kb_execution_role_name self)
                       assume_role_policy_document) (inl r)].

(** The log of a run of [create_bedrock_kb_execution_role], by its outcome.
    When it returns [role]: the foundation-model policy, the S3 policy and
    the role are obtained, in this order; then the foundation-model policy
    is attached to the role, then the S3 policy, each under the ARN the
    service answered for it and to the role under the name the service
    answered, both attachments accepted; then come 60 waits of one second.
    When it raises: at most 10 calls, and no wait. *)
Definition execution_role_log (self : Names) (r : outcome Role)
    (evs : list Event) : Prop :=
  match r with
  | Ret role =>
      ∃ fm_policy_arn s3_policy_arn evs_fm evs_s3 evs_role r1 r2,
        evs = evs_fm ++ evs_s3 ++ evs_role
              ++ [Called (AttachRolePolicy (RoleName role) fm_policy_arn) (inl r1);
                  Called (AttachRolePolicy (RoleName role) s3_policy_arn) (inl r2)]
              ++ replicate 60 (Slept (Seconds 1))
        ∧ fm_policy_events self fm_policy_arn evs_fm
        ∧ s3_policy_events self s3_policy_arn evs_s3
        ∧ role_events self role evs_role
  | Raise _ => waits_of evs = [] ∧ (length evs ≤ 10)%nat
  | OutOfFuel => False
  end.

(** The events of a resource obtained with the answer [resp]: created, or
    found to exist ([ConflictException] of S3 Vectors) and then fetched. *)
Definition obtained (create get : Call) (resp : Response) (evs : list Event)
    : Prop :=
  evs = [Called create (inl resp)]
  ∨ evs = [Called create (inr (ClientError S3Vectors "ConflictException"));
           Called get (inl resp)].

Section FurtherStatements.
Context {W : Type} `{Cloud W}.

(** The run of [m] adds at most [n] events to the log, none of them a
    wait, and does not run out of fuel. *)
Definition calm {A} (n : nat) (m : M W A) : Prop :=
  ∀ st, ∃ evs,
    log (snd (m st)) = log st ++ evs
    ∧ waits_of evs = []
    ∧ (length evs ≤ n)%nat
    ∧ fst (m st) ≠ OutOfFuel.

(** The outcome of a run of [m] and the events it adds to the log are
    related by [Q]. *)
Definition logs {A} (Q : outcome A → list Event → Prop) (m : M W A) : Prop :=
  ∀ st, ∃ evs, log (snd (m st)) = log st ++ evs ∧ Q (fst (m st)) evs.

End FurtherStatements.

(** An account whose Bedrock agent refuses every data source: the other
    calls are answered as the simulated account answers them. *)
Record NoDataSource := { nds_account : Account }.

Definition no_data_source_respond (w : NoDataSource) (c : Call)
    : (Response + exn) * NoDataSource :=
  match c with
  | CreateDataSource _ _ _ _ _ =>
      (inr (ClientError BedrockAgent "ValidationException"), w)
  | _ =>
      (fst (account_respond (nds_account w) c),
       {| nds_account := snd (account_respond (nds_account w) c) |})
  end.

#[export] Instance no_data_source_cloud : Cloud NoDataSource :=
  {| respond := no_data_source_respond; elapse := fun w _ => w |}.

(** ** Ingestion of one document *)

Section IngestionProofs.
Context {W : Type} `{Cloud W}.

Lemma eqb_indexed_not_failed s :
  String.eqb s "INDEXED" = true → String.eqb s "FAILED" = false.
Proof. intros E. apply String.eqb_eq in E. subst s. reflexivity. Qed.

(** One status check: any answer is absorbed, and only the first status of
    a well-formed answer decides. *)
Lemma check_status_run kb ds id (st : St W) :
  let c := status_poll kb ds id in
  let a := fst (respond (cloud st) c) in
  check_status kb ds id st =
    (Ret (if reports "INDEXED" a then Some true
          else if reports "FAILED" a then Some false else None),
     mkSt (snd (respond (cloud st) c)) (log st ++ [Called c a])).
Proof.
  unfold check_status, try_except, bind, call, status_poll. cbn zeta.
  destruct (respond _ _) as [[r | e] w]; cbn; [| reflexivity].
  destruct r; cbn; try reflexivity.
  destruct statuses as [| s rest]; cbn; [reflexivity |].
  destruct (String.eqb s "INDEXED"); [reflexivity |].
  destruct (String.eqb s "FAILED"); reflexivity.
Qed.

Lemma monitor_run kb ds id : ∀ (fuel waited : nat) (st : St W),
  (max_wait ≤ waited + 5 * fuel)%nat →
  ∃ b polls st',
    monitor fuel kb ds id waited st = (Ret b, st')
    ∧ log st' = log st ++ rounds kb ds id polls
    ∧ (5 * length polls ≤ max_wait + 4 - waited)%nat
    ∧ (b = true ↔ existsb (reports "INDEXED") polls = true)
    ∧ (existsb (reports "FAILED") polls = true → b = false)
    ∧ forallb (fun a => negb (terminal a)) (List.removelast polls) = true
    ∧ (existsb terminal polls = false →
       (max_wait ≤ waited + 5 * length polls)%nat).
Proof.
  induction fuel as [| fuel IH]; intros waited st Hfuel.
  - exists false, [], st. cbn [monitor].
    destruct (Nat.ltb_spec waited max_wait); unfold max_wait in *; [lia |].
    rewrite app_nil_r. cbn. repeat split; try lia; intros; congruence.
  - cbn [monitor].
    destruct (Nat.ltb_spec waited max_wait) as [Hlt | Hge]; unfold max_wait in *.
    + unfold bind at 1, sleep at 1. cbn [fst snd].
      unfold bind at 1. rewrite check_status_run. cbn [cloud log].
      set (c := status_poll kb ds id).
      set (w1 := elapse (cloud st) (Seconds 5)).
      set (a := fst (respond w1 c)).
      destruct (reports "INDEXED" a) eqn:Hi.
      * eexists true, [a], _. split; [reflexivity |].
        cbn [log rounds flat_map length existsb List.removelast forallb].
        unfold terminal. rewrite Hi.
        rewrite <- app_assoc. repeat split; try lia; try reflexivity;
          try discriminate.
        intros Hf. rewrite orb_false_r in Hf.
        unfold reports in Hi, Hf. destruct a as [[] |]; try discriminate.
        destruct statuses; try discriminate.
        rewrite (eqb_indexed_not_failed _ Hi) in Hf. discriminate.
      * destruct (reports "FAILED" a) eqn:Hf.
        -- eexists false, [a], _. split; [reflexivity |].
           cbn [log rounds flat_map length existsb List.removelast forallb].
           unfold terminal. rewrite Hi, Hf.
           rewrite <- app_assoc. repeat split; try lia; try reflexivity;
             intros; cbn in *; congruence.
        -- destruct (IH (waited + 5)
                       (mkSt (snd (respond w1 c))
                          ((log st ++ [Slept (Seconds 5)]) ++ [Called c a])))
             as (b & polls & st' & Hrun & Hlog & Hlen & Hiff & Hfail & Hfront
                 & Hlate); [lia |].
           exists b, (a :: polls), st'. split; [exact Hrun |].
           cbn [log] in Hlog. rewrite Hlog.
           cbn [rounds flat_map length existsb]. unfold terminal at 2.
           rewrite Hi, Hf. cbn [orb].
           repeat rewrite <- app_assoc. cbn [app].
           repeat split; try lia; try apply Hiff; try exact Hfail.
           ++ destruct polls as [| a' polls']; [reflexivity |].
              change (List.removelast (a :: a' :: polls'))
                with (a :: List.removelast (a' :: polls')).
              cbn [forallb]. unfold terminal at 1. rewrite Hi, Hf. exact Hfront.
           ++ intros Hnone. specialize (Hlate Hnone). lia.
    + exists false, [], st. rewrite app_nil_r. cbn.
      repeat split; try lia; intros; congruence.
Qed.

(** The whole of a call of [ingest_single_document]: what it returns, and
    what it leaves in the log. *)
Lemma ingest_single_document_run kb ds uri id (md : Metadata) (st : St W) :
  ∃ b a0 polls st',
    ingest_single_document kb ds uri id md st = (Ret b, st')
    ∧ log st' = log st
                ++ Called (IngestKnowledgeBaseDocuments ds [descriptor id uri] kb) a0
                   :: rounds kb ds id polls
    ∧ (length polls ≤ 12)%nat
    ∧ (b = true ↔ existsb (reports "INDEXED") polls = true)
    ∧ (existsb (reports "FAILED") polls = true → b = false)
    ∧ (accepted a0 = false → b = false ∧ polls = [])
    ∧ forallb (fun a => negb (terminal a)) (List.removelast polls) = true
    ∧ (accepted a0 = true → existsb terminal polls = false → length polls = 12).
Proof.
  unfold ingest_single_document, try_except.
  unfold bind at 1, call at 1. fold (descriptor id uri).
  destruct (respond (cloud st) _) as [a0 w] eqn:Hresp.
  assert (Hnone : accepted a0 = false →
          ∀ st' : St W, log st' = log st ++ [Called
            (IngestKnowledgeBaseDocuments ds [descriptor id uri] kb) a0] →
          ∃ b a polls st'',
            (Ret false, st') = (Ret b, st'')
            ∧ log st'' = log st ++ Called
                (IngestKnowledgeBaseDocuments ds [descriptor id uri] kb) a
                :: rounds kb ds id polls
            ∧ (length polls ≤ 12)%nat
            ∧ (b = true ↔ existsb (reports "INDEXED") polls = true)
            ∧ (existsb (reports "FAILED") polls = true → b = false)
            ∧ (accepted a = false → b = false ∧ polls = [])
            ∧ forallb (fun a => negb (terminal a)) (List.removelast polls) = true
            ∧ (accepted a = true → existsb terminal polls = false
               → length polls = 12)).
  { intros Hrefused st' Hlog. exists false, a0, [], st'. cbn.
    repeat split; auto; try lia; intros; congruence. }
  destruct a0 as [r | e]; cbn -[monitor]; [| apply Hnone; reflexivity].
  destruct r; cbn -[monitor]; try (apply Hnone; reflexivity).
  destruct statuses as [| s rest]; cbn -[monitor]; [apply Hnone; reflexivity |].
  match goal with
  | |- context [monitor ?f kb ds id 0 ?st1] =>
      destruct (monitor_run kb ds id f 0 st1)
        as (b & polls & st' & Hrun & Hlog & Hlen & Hiff & Hfail & Hfront & Hlate);
        [unfold max_wait; lia |]
  end.
  unfold bind. rewrite Hrun.
  exists b, (inl (RDocumentDetails (s :: rest))), polls, st'.
  split; [reflexivity |]. cbn [log] in Hlog. rewrite Hlog, <- app_assoc.
  unfold max_wait in Hlen, Hlate.
  repeat split; try lia; try apply Hiff; try exact Hfail; try exact Hfront;
    try (cbn in *; congruence).
  intros _ Hnoterm. specialize (Hlate Hnoterm). lia.
Qed.

(** C3 (as amended).  [ingest_single_document] never raises and never runs
    out of its bounded loop: it returns a boolean.  The log of the call is
    the submission followed by rounds, each a wait of 5 seconds and one
    status poll, [polls] being the answers the polls got.  When the
    submission raises or returns no document detail, no poll is made and
    the result is [False].  Otherwise the loop goes on exactly until the
    first poll that reports [INDEXED] or [FAILED], or until 12 polls (60
    seconds) are made: no poll but the last reports a terminal status, and
    when none does there are exactly 12 polls.  The function returns [True]
    exactly when a poll reports [INDEXED]; it returns [False] when the last
    poll reports [FAILED] and when the 12 polls pass without a terminal
    status.  An exception raised by a status poll is not a terminal answer:
    that poll counts for nothing and the loop goes on. *)
Theorem ingest_single_document_returns kb ds uri id (md : Metadata) (st : St W) :
  ∃ b a0 polls st',
    ingest_single_document kb ds uri id md st = (Ret b, st')
    ∧ log st' = log st
                ++ Called (IngestKnowledgeBaseDocuments ds [descriptor id uri] kb) a0
                   :: rounds kb ds id polls
    ∧ (length polls ≤ 12)%nat
    ∧ (b = true ↔ existsb (reports "INDEXED") polls = true)
    ∧ (existsb (reports "FAILED") polls = true → b = false)
    ∧ (accepted a0 = false → b = false ∧ polls = [])
    ∧ forallb (fun a => negb (terminal a)) (List.removelast polls) = true
    ∧ (accepted a0 = true → existsb terminal polls = false → length polls = 12)
    ∧ (∀ e, terminal (inr e) = false).
Proof.
  destruct (ingest_single_document_run kb ds uri id md st)
    as (b & a0 & polls & st' & Hrun & Hlog & Hlen & Hiff & Hfail & Hrefused
        & Hfront & Hlate).
  exists b, a0, polls, st'.
  split; [exact Hrun |]. split; [exact Hlog |]. split; [exact Hlen |].
  split; [exact Hiff |]. split; [exact Hfail |]. split; [exact Hrefused |].
  split; [exact Hfront |]. split; [exact Hlate |].
  intros e. reflexivity.
Qed.

(** C10.  Two calls of [ingest_single_document] that differ only in
    [metadata] are the same run: same result, same final state, same log,
    and the call the log starts with submits the descriptor made of the
    document identifier and of the S3 URI alone.  The same holds of the
    batch whatever the classification map the loop looks the files up in. *)
Theorem metadata_never_submitted kb ds uri id (m1 m2 : Metadata)
    (mm1 mm2 : gmap string Metadata) bucket files sc fc (st : St W) :
  ingest_single_document kb ds uri id m1 st
  = ingest_single_document kb ds uri id m2 st
  ∧ (∃ a0 rest,
       log (snd (ingest_single_document kb ds uri id m1 st))
       = log st
         ++ Called (IngestKnowledgeBaseDocuments ds [descriptor id uri] kb) a0 :: rest)
  ∧ ingest_each mm1 kb ds bucket files sc fc st
    = ingest_each mm2 kb ds bucket files sc fc st.
Proof.
  split; [reflexivity |]. split.
  - destruct (ingest_single_document_run kb ds uri id m1 st)
      as (b & a0 & polls & st' & Hrun & Hlog & _).
    rewrite Hrun. cbn [snd]. eauto.
  - revert sc fc st. induction files as [| f rest IH]; intros sc fc st.
    + reflexivity.
    + cbn [ingest_each]. unfold bind.
      change (ingest_single_document kb ds (s3_uri_of bucket f) (doc_id_of f)
                (default ∅ (mm1 !! f)) st)
        with (ingest_single_document kb ds (s3_uri_of bucket f) (doc_id_of f)
                (default ∅ (mm2 !! f)) st).
      destruct (ingest_single_document _ _ _ _ _ st) as [[[] | |] st1]; auto.
Qed.

(** ** The batch *)

Lemma ingest_each_all_indexed mm kb ds bucket files (st st' : St W) :
  all_indexed kb ds bucket files st st' →
  ∀ sc fc,
    ingest_each mm kb ds bucket files sc fc st = (Ret (sc + length files, fc), st').
Proof.
  induction 1 as [st | f rest st st1 st2 Hf _ IH]; intros sc fc.
  - cbn. unfold ret. do 2 f_equal. f_equal. lia.
  - cbn [ingest_each]. unfold bind.
    change (ingest_single_document kb ds (s3_uri_of bucket f) (doc_id_of f)
              (default ∅ (mm !! f)) st)
      with (ingest_single_document kb ds (s3_uri_of bucket f) (doc_id_of f)
              (default ∅ (metadata_map !! f)) st).
    rewrite Hf, IH. cbn [length]. do 2 f_equal. f_equal. lia.
Qed.

Lemma ingest_each_stops mm kb ds bucket pre f post (st st1 st2 : St W) :
  all_indexed kb ds bucket pre st st1 →
  ingest_single_document kb ds (s3_uri_of bucket f) (doc_id_of f)
    (default ∅ (metadata_map !! f)) st1 = (Ret false, st2) →
  ∀ sc fc,
    ingest_each mm kb ds bucket (pre ++ f :: post) sc fc st
    = (Ret (sc + length pre, fc + 1), st2).
Proof.
  induction 1 as [st | g rest st st1 st3 Hg _ IH]; intros Hf sc fc.
  - cbn [app ingest_each]. unfold bind.
    change (ingest_single_document kb ds (s3_uri_of bucket f) (doc_id_of f)
              (default ∅ (mm !! f)) st)
      with (ingest_single_document kb ds (s3_uri_of bucket f) (doc_id_of f)
              (default ∅ (metadata_map !! f)) st).
    rewrite Hf. cbn. unfold ret. do 2 f_equal. f_equal. lia.
  - cbn [app ingest_each]. unfold bind.
    change (ingest_single_document kb ds (s3_uri_of bucket g) (doc_id_of g)
              (default ∅ (mm !! g)) st)
      with (ingest_single_document kb ds (s3_uri_of bucket g) (doc_id_of g)
              (default ∅ (metadata_map !! g)) st).
    rewrite Hg, (IH Hf). cbn [length]. do 2 f_equal. f_equal. lia.
Qed.

(** The batch over a folder that is listed is the loop over its [.pdf]
    entries. *)
Lemma listed_folder_run kb ds bucket (entries : list string) (st : St W) :
  ingest_knowledge_base_documents kb ds bucket entries st
  = ingest_each metadata_map kb ds bucket (kb_files_of entries) 0 0 st.
Proof. reflexivity. Qed.

(** C2.  Let the [.pdf] entries of the folder be [pre ++ f :: post]: when
    the documents of [pre] (the first k-1) are ingested with success and
    [f] (the k-th) fails, [ingest_knowledge_base_documents] returns
    [(k-1, 1)] and stops in the very state the ingestion of [f] left, so
    that nothing is submitted for [post]; when all the documents are
    ingested with success it returns [(N, 0)]. *)
Theorem ingest_batch_counts kb ds bucket kb_folder (st : St W) :
  (∀ pre f post st1 st2,
     kb_files_of kb_folder = pre ++ f :: post →
     all_indexed kb ds bucket pre st st1 →
     ingest_single_document kb ds (s3_uri_of bucket f) (doc_id_of f)
       (default ∅ (metadata_map !! f)) st1 = (Ret false, st2) →
     ingest_knowledge_base_documents kb ds bucket kb_folder st
     = (Ret (length pre, 1), st2))
  ∧ (∀ st',
       all_indexed kb ds bucket (kb_files_of kb_folder) st st' →
       ingest_knowledge_base_documents kb ds bucket kb_folder st
       = (Ret (length (kb_files_of kb_folder), 0), st')).
Proof.
  rewrite listed_folder_run. split.
  - intros pre f post st1 st2 Hfiles Hpre Hf. rewrite Hfiles.
    apply (ingest_each_stops _ _ _ _ _ _ _ _ _ _ Hpre Hf 0 0).
  - intros st' Hall. apply (ingest_each_all_indexed _ _ _ _ _ _ _ Hall 0 0).
Qed.

End IngestionProofs.

(** ** Traces of calls *)

Section Traces.
Context {W : Type} `{Cloud W}.

Lemma call_run c (st : St W) :
  call c st =
    (match fst (respond (cloud st) c) with
     | inl r => Ret r
     | inr e => Raise e
     end,
     mkSt (snd (respond (cloud st) c))
       (log st ++ [Called c (fst (respond (cloud st) c))])).
Proof.
  unfold call. destruct (respond (cloud st) c) as [[r | e] w]; reflexivity.
Qed.

Lemma follows_ret {A} (a : A) (st : St W) : follows [] (ret a) st.
Proof. exists []. cbn. rewrite app_nil_r. auto. Qed.

Lemma follows_call c (st : St W) : follows [c] (call c) st.
Proof.
  exists [Called c (fst (respond (cloud st) c))]. rewrite call_run. cbn. auto.
Qed.

Lemma follows_bind {A B} p1 p2 (m : M W A) (k : A → M W B) (st : St W) :
  follows p1 m st →
  (∀ a st1, m st = (Ret a, st1) → follows p2 (k a) st1) →
  follows (p1 ++ p2) (bind m k) st.
Proof.
  intros (evs1 & Hlog1 & Hpre1 & Hall1) Hk. unfold follows at 1, bind.
  destruct (m st) as [[a | e |] st1] eqn:Hm; simpl in *.
  - destruct (Hk a st1 eq_refl) as (evs2 & Hlog2 & Hpre2 & Hall2).
    exists (evs1 ++ evs2). rewrite Hlog2, Hlog1, <- app_assoc.
    unfold calls_of in *. rewrite omap_app, (Hall1 I).
    split; [reflexivity |]. split.
    + by apply prefix_app.
    + intros Hr. by rewrite (Hall2 Hr).
  - exists evs1. split; [exact Hlog1 |]. split; [by apply prefix_app_r |].
    intros [].
  - exists evs1. split; [exact Hlog1 |]. split; [by apply prefix_app_r |].
    intros [].
Qed.

Lemma delete_objects_follows bucket keys (st : St W) :
  follows (map (DeleteObject bucket) keys) (delete_objects bucket keys) st.
Proof.
  revert st. induction keys as [| key rest IH]; intros st.
  - apply follows_ret.
  - cbn [delete_objects map].
    apply (follows_bind [DeleteObject bucket key]); [apply follows_call |].
    intros _ st1 _. apply IH.
Qed.

Lemma delete_iam_follows self (st : St W) :
  follows (iam_plan self) (delete_iam_roles_and_policies self) st.
Proof.
  unfold delete_iam_roles_and_policies, iam_plan.
  repeat (apply (follows_bind [_]); [apply follows_call | intros _ ? _]).
  apply follows_ret.
Qed.

(** The storage step: the listing, then the deletions along the keys it
    returned, then the bucket. *)
Lemma delete_s3_run self (st : St W) :
  ∃ a rest,
    log (snd (delete_s3 self st))
    = log st ++ Called (ListObjects (bucket_name self)) a :: rest
    ∧ calls_of rest
      `prefix_of` map (DeleteObject (bucket_name self)) (keys_of a)
                  ++ [DeleteBucket (bucket_name self)]
    ∧ (is_ret (fst (delete_s3 self st)) →
       calls_of rest
       = map (DeleteObject (bucket_name self)) (keys_of a)
         ++ [DeleteBucket (bucket_name self)]).
Proof.
  set (b := bucket_name self).
  set (a := fst (respond (cloud st) (ListObjects b))).
  set (st1 := mkSt (snd (respond (cloud st) (ListObjects b)))
                (log st ++ [Called (ListObjects b) a])).
  assert (E : delete_s3 self st =
              match a with
              | inl r =>
                  (match get_Contents r with
                   | Some contents => delete_objects b contents
                   | None => ret tt
                   end ;; call (DeleteBucket b) ;; ret tt) st1
              | inr e => (Raise e, st1)
              end).
  { unfold delete_s3. unfold bind at 1. rewrite call_run. fold b a st1.
    destruct a; reflexivity. }
  rewrite E. clear E. destruct a as [r | e] eqn:Ha.
  - assert (Hrest : follows (map (DeleteObject b) (default [] (get_Contents r))
                              ++ [DeleteBucket b] ++ [])
              (match get_Contents r with
               | Some contents => delete_objects b contents
               | None => ret tt
               end ;; call (DeleteBucket b) ;; ret tt) st1).
    { apply follows_bind.
      - destruct (get_Contents r); [apply delete_objects_follows | apply follows_ret].
      - intros _ st2 _. apply follows_bind; [apply follows_call |].
        intros _ st3 _. apply follows_ret. }
    destruct Hrest as (rest & Hlog & Hpre & Hall).
    exists (inl r), rest. rewrite Hlog. subst st1. cbn [log keys_of].
    rewrite <- app_assoc. cbn [app] in *.
    split; [reflexivity |]. split; [exact Hpre | exact Hall].
  - exists (inr e), []. subst st1. cbn [fst snd log keys_of].
    split; [reflexivity |]. split; [apply prefix_nil | intros []].
Qed.

Lemma iam_step_follows self (iam : bool) (st : St W) :
  follows (if iam then iam_plan self else [])
    (if iam then delete_iam_roles_and_policies self ;; ret tt else ret tt) st.
Proof.
  destruct iam; [| apply follows_ret].
  rewrite <- (app_nil_r (iam_plan self)).
  apply follows_bind; [apply delete_iam_follows |].
  intros _ st1 _. apply follows_ret.
Qed.

(** The optional steps of [delete_kb], from the state the two mandatory
    deletions left. *)
Lemma optional_steps_run self (s3 iam : bool) (st : St W) :
  let m := ((if s3 then delete_s3 self else ret tt) ;;
            (if iam then delete_iam_roles_and_policies self ;; ret tt else ret tt)) in
  ∃ evs,
    log (snd (m st)) = log st ++ evs
    ∧ calls_of evs
      `prefix_of` (if s3 then storage_plan self (listed_keys evs) else [])
                  ++ (if iam then iam_plan self else [])
    ∧ (is_ret (fst (m st)) →
       calls_of evs
       = (if s3 then storage_plan self (listed_keys evs) else [])
         ++ (if iam then iam_plan self else [])).
Proof.
  intros m. subst m. destruct s3.
  - destruct (delete_s3_run self st) as (a & rest & Hlog & Hpre & Hall).
    set (k := if iam then _ else _). unfold bind.
    destruct (delete_s3 self st) as [[[] | e |] st1] eqn:Hs3; cbn [fst snd] in *.
    + destruct (iam_step_follows self iam st1) as (evs & Hlog' & Hpre' & Hall').
      fold k in Hlog', Hall'.
      exists (Called (ListObjects (bucket_name self)) a :: rest ++ evs).
      rewrite Hlog', Hlog, <- app_assoc. split; [reflexivity |].
      change (listed_keys (Called (ListObjects (bucket_name self)) a :: rest ++ evs))
        with (keys_of a).
      change (calls_of (Called (ListObjects (bucket_name self)) a :: rest ++ evs))
        with (ListObjects (bucket_name self) :: calls_of (rest ++ evs)).
      unfold calls_of in *. rewrite omap_app, (Hall I). unfold storage_plan.
      cbn [app]. split.
      * apply prefix_cons, prefix_app, Hpre'.
      * intros Hr. by rewrite (Hall' Hr).
    + exists (Called (ListObjects (bucket_name self)) a :: rest).
      split; [exact Hlog |].
      change (listed_keys (Called (ListObjects (bucket_name self)) a :: rest))
        with (keys_of a).
      change (calls_of (Called (ListObjects (bucket_name self)) a :: rest))
        with (ListObjects (bucket_name self) :: calls_of rest).
      split; [| intros []]. unfold storage_plan. cbn [app].
      apply prefix_cons, prefix_app_r, Hpre.
    + exists (Called (ListObjects (bucket_name self)) a :: rest).
      split; [exact Hlog |].
      change (listed_keys (Called (ListObjects (bucket_name self)) a :: rest))
        with (keys_of a).
      change (calls_of (Called (ListObjects (bucket_name self)) a :: rest))
        with (ListObjects (bucket_name self) :: calls_of rest).
      split; [| intros []]. unfold storage_plan. cbn [app].
      apply prefix_cons, prefix_app_r, Hpre.
  - destruct (iam_step_follows self iam st) as (evs & Hlog & Hpre & Hall).
    exists evs. cbn [app]. auto.
Qed.

(** The calls of a teardown follow the plan, whatever the cloud answers. *)
Lemma delete_kb_follows_plan self (s3 iam : bool) (st : St W) :
  ∃ evs,
    log (snd (delete_kb self s3 iam st)) = log st ++ evs
    ∧ calls_of evs `prefix_of` teardown_plan self s3 iam (listed_keys evs)
    ∧ (is_ret (fst (delete_kb self s3 iam st)) →
       calls_of evs = teardown_plan self s3 iam (listed_keys evs)).
Proof.
  unfold teardown_plan.
  set (dds := DeleteDataSource _ _). set (dkb := DeleteKnowledgeBase _).
  set (a1 := fst (respond (cloud st) dds)).
  set (st1 := mkSt (snd (respond (cloud st) dds)) (log st ++ [Called dds a1])).
  set (a2 := fst (respond (cloud st1) dkb)).
  set (st2 := mkSt (snd (respond (cloud st1) dkb)) (log st1 ++ [Called dkb a2])).
  assert (E : delete_kb self s3 iam st =
              match a1 with
              | inr e => (Raise e, st1)
              | inl _ =>
                  match a2 with
                  | inr e => (Raise e, st2)
                  | inl _ =>
                      ((if s3 then delete_s3 (names self) else ret tt) ;;
                       (if iam
                        then delete_iam_roles_and_policies (names self) ;; ret tt
                        else ret tt)) st2
                  end
              end).
  { unfold delete_kb. fold dds dkb. unfold bind at 1. rewrite call_run.
    fold a1 st1. destruct a1; [| reflexivity].
    unfold bind at 1. rewrite call_run. fold a2 st2.
    destruct a2; reflexivity. }
  rewrite E. clear E.
  destruct a1 as [r1 | e1] eqn:Ha1.
  2:{ exists [Called dds (inr e1)]. cbn.
      split; [reflexivity |]. split; [| intros []].
      apply prefix_cons, prefix_nil. }
  destruct a2 as [r2 | e2] eqn:Ha2.
  2:{ exists [Called dds (inl r1); Called dkb (inr e2)]. cbn.
      rewrite <- app_assoc.
      split; [reflexivity |]. split; [| intros []].
      apply prefix_cons, prefix_cons, prefix_nil. }
  destruct (optional_steps_run (names self) s3 iam st2)
    as (evs & Hlog & Hpre & Hall). cbn zeta in *.
  exists (Called dds (inl r1) :: Called dkb (inl r2) :: evs).
  split.
  { rewrite Hlog. subst st2 st1. cbn [log]. repeat rewrite <- app_assoc.
    reflexivity. }
  change (listed_keys (Called dds (inl r1) :: Called dkb (inl r2) :: evs))
    with (listed_keys evs).
  change (calls_of (Called dds (inl r1) :: Called dkb (inl r2) :: evs))
    with (dds :: dkb :: calls_of evs).
  split.
  - apply prefix_cons, prefix_cons, Hpre.
  - intros Hr. by rewrite (Hall Hr).
Qed.

End Traces.

(** ** Order of the calls of a teardown *)

Section Order.
Context {A : Type}.
Implicit Types (x y : A) (l : list A).




End Order.



Section TeardownOrder.
Context {W : Type} `{Cloud W}.


End TeardownOrder.

Section Teardown.
Context {W : Type} `{Cloud W}.


(** C8 (as amended).  With both flags set, and once the two mandatory
    deletions have returned (leaving the state [st1]): nothing catches a
    failure of an optional step.  An exception of the storage step is the
    exception of [delete_kb], which stops in the state the storage step
    left, the IAM step not run; an exception of the IAM step, run after a
    storage step that returned, is the exception of [delete_kb]; and
    [delete_kb] returns only when both steps return. *)
Theorem optional_steps_are_not_best_effort self (st st1 : St W) r :
  (call (DeleteDataSource (dataSourceId (data_source self))
           (knowledgeBaseId (knowledge_base self))) ;;
   call (DeleteKnowledgeBase (knowledgeBaseId (knowledge_base self)))) st
  = (Ret r, st1) →
  (∀ e st2,
     delete_s3 (names self) st1 = (Raise e, st2) →
     delete_kb self true true st = (Raise e, st2))
  ∧ (∀ st2 e st3,
       delete_s3 (names self) st1 = (Ret tt, st2) →
       delete_iam_roles_and_policies (names self) st2 = (Raise e, st3) →
       delete_kb self true true st = (Raise e, st3))
  ∧ (∀ st3,
       delete_kb self true true st = (Ret tt, st3) →
       ∃ st2 z,
         delete_s3 (names self) st1 = (Ret tt, st2)
         ∧ delete_iam_roles_and_policies (names self) st2 = (Ret z, st3)).
Proof.
  intros Hm. unfold delete_kb.
  set (dds := DeleteDataSource _ _) in *. set (dkb := DeleteKnowledgeBase _) in *.
  assert (E : ∀ {B} (k : M W B),
             (call dds ;; call dkb ;; k) st = k st1).
  { intros B k. unfold bind in Hm |- *.
    destruct (call dds st) as [[r1 | e1 |] s1]; try discriminate.
    destruct (call dkb s1) as [[r2 | e2 |] s2]; try discriminate.
    by inversion Hm. }
  rewrite E. clear E. repeat split.
  - intros e st2 Hs3. unfold bind. by rewrite Hs3.
  - intros st2 e st3 Hs3 Hiam. unfold bind. by rewrite Hs3, Hiam.
  - unfold bind. intros st3.
    destruct (delete_s3 (names self) st1) as [[[] | e |] st2]; try discriminate.
    destruct (delete_iam_roles_and_policies (names self) st2)
      as [[z | e |] st3'] eqn:Hiam; try discriminate.
    intros Hr. inversion Hr. subst. eauto.
Qed.

End Teardown.

(** ** What a run adds to the log *)

Section Emits.
Context {W : Type} `{Cloud W}.
Variable P : Event → Prop.

Lemma emits_ret {A} (a : A) : emits P (ret (W := W) a).
Proof. intros st. exists []. cbn. by rewrite app_nil_r. Qed.

Lemma emits_raise {A} e : emits P (raise (W := W) (A := A) e).
Proof. intros st. exists []. cbn. by rewrite app_nil_r. Qed.

Lemma emits_call c : (∀ a, P (Called c a)) → emits P (call (W := W) c).
Proof.
  intros Hc st. rewrite call_run. eexists [_]. cbn. split; [reflexivity |].
  constructor; [apply Hc | constructor].
Qed.

Lemma emits_sleep d : P (Slept d) → emits P (sleep (W := W) d).
Proof.
  intros Hd st. exists [Slept d]. cbn. split; [reflexivity |].
  constructor; [exact Hd | constructor].
Qed.

Lemma emits_bind {A B} (m : M W A) (k : A → M W B) :
  emits P m → (∀ a, emits P (k a)) → emits P (bind m k).
Proof.
  intros Hm Hk st. destruct (Hm st) as (evs1 & Hlog1 & HP1). unfold bind.
  destruct (m st) as [[a | e |] st1]; cbn [fst snd] in *; eauto.
  destruct (Hk a st1) as (evs2 & Hlog2 & HP2).
  exists (evs1 ++ evs2). rewrite Hlog2, Hlog1, <- app_assoc.
  split; [reflexivity |]. by apply Forall_app.
Qed.

Lemma emits_try_except {A} (body : M W A) handlers :
  emits P body →
  Forall (fun h => ∀ e, emits P (snd h e)) handlers →
  emits P (try_except body handlers).
Proof.
  intros Hb Hh st. destruct (Hb st) as (evs1 & Hlog1 & HP1). unfold try_except.
  destruct (body st) as [[a | e |] st1]; cbn [fst snd] in *; eauto.
  destruct (List.find _ handlers) as [h |] eqn:Hfind; cbn [fst snd]; eauto.
  apply find_some in Hfind as [Hin _].
  rewrite Forall_forall in Hh. apply list_elem_of_In in Hin.
  destruct (Hh h Hin e st1) as (evs2 & Hlog2 & HP2).
  exists (evs1 ++ evs2). rewrite Hlog2, Hlog1, <- app_assoc.
  split; [reflexivity |]. by apply Forall_app.
Qed.

Lemma emits_interactive_sleep seconds :
  P (Slept (Seconds 1)) → emits P (interactive_sleep (W := W) seconds).
Proof.
  intros Hs. induction seconds as [| n IH]; cbn [interactive_sleep].
  - apply emits_ret.
  - apply emits_bind; [by apply emits_sleep | intros _; exact IH].
Qed.

Lemma emits_retry_more {A} lo hi more (f : M W A) :
  P (Slept (RandomMillis lo hi)) → emits P f → emits P (retry_more lo hi more f).
Proof.
  intros Hs Hf. induction more as [| n IH]; intros st;
    destruct (Hf st) as (evs1 & Hlog1 & HP1); cbn [retry_more];
    destruct (f st) as [[a | e |] st1]; cbn [fst snd] in *; eauto.
  assert (Hrest : emits P (sleep (RandomMillis lo hi) ;; retry_more lo hi n f)).
  { apply emits_bind; [by apply emits_sleep | intros _; exact IH]. }
  destruct (Hrest st1) as (evs2 & Hlog2 & HP2).
  exists (evs1 ++ evs2). rewrite Hlog2, Hlog1, <- app_assoc.
  split; [reflexivity |]. by apply Forall_app.
Qed.

End Emits.

(** The handlers of a [try], one after the other. *)
Ltac each_handler :=
  lazymatch goal with
  | |- Forall _ (_ :: _) => constructor; [ intros ?; cbn [snd] | each_handler ]
  | |- Forall _ [] => constructor
  end.

(** Decomposes a goal [emits P m] along the program [m], by the head of
    [m] as it is written. *)
Ltac emits_step :=
  lazymatch goal with
  | |- emits _ (ret _) => apply emits_ret
  | |- emits _ (raise _) => apply emits_raise
  | |- emits _ (call _) =>
      apply emits_call; intros; first [ exact I | reflexivity ]
  | |- emits _ (sleep _) => apply emits_sleep; exact I
  | |- emits _ (interactive_sleep _) => apply emits_interactive_sleep; exact I
  | |- emits _ (retry_more _ _ _ _) => apply emits_retry_more; [ exact I | ]
  | |- emits _ (bind _ _) => apply emits_bind; [ | intros ? ]
  | |- emits _ (try_except _ _) =>
      apply emits_try_except; [ | each_handler ]
  | |- emits _ (match ?x with _ => _ end) => destruct x
  end.

Ltac emits_go := repeat emits_step.

Section ProvisioningLogs.
Context {W : Type} `{Cloud W}.

Lemma create_s3_bucket_dimension self :
  emits index_dimension_ok (create_s3_bucket (W := W) self).
Proof. unfold create_s3_bucket. emits_go. Qed.

Lemma create_s3_vector_resources_dimension self :
  emits index_dimension_ok (create_s3_vector_resources (W := W) self).
Proof.
  unfold create_s3_vector_resources, get_vectorBucketArn, get_indexArn. emits_go.
Qed.

Lemma create_bedrock_kb_execution_role_dimension self :
  emits index_dimension_ok (create_bedrock_kb_execution_role (W := W) self).
Proof.
  unfold create_bedrock_kb_execution_role, get_Policy_Arn, get_Role. emits_go.
Qed.

Lemma create_knowledge_base_dimension self vb idx role :
  emits index_dimension_ok (create_knowledge_base (W := W) self vb idx role).
Proof.
  unfold create_knowledge_base, retry, create_knowledge_base_attempt,
    get_knowledgeBase, get_Role, get_knowledgeBaseSummaries, get_knowledge_base_by,
    get_dataSource, get_dataSourceSummaries, item0.
  emits_go.
Qed.

Lemma init_dimension region kb desc bucket model :
  emits index_dimension_ok (__init__ (W := W) region kb desc bucket model).
Proof.
  unfold __init__. emits_go.
  - apply create_s3_bucket_dimension.
  - apply create_s3_vector_resources_dimension.
  - apply create_bedrock_kb_execution_role_dimension.
  - apply create_knowledge_base_dimension.
Qed.

End ProvisioningLogs.

(** ** Construction: the allow-list and the index dimension *)

Lemma str_in_spec x l : str_in x l = true ↔ x ∈ l.
Proof.
  unfold str_in. rewrite existsb_exists, list_elem_of_In. split.
  - intros (y & Hy & E). apply String.eqb_eq in E. by subst.
  - intros Hx. exists x. split; [exact Hx | apply String.eqb_refl].
Qed.

Section Construction.
Context {W : Type} `{Cloud W}.

(** A model outside the allow-list: the identity call, then the error. *)
Lemma init_rejects region kb desc bucket model (st : St W) :
  model ∉ valid_embedding_models →
  __init__ region kb desc bucket model st
  = (match fst (respond (cloud st) GetCallerIdentity) with
     | inl _ => Raise invalid_embedding_model
     | inr e => Raise e
     end,
     mkSt (snd (respond (cloud st) GetCallerIdentity))
       (log st ++ [Called GetCallerIdentity
                     (fst (respond (cloud st) GetCallerIdentity))])).
Proof.
  intros Hm. unfold __init__. unfold bind at 1. rewrite call_run.
  destruct (fst (respond (cloud st) GetCallerIdentity)) as [r | e]; [| reflexivity].
  destruct (str_in model valid_embedding_models) eqn:E.
  - apply str_in_spec in E. contradiction.
  - reflexivity.
Qed.

(** C6 (as amended).  For every model outside the allow-list, the
    constructor makes exactly one cloud call, [sts.get_caller_identity],
    and then raises: [ValueError] when that call answers, the error of the
    call when it fails.  No S3, S3 Vectors, IAM or Bedrock call is made. *)
Theorem unknown_model_rejected_after_identity_call
    region kb desc bucket model (st : St W) :
  model ∉ valid_embedding_models →
  ∃ a st',
    log st' = log st ++ [Called GetCallerIdentity a]
    ∧ __init__ region kb desc bucket model st
      = (match a with
         | inl _ => Raise invalid_embedding_model
         | inr e => Raise e
         end, st').
Proof.
  intros Hm. rewrite (init_rejects _ _ _ _ _ _ Hm). eexists _, _.
  split; [| reflexivity]. reflexivity.
Qed.

(** C5 (as amended).  Let [width] give the output width the models
    declare, the models of the allow-list declaring 1024.  Then every
    index the constructor creates for an accepted model has the dimension
    of the model, the constant 1024 of [create_index]; and a model whose
    width is not 1024 is refused by the allow-list, not by a check of the
    dimension and not before any cloud call: the identity call is made,
    and then the constructor raises. *)
Theorem index_dimension_is_the_constant (width : string → nat)
    region kb desc bucket model (st : St W) :
  (∀ m, m ∈ valid_embedding_models → width m = 1024) →
  ∃ evs,
    log (snd (__init__ region kb desc bucket model st)) = log st ++ evs
    ∧ (model ∈ valid_embedding_models →
       ∀ vb idx d dt metric a,
         Called (CreateIndex vb idx d dt metric) a ∈ evs → d = width model)
    ∧ (width model ≠ 1024 →
       ∃ a,
         evs = [Called GetCallerIdentity a]
         ∧ fst (__init__ region kb desc bucket model st)
           = match a with
             | inl _ => Raise invalid_embedding_model
             | inr e => Raise e
             end).
Proof.
  intros Hwidth.
  destruct (init_dimension region kb desc bucket model st) as (evs & Hlog & Hdim).
  exists evs. split; [exact Hlog |]. split.
  - intros Hm vb idx d dt metric a Hin. rewrite (Hwidth _ Hm).
    rewrite Forall_forall in Hdim. exact (Hdim _ Hin).
  - intros Hne.
    assert (Hm : model ∉ valid_embedding_models).
    { intros Hm. by apply Hne, Hwidth. }
    rewrite (init_rejects _ _ _ _ _ _ Hm) in Hlog |- *. cbn [fst snd log] in *.
    apply app_inv_head in Hlog. subst evs. eauto.
Qed.

End Construction.

(** ** create_knowledge_base: the conflict *)

Section Conflict.
Context {W : Type} `{Cloud W}.

(** [except Exception] comes first: it takes every exception, and the
    clauses after it are never tried. *)
Lemma try_except_catch_all {A} (body : M W A) h rest :
  try_except body ((Exception_, h) :: rest) = try_except body [(Exception_, h)].
Proof. reflexivity. Qed.

Lemma create_knowledge_base_no_lookup self vb idx role :
  emits no_kb_lookup (create_knowledge_base (W := W) self vb idx role).
Proof.
  unfold create_knowledge_base, retry, create_knowledge_base_attempt.
  rewrite try_except_catch_all.
  unfold get_knowledgeBase, get_Role, get_dataSource, get_dataSourceSummaries, item0.
  emits_go.
Qed.

(** One attempt whose creation call is answered by [ConflictException]:
    [except Exception] takes the exception, reads the role and its
    attached policies, and raises it again (or raises the error of these
    reads).  [except ConflictException], placed after it, is not reached. *)
Lemma attempt_raises_on_conflict self vb idx role (st : St W) :
  let create :=
    CreateKnowledgeBase (kb_name self) (kb_description self) (RoleArn role)
      "VECTOR"
      ("arn:aws:bedrock:" +:+ region_name self +:+ "::foundation-model/"
       +:+ embedding_model self)
      "S3_VECTORS" vb idx in
  let get_role := GetRole (kb_execution_role_name self) in
  let list_attached := ListAttachedRolePolicies (kb_execution_role_name self) in
  fst (respond (cloud st) create) = inr conflict →
  ∃ e st',
    create_knowledge_base_attempt self vb idx role st = (Raise e, st')
    ∧ (let w1 := snd (respond (cloud st) create) in
       let w2 := snd (respond w1 get_role) in
       let w3 := snd (respond w2 list_attached) in
       cloud st' = w2
       ∨ cloud st' = w3
         ∧ (is_ret (match fst (respond w2 list_attached) with
                    | inl r => Ret r
                    | inr x => Raise x
                    end) → e = conflict)).
Proof.
  intros ckb gr lp Hresp. unfold create_knowledge_base_attempt. fold ckb gr lp.
  unfold bind at 1. rewrite try_except_catch_all. unfold try_except at 1.
  unfold bind at 1. rewrite call_run, Hresp. cbn [fst snd List.find isinstance].
  set (st1 := mkSt _ _).
  unfold bind at 1. rewrite call_run.
  change (cloud st1) with (snd (respond (cloud st) ckb)).
  destruct (fst (respond (snd (respond (cloud st) ckb)) gr)) as [r2 | e2];
    cbn [fst snd]; [| eexists _, _; split; [reflexivity | by left]].
  destruct r2; cbn; try (eexists _, _; split; [reflexivity | by left]).
  unfold bind at 1. rewrite call_run. cbn [cloud].
  destruct (fst (respond _ lp)) as [r3 | e3]; cbn [fst snd];
    eexists _, _; (split; [reflexivity |]); right; split; auto.
  intros [].
Qed.

(** The decorated method, while the conflict lasts: every attempt raises,
    and so does the method. *)
Lemma retry_raises_under_conflict (conflicting : W → Prop) self vb idx role :
  let create :=
    CreateKnowledgeBase (kb_name self) (kb_description self) (RoleArn role)
      "VECTOR"
      ("arn:aws:bedrock:" +:+ region_name self +:+ "::foundation-model/"
       +:+ embedding_model self)
      "S3_VECTORS" vb idx in
  let get_role := GetRole (kb_execution_role_name self) in
  let list_attached := ListAttachedRolePolicies (kb_execution_role_name self) in
  (∀ w, conflicting w →
     fst (respond w create) = inr conflict
     ∧ conflicting (snd (respond w create))
     ∧ conflicting (snd (respond w get_role))
     ∧ conflicting (snd (respond w list_attached))
     ∧ ∀ d, conflicting (elapse w d)) →
  ∀ more (st : St W),
    conflicting (cloud st) →
    ∃ e st',
      retry_more 1000 2000 more
        (create_knowledge_base_attempt self vb idx role) st = (Raise e, st')
      ∧ conflicting (cloud st').
Proof.
  intros ckb gr lp Hinv.
  assert (Hattempt : ∀ st : St W, conflicting (cloud st) →
            ∃ e st', create_knowledge_base_attempt self vb idx role st
                     = (Raise e, st') ∧ conflicting (cloud st')).
  { intros st Hst. destruct (Hinv _ Hst) as (Hc & Hw1 & _).
    destruct (attempt_raises_on_conflict self vb idx role st Hc)
      as (e & st' & Hrun & Hcloud).
    exists e, st'. split; [exact Hrun |]. cbn zeta in Hcloud. fold ckb gr lp in Hcloud.
    destruct (Hinv _ Hw1) as (_ & _ & Hw2 & _).
    destruct (Hinv _ Hw2) as (_ & _ & _ & Hw3 & _).
    destruct Hcloud as [-> | [-> _]]; assumption. }
  induction more as [| more IH]; intros st Hst; cbn [retry_more];
    destruct (Hattempt st Hst) as (e & st1 & Hrun & Hst1); rewrite Hrun.
  - eauto.
  - unfold bind, sleep. cbn [fst snd cloud].
    apply IH. cbn [cloud]. by apply (Hinv _ Hst1).
Qed.

(** C4, on the code.  Let the conflict last: in the states the method goes
    through, [create_knowledge_base] of the service answers
    [ConflictException] (a knowledge base of that name exists; [conflicting]
    is kept by the calls the method makes and by its waits).  Then the
    decorated method does not recover: its 7 attempts raise and it raises
    to its caller.  And in no run of it, whatever the cloud, is
    [list_knowledge_bases] or [get_knowledge_base] called: the branch
    [except ConflictException] is never reached. *)
Theorem conflict_reaches_the_caller (conflicting : W → Prop)
    self vb idx role (st : St W) :
  let create :=
    CreateKnowledgeBase (kb_name self) (kb_description self) (RoleArn role)
      "VECTOR"
      ("arn:aws:bedrock:" +:+ region_name self +:+ "::foundation-model/"
       +:+ embedding_model self)
      "S3_VECTORS" vb idx in
  let get_role := GetRole (kb_execution_role_name self) in
  let list_attached := ListAttachedRolePolicies (kb_execution_role_name self) in
  (∀ w, conflicting w →
     fst (respond w create) = inr conflict
     ∧ conflicting (snd (respond w create))
     ∧ conflicting (snd (respond w get_role))
     ∧ conflicting (snd (respond w list_attached))
     ∧ ∀ d, conflicting (elapse w d)) →
  conflicting (cloud st) →
  (∃ e st', create_knowledge_base self vb idx role st = (Raise e, st'))
  ∧ emits no_kb_lookup (create_knowledge_base self vb idx role).
Proof.
  intros ckb gr lp Hinv Hst. split; [| apply create_knowledge_base_no_lookup].
  destruct (retry_raises_under_conflict conflicting self vb idx role Hinv 6 st Hst)
    as (e & st' & Hrun & _).
  exists e, st'. exact Hrun.
Qed.

End Conflict.

(** ** start_ingestion_job: the polling loop *)

Section BulkIngestion.
Context {W : Type} `{Cloud W}.

(** The loop returns only with a job whose status is [COMPLETE]. *)
Lemma poll_ingestion_job_returns_complete self : ∀ fuel job (st : St W) job' st',
  poll_ingestion_job fuel self job st = (Ret job', st') →
  job_status job' = "COMPLETE".
Proof.
  induction fuel as [| fuel IH]; intros job st job' st'; cbn [poll_ingestion_job];
    destruct (String.eqb_spec (job_status job) "COMPLETE") as [E | E];
    cbn [negb]; try (intros [= <- <-]; exact E); try discriminate.
  unfold bind at 1.
  destruct (call _ st) as [[r | e |] st1]; try discriminate.
  unfold bind at 1, get_ingestionJob.
  destruct r; cbn; try discriminate. apply IH.
Qed.

(** While the cloud keeps answering with a job that is not [COMPLETE], the
    loop uses all the iterations it is given: one poll each, no wait. *)
Lemma poll_ingestion_job_spins (stuck : W → Prop) self :
  (∀ w id, stuck w →
     ∃ job w',
       respond w (GetIngestionJob (knowledgeBaseId (knowledge_base self))
                    (dataSourceId (data_source self)) id)
       = (inl (RIngestionJob job), w')
       ∧ job_status job ≠ "COMPLETE" ∧ stuck w') →
  ∀ fuel job (st : St W),
    job_status job ≠ "COMPLETE" → stuck (cloud st) →
    ∃ st' evs,
      poll_ingestion_job fuel self job st = (OutOfFuel, st')
      ∧ log st' = log st ++ evs
      ∧ length evs = fuel
      ∧ Forall (fun e => ∃ id a,
                  e = Called (GetIngestionJob (knowledgeBaseId (knowledge_base self))
                                (dataSourceId (data_source self)) id) a) evs.
Proof.
  intros Hstuck. induction fuel as [| fuel IH]; intros job st Hjob Hst;
    cbn [poll_ingestion_job];
    destruct (String.eqb_spec (job_status job) "COMPLETE") as [E | _];
    try contradiction; cbn [negb].
  - exists st, []. rewrite app_nil_r. repeat split. constructor.
  - destruct (Hstuck (cloud st) (ingestionJobId job) Hst)
      as (job' & w' & Hresp & Hjob' & Hw').
    unfold bind at 1. rewrite call_run, Hresp. cbn [fst snd].
    unfold bind at 1. cbn [get_ingestionJob ret].
    destruct (IH job' (mkSt w' (log st ++ [Called (GetIngestionJob
                (knowledgeBaseId (knowledge_base self))
                (dataSourceId (data_source self)) (ingestionJobId job))
                (inl (RIngestionJob job'))])) Hjob' Hw')
      as (st' & evs & Hrun & Hlog & Hlen & Hall).
    exists st', (Called (GetIngestionJob (knowledgeBaseId (knowledge_base self))
                   (dataSourceId (data_source self)) (ingestionJobId job))
                   (inl (RIngestionJob job')) :: evs).
    split; [exact Hrun |]. cbn [log] in Hlog. rewrite Hlog, <- app_assoc.
    split; [reflexivity |]. split; [cbn; by rewrite Hlen |].
    constructor; [eauto | exact Hall].
Qed.

(** C9.  Let the job that [start_ingestion_job] starts never be
    [COMPLETE]: the start call answers with a job of another status
    ([FAILED], say), and so does every poll from then on.  Then the loop
    does not end: for every number [fuel] of iterations, after [fuel]
    iterations the method is still in the loop, having made [fuel] polls
    and nothing else, no wait between them.  And the loop is left with a
    result only when the job fetched is [COMPLETE]. *)
Theorem start_ingestion_job_never_terminates
    (stuck : W → Prop) self (st : St W) job w1 :
  (∀ w id, stuck w →
     ∃ job' w',
       respond w (GetIngestionJob (knowledgeBaseId (knowledge_base self))
                    (dataSourceId (data_source self)) id)
       = (inl (RIngestionJob job'), w')
       ∧ job_status job' ≠ "COMPLETE" ∧ stuck w') →
  respond (cloud st)
    (StartIngestionJob (knowledgeBaseId (knowledge_base self))
       (dataSourceId (data_source self)))
  = (inl (RIngestionJob job), w1) →
  job_status job ≠ "COMPLETE" →
  stuck w1 →
  (∀ fuel,
     ∃ st' evs,
       start_ingestion_job fuel self st = (OutOfFuel, st')
       ∧ log st'
         = log st
           ++ Called (StartIngestionJob (knowledgeBaseId (knowledge_base self))
                        (dataSourceId (data_source self)))
                (inl (RIngestionJob job)) :: evs
       ∧ length evs = fuel
       ∧ Forall (fun e => ∃ id a,
                   e = Called (GetIngestionJob
                                 (knowledgeBaseId (knowledge_base self))
                                 (dataSourceId (data_source self)) id) a) evs)
  ∧ (∀ fuel job0 (st0 : St W) job' st',
       poll_ingestion_job fuel self job0 st0 = (Ret job', st') →
       job_status job' = "COMPLETE").
Proof.
  intros Hstuck Hstart Hjob Hw1. split;
    [| apply poll_ingestion_job_returns_complete].
  intros fuel. unfold start_ingestion_job.
  unfold bind at 1. rewrite call_run, Hstart. cbn [fst snd].
  unfold bind at 1. cbn [get_ingestionJob ret].
  destruct (poll_ingestion_job_spins stuck self Hstuck fuel job
              (mkSt w1 (log st ++ [Called (StartIngestionJob
                 (knowledgeBaseId (knowledge_base self))
                 (dataSourceId (data_source self))) (inl (RIngestionJob job))]))
              Hjob Hw1)
    as (st' & evs & Hrun & Hlog & Hlen & Hall).
  exists st', evs. unfold bind. rewrite Hrun.
  split; [reflexivity |]. cbn [log] in Hlog. rewrite Hlog, <- app_assoc.
  auto.
Qed.

End BulkIngestion.

(** ** Construction, run again *)

Section Invariants.
Context {W : Type} `{Cloud W}.
Variable I : W → Prop.
Hypothesis respond_keeps : ∀ w c, is_delete c = false → I w → I (snd (respond w c)).
Hypothesis elapse_keeps : ∀ w d, I w → I (elapse w d).

Lemma steady_ret {A} (a : A) : steady I (ret a).
Proof. intros st Hst. split; [exact Hst | discriminate]. Qed.

Lemma steady_raise {A} e : steady (A := A) I (raise e).
Proof. intros st Hst. split; [exact Hst | discriminate]. Qed.

Lemma steady_call c : is_delete c = false → steady I (call c).
Proof.
  intros Hc st Hst. rewrite call_run. cbn [fst snd cloud]. split.
  - by apply respond_keeps.
  - by destruct (fst (respond (cloud st) c)).
Qed.

Lemma steady_sleep d : steady I (sleep d).
Proof. intros st Hst. split; [by apply elapse_keeps | discriminate]. Qed.

Lemma steady_bind {A B} (m : M W A) (k : A → M W B) :
  steady I m → (∀ a, steady I (k a)) → steady I (bind m k).
Proof.
  intros Hm Hk st Hst. destruct (Hm st Hst) as [H1 H2]. unfold bind.
  destruct (m st) as [[a | e |] st1]; cbn [fst snd] in *.
  - by apply Hk.
  - split; [exact H1 | discriminate].
  - contradiction.
Qed.

Lemma steady_try_except {A} (body : M W A) handlers :
  steady I body →
  Forall (fun h => ∀ e, steady I (snd h e)) handlers →
  steady I (try_except body handlers).
Proof.
  intros Hb Hh st Hst. destruct (Hb st Hst) as [H1 H2]. unfold try_except.
  destruct (body st) as [[a | e |] st1]; cbn [fst snd] in *; auto.
  destruct (List.find _ handlers) as [h |] eqn:Hfind; cbn [fst snd]; auto.
  apply find_some in Hfind as [Hin _].
  rewrite Forall_forall in Hh. apply list_elem_of_In in Hin.
  by apply (Hh h Hin e).
Qed.

Lemma steady_interactive_sleep seconds : steady I (interactive_sleep seconds).
Proof.
  induction seconds as [| n IH]; cbn [interactive_sleep].
  - apply steady_ret.
  - apply steady_bind; [apply steady_sleep | intros _; exact IH].
Qed.

Lemma raises_under_raise {A} e : raises_under (A := A) I (raise e).
Proof. intros st Hst. by exists e, st. Qed.

Lemma raises_under_bind {A B} (m : M W A) (k : A → M W B) :
  steady I m → (∀ a, raises_under I (k a)) → raises_under I (bind m k).
Proof.
  intros Hm Hk st Hst. destruct (Hm st Hst) as [H1 H2]. unfold bind.
  destruct (m st) as [[a | e |] st1]; cbn [fst snd] in *.
  - by apply Hk.
  - by exists e, st1.
  - contradiction.
Qed.

Lemma raises_under_bind_first {A B} (m : M W A) (k : A → M W B) :
  raises_under I m → raises_under I (bind m k).
Proof.
  intros Hm st Hst. destruct (Hm st Hst) as (e & st' & Hrun & Hst').
  exists e, st'. unfold bind. by rewrite Hrun.
Qed.

Lemma ensures_raise {A} e : ensures (A := A) I (raise e).
Proof. intros st a st' Hrun. discriminate. Qed.

Lemma ensures_bind {A B} (m : M W A) (k : A → M W B) :
  (∀ a, ensures I (k a)) → ensures I (bind m k).
Proof.
  intros Hk st b st'. unfold bind.
  destruct (m st) as [[a | e |] st1]; try discriminate. apply Hk.
Qed.

Lemma ensures_bind_steady {A B} (m : M W A) (k : A → M W B) :
  ensures I m → (∀ a, steady I (k a)) → ensures I (bind m k).
Proof.
  intros Hm Hk st b st'. unfold bind.
  destruct (m st) as [[a | e |] st1] eqn:Hrun; try discriminate.
  intros Hk'. pose proof (Hk a st1 (Hm _ _ _ Hrun)) as [Hst' _].
  by rewrite Hk' in Hst'.
Qed.

Lemma ensures_retry_more {A} lo hi more (f : M W A) :
  ensures I f → ensures I (retry_more lo hi more f).
Proof.
  intros Hf. induction more as [| n IH]; intros st a st'; cbn [retry_more];
    destruct (f st) as [[x | e |] st1] eqn:Hrun; try discriminate;
    try (intros [= <- <-]; by eapply Hf).
  unfold bind, sleep. cbn [fst snd]. apply IH.
Qed.

End Invariants.

(** Decomposes a goal [steady I m] along the program [m]. *)
Ltac steady_step :=
  lazymatch goal with
  | |- steady _ (ret _) => apply steady_ret
  | |- steady _ (raise _) => apply steady_raise
  | |- steady _ (call _) => apply steady_call; [ assumption | reflexivity ]
  | |- steady _ (sleep _) => apply steady_sleep; assumption
  | |- steady _ (interactive_sleep _) => apply steady_interactive_sleep; assumption
  | |- steady _ (bind _ _) => apply steady_bind; [ | intros ? ]
  | |- steady _ (try_except _ _) =>
      apply steady_try_except; [ | each_handler ]
  | |- steady _ (match ?x with _ => _ end) => destruct x
  end.

Ltac steady_go := repeat steady_step.

Section Again.
Context {W : Type} `{Cloud W}.

(** [I] is the property of the cloud that a knowledge base named [name]
    exists, as the code relies on it: a creation under that name that
    succeeds establishes it; while it holds, a creation under that name is
    answered by [ConflictException]; and the calls that delete nothing,
    and the waits, keep it. *)
Variable I : W → Prop.
Variable name : string.
Hypothesis create_establishes :
  ∀ w desc role type model storage vb idx r,
    fst (respond w (CreateKnowledgeBase name desc role type model storage vb idx))
    = inl r →
    I (snd (respond w (CreateKnowledgeBase name desc role type model storage vb idx))).
Hypothesis create_conflicts :
  ∀ w desc role type model storage vb idx,
    I w →
    fst (respond w (CreateKnowledgeBase name desc role type model storage vb idx))
    = inr conflict.
Hypothesis respond_keeps : ∀ w c, is_delete c = false → I w → I (snd (respond w c)).
Hypothesis elapse_keeps : ∀ w d, I w → I (elapse w d).

Lemma create_s3_bucket_steady self : steady I (create_s3_bucket self).
Proof. unfold create_s3_bucket. steady_go. Qed.

Lemma create_s3_vector_resources_steady self :
  steady I (create_s3_vector_resources self).
Proof.
  unfold create_s3_vector_resources, get_vectorBucketArn, get_indexArn. steady_go.
Qed.

Lemma create_bedrock_kb_execution_role_steady self :
  steady I (create_bedrock_kb_execution_role self).
Proof.
  unfold create_bedrock_kb_execution_role, get_Policy_Arn, get_Role. steady_go.
Qed.

Lemma create_knowledge_base_raises self vb idx role :
  kb_name self = name →
  raises_under I (create_knowledge_base self vb idx role).
Proof.
  intros Hname st Hst. unfold create_knowledge_base, retry.
  apply (retry_raises_under_conflict I self vb idx role); [| exact Hst].
  rewrite Hname. intros w Hw. repeat split; auto.
Qed.

(** The handler of [except Exception] does not return. *)
Lemma diagnosis_raises self e (st : St W) x st' :
  (let* role_details := call (GetRole (kb_execution_role_name self)) in
   let* role := get_Role role_details in
   let* attached_policies :=
     call (ListAttachedRolePolicies (kb_execution_role_name self)) in
   raise (A := KnowledgeBase) e) st ≠ (Ret x, st').
Proof.
  unfold bind. destruct (call _ st) as [[r | |] st1]; try discriminate.
  unfold get_Role. destruct r; try discriminate.
  cbv beta iota delta [ret]. destruct (call _ st1) as [[| |] ?]; discriminate.
Qed.

(** An attempt returns only after a creation that succeeded. *)
Lemma create_knowledge_base_attempt_ensures self vb idx role :
  kb_name self = name →
  ensures I (create_knowledge_base_attempt self vb idx role).
Proof.
  intros Hname. unfold create_knowledge_base_attempt.
  apply ensures_bind_steady.
  - rewrite try_except_catch_all. rewrite Hname.
    intros st kb st'. unfold try_except. unfold bind at 1. rewrite call_run.
    destruct (fst (respond (cloud st) _)) as [r | e] eqn:Hresp;
      cbv beta iota delta [fst snd List.find isinstance].
    + pose proof (create_establishes _ _ _ _ _ _ _ _ _ Hresp) as Hw.
      unfold get_knowledgeBase.
      destruct r;
        cbv beta iota delta [raise ret fst snd List.find isinstance];
        try (intros Hrun; by apply diagnosis_raises in Hrun).
      intros [= _ <-]. exact Hw.
    + intros Hrun. by apply diagnosis_raises in Hrun.
  - intros kb. unfold get_dataSource, get_dataSourceSummaries, item0. steady_go.
Qed.

(** From a cloud where the knowledge base exists, the constructor raises. *)
Lemma init_raises region desc bucket model :
  raises_under I (__init__ region name desc bucket model).
Proof.
  unfold __init__.
  apply raises_under_bind; [steady_go |]. intros identity.
  destruct (negb _); [apply raises_under_raise |].
  apply raises_under_bind; [apply create_s3_bucket_steady |]. intros _.
  apply raises_under_bind; [apply create_s3_vector_resources_steady |].
  intros [[[vbn vin] vba] via].
  apply raises_under_bind; [apply create_bedrock_kb_execution_role_steady |].
  intros role.
  apply raises_under_bind_first. by apply create_knowledge_base_raises.
Qed.

(** When the constructor returns, the knowledge base exists. *)
Lemma init_ensures region desc bucket model :
  ensures I (__init__ region name desc bucket model).
Proof.
  unfold __init__.
  apply ensures_bind. intros identity.
  destruct (negb _); [apply ensures_raise |].
  apply ensures_bind. intros _.
  apply ensures_bind. intros [[[vbn vin] vba] via].
  apply ensures_bind. intros role.
  apply ensures_bind_steady; [| intros kb_ds; apply steady_ret].
  unfold create_knowledge_base, retry. apply ensures_retry_more.
  by apply create_knowledge_base_attempt_ensures.
Qed.

(** C1, on the code.  In every cloud that treats the name of a knowledge
    base as the service does (hypotheses of the section), and for every
    region, name, description, bucket and model: when a first construction
    has returned, the same construction run again in the state it left
    does not return the identifiers of the first, it raises.  The second
    run gets [ConflictException] from [create_knowledge_base] at each of
    its attempts, and [except Exception] raises it again. *)
Theorem construction_is_not_idempotent region desc bucket model
    (st : St W) obj st1 :
  __init__ region name desc bucket model st = (Ret obj, st1) →
  ∃ e st2, __init__ region name desc bucket model st1 = (Raise e, st2).
Proof.
  intros Hfirst.
  destruct (init_raises region desc bucket model st1
              (init_ensures region desc bucket model _ _ _ Hfirst))
    as (e & st2 & Hsecond & _).
  eauto.
Qed.

End Again.

(** ** Runs *)

(** A pair is known by its first component: the states of the simulated
    account are compared as they stand, only the results are computed. *)
Lemma pair_eq_fst {A B} (p : A * B) (a : A) : fst p = a → p = (a, snd p).
Proof. intros <-. by destruct p. Qed.

(** *** Construction, twice *)

(** The simulated account treats the name of a knowledge base as the
    section [Again] asks. *)
Lemma account_create_establishes n (a : Account) desc role type model storage vb idx r :
  fst (respond a (CreateKnowledgeBase n desc role type model storage vb idx)) = inl r →
  is_Some (acct_kbs (snd (respond a (CreateKnowledgeBase n desc role type model
                                       storage vb idx))) !! n).
Proof.
  cbn [respond account_cloud account_respond].
  destruct (acct_kbs a !! n) eqn:E; cbn; [discriminate |].
  intros _. rewrite lookup_insert_eq. eauto.
Qed.

Lemma account_create_conflicts n (a : Account) desc role type model storage vb idx :
  is_Some (acct_kbs a !! n) →
  fst (respond a (CreateKnowledgeBase n desc role type model storage vb idx))
  = inr conflict.
Proof.
  intros [kb Hkb]. cbn [respond account_cloud account_respond]. by rewrite Hkb.
Qed.

Lemma account_respond_keeps n (a : Account) c :
  is_delete c = false →
  is_Some (acct_kbs a !! n) →
  is_Some (acct_kbs (snd (respond a c)) !! n).
Proof.
  intros Hc Hn. cbn [respond account_cloud].
  destruct c; try discriminate Hc; cbn [account_respond];
    repeat case_match; cbn; try assumption.
  rewrite lookup_insert_is_Some. destruct (decide (name = n)); auto.
Qed.

(** In an account with nothing in it the construction returns the object
    [pets_kb]; run again with the same arguments in the account the first
    run left, it raises [ConflictException], after 7 calls of
    [create_knowledge_base]. *)
Lemma second_construction_raises_conflict :
  fst first_run = Ret pets_kb
  ∧ fst second_run = Raise conflict
  ∧ length (List.filter
              (fun c => match c with
                        | CreateKnowledgeBase _ _ _ _ _ _ _ _ => true
                        | _ => false
                        end)
              (calls_of (log (snd second_run)))) = 7.
Proof. repeat split; vm_compute; reflexivity. Qed.

(** The construction of the script, twice, in the simulated account. *)
Lemma construction_is_not_idempotent_witness :
  ∃ st2,
    construct_pets_kb "amazon.titan-embed-text-v2:0" (snd first_run)
    = (Raise conflict, st2).
Proof.
  destruct (construction_is_not_idempotent
              (fun a => is_Some (acct_kbs a !! "pets-kb")) "pets-kb"
              (account_create_establishes "pets-kb")
              (account_create_conflicts "pets-kb")
              (account_respond_keeps "pets-kb")
              (fun a _ Ha => Ha)
              "us-east-1" (Some "Pets Knowledge Base on cats and dogs")
              (Some "bedrock-kb-bucket-1234") "amazon.titan-embed-text-v2:0"
              (mkSt fresh_account []) pets_kb (snd first_run))
    as (e & st2 & Hsecond).
  - apply pair_eq_fst. vm_compute. reflexivity.
  - assert (Hfst : fst (construct_pets_kb "amazon.titan-embed-text-v2:0"
                          (snd first_run))
                   = Raise conflict) by (vm_compute; reflexivity).
    unfold construct_pets_kb in Hfst |- *. rewrite Hsecond in Hfst.
    cbn [fst] in Hfst. injection Hfst as ->. exists st2. exact Hsecond.
Defined.

(** In the provisioned account the knowledge base [pets-kb] exists, and
    the calls of [create_knowledge_base] do not remove it. *)
Lemma conflict_reaches_the_caller_witness :
  ∃ st',
    create_knowledge_base pets_names (vector_bucket_arn pets_kb)
      (vector_index_arn pets_kb) pets_role (mkSt provisioned [])
    = (Raise conflict, st').
Proof.
  destruct (conflict_reaches_the_caller
              (fun a => is_Some (acct_kbs a !! "pets-kb"))
              pets_names (vector_bucket_arn pets_kb) (vector_index_arn pets_kb)
              pets_role (mkSt provisioned []))
    as [(e & st' & Hrun) _].
  - intros a [kb Hkb]. cbn [respond elapse account_cloud account_respond kb_name
                             pets_names kb_execution_role_name].
    rewrite Hkb. cbn [refuse fst snd].
    repeat split; eauto;
      destruct (acct_roles a !! _) as [[? ?] |]; cbn; eauto.
  - vm_compute. eauto.
  - assert (Hfst : fst (create_knowledge_base pets_names
                          (vector_bucket_arn pets_kb) (vector_index_arn pets_kb)
                          pets_role (mkSt provisioned []))
                   = Raise conflict) by (vm_compute; reflexivity).
    rewrite Hrun in Hfst. cbn [fst] in Hfst. injection Hfst as ->.
    exists st'. exact Hrun.
Defined.

(** *** The allow-list and the dimension *)

(** A model outside the allow-list, in an account with nothing in it: the
    log of the construction is not empty, it holds the identity call. *)
Lemma unknown_model_refused_after_identity_call :
  ¬ unknown_model_refused_without_call.
Proof.
  intros Hc.
  destruct (Hc Account _ "us-east-1" "pets-kb" None None
              "cohere.embed-english-light-v3" fresh_account)
    as (st' & Hrun & Hlog).
  - intros Hin. apply str_in_spec in Hin. vm_compute in Hin. discriminate.
  - vm_compute in Hrun. injection Hrun as Hst. subst st'. discriminate.
Qed.

(** The same construction: [ValueError], after the one call. *)
Lemma unknown_model_rejected_witness :
  ∃ st',
    run (construct_pets_kb "cohere.embed-english-light-v3") fresh_account
    = (Raise invalid_embedding_model, st')
    ∧ calls_of (log st') = [GetCallerIdentity].
Proof.
  destruct (unknown_model_rejected_after_identity_call "us-east-1" "pets-kb"
              (Some "Pets Knowledge Base on cats and dogs")
              (Some "bedrock-kb-bucket-1234") "cohere.embed-english-light-v3"
              (mkSt fresh_account []))
    as (a & st' & Hlog & Hrun).
  - intros Hin. apply str_in_spec in Hin. vm_compute in Hin. discriminate.
  - assert (Hfst : fst (run (construct_pets_kb "cohere.embed-english-light-v3")
                          fresh_account)
                   = Raise invalid_embedding_model) by (vm_compute; reflexivity).
    unfold run, construct_pets_kb in Hfst |- *. rewrite Hrun in Hfst |- *.
    cbn [fst] in Hfst. exists st'. rewrite Hfst, Hlog. split; reflexivity.
Defined.

(** [amazon.titan-embed-text-v1], of width 1536, is refused after the
    identity call. *)
Lemma width_mismatch_refused_after_identity_call :
  ¬ mismatch_refused_before_any_call model_width.
Proof.
  intros Hc.
  destruct (Hc Account _ "us-east-1" "pets-kb" None None
              "amazon.titan-embed-text-v1" fresh_account)
    as (e & st' & Hrun & Hlog).
  - vm_compute. discriminate.
  - vm_compute in Hrun. injection Hrun as _ Hst. subst st'. discriminate.
Qed.

Lemma model_width_allow_list m :
  m ∈ valid_embedding_models → model_width m = 1024.
Proof.
  unfold valid_embedding_models. rewrite !elem_of_cons, elem_of_nil.
  intros [-> | [-> | [-> | []]]]; reflexivity.
Qed.

(** The construction with [cohere.embed-english-v3], in an account with
    nothing in it: the index is created, with the dimension 1024. *)
Lemma index_dimension_witness :
  ∃ evs,
    log (snd (run (construct_pets_kb "cohere.embed-english-v3") fresh_account))
    = evs
    ∧ Called (CreateIndex "pets-kb-vectors-1234" "pets-kb-index" 1024 "float32"
                "euclidean")
        (inl (RIndex (vector_index_arn pets_kb))) ∈ evs
    ∧ ∀ vb idx d dt metric a,
        Called (CreateIndex vb idx d dt metric) a ∈ evs →
        d = model_width "cohere.embed-english-v3".
Proof.
  destruct (index_dimension_is_the_constant model_width "us-east-1" "pets-kb"
              (Some "Pets Knowledge Base on cats and dogs")
              (Some "bedrock-kb-bucket-1234") "cohere.embed-english-v3"
              (mkSt fresh_account []) model_width_allow_list)
    as (evs & Hlog & Hdim & _).
  exists evs. split; [exact Hlog |]. split.
  - cbn [log app] in Hlog. rewrite <- Hlog. apply list_elem_of_In.
    vm_compute. auto 10.
  - apply Hdim. apply str_in_spec. reflexivity.
Defined.

(** *** Ingestion *)

(** The second poll raises, the third reports [INDEXED]: the document is a
    success. *)
Lemma throttled_poll_then_success : ¬ failure_on_any_exception.
Proof.
  intros Hc.
  pose (r := run (ingest_single_document "KB1" "DS2"
                    "s3://bedrock-kb-bucket-1234/cat-food-wikipedia.pdf"
                    "cat-food-wikipedia" ∅) throttled_then_indexed).
  assert (Hfalse : true = false); [| discriminate].
  apply (Hc Script _ "KB1" "DS2"
           "s3://bedrock-kb-bucket-1234/cat-food-wikipedia.pdf"
           "cat-food-wikipedia" ∅ throttled_then_indexed
           (status_poll "KB1" "DS2" "cat-food-wikipedia")
           (ClientError BedrockAgent "ThrottlingException") true (snd r)).
  - vm_compute. reflexivity.
  - apply list_elem_of_In. vm_compute. auto 10.
Qed.

(** The folder of three documents, the second of which fails: [(1, 1)],
    and two submissions, none for the third document. *)
Lemma ingest_batch_counts_witness :
  let st := mkSt second_document_fails [] in
  let st1 :=
    snd (ingest_single_document "KB1" "DS2"
           (s3_uri_of "bedrock-kb-bucket-1234" "cat-food-wikipedia.pdf")
           (doc_id_of "cat-food-wikipedia.pdf")
           (default ∅ (metadata_map !! "cat-food-wikipedia.pdf")) st) in
  let st2 :=
    snd (ingest_single_document "KB1" "DS2"
           (s3_uri_of "bedrock-kb-bucket-1234" "dog-food-wikipedia.pdf")
           (doc_id_of "dog-food-wikipedia.pdf")
           (default ∅ (metadata_map !! "dog-food-wikipedia.pdf")) st1) in
  ingest_knowledge_base_documents "KB1" "DS2" "bedrock-kb-bucket-1234"
    pets_folder st
  = (Ret (1, 1), st2)
  ∧ List.filter
      (fun c => match c with
                | IngestKnowledgeBaseDocuments _ _ _ => true
                | _ => false
                end)
      (calls_of (log st2))
    = [IngestKnowledgeBaseDocuments "DS2"
         [descriptor "cat-food-wikipedia"
            "s3://bedrock-kb-bucket-1234/cat-food-wikipedia.pdf"] "KB1";
       IngestKnowledgeBaseDocuments "DS2"
         [descriptor "dog-food-wikipedia"
            "s3://bedrock-kb-bucket-1234/dog-food-wikipedia.pdf"] "KB1"].
Proof.
  intros st st1 st2. split; [| vm_compute; reflexivity].
  apply (proj1 (ingest_batch_counts "KB1" "DS2" "bedrock-kb-bucket-1234"
                  pets_folder st)
           ["cat-food-wikipedia.pdf"] "dog-food-wikipedia.pdf"
           ["dog-grooming-wikipedia.pdf"] st1 st2).
  - vm_compute. reflexivity.
  - eapply all_indexed_cons; [| apply all_indexed_nil]. vm_compute. reflexivity.
  - vm_compute. reflexivity.
Defined.

(** A job that is [FAILED] for ever: after 1000 iterations the method is
    still polling, and its log holds the start call and 1000 polls. *)
Lemma start_ingestion_job_witness :
  ∃ st',
    start_ingestion_job 1000 pets_kb (mkSt job_failed []) = (OutOfFuel, st')
    ∧ length (log st') = 1001.
Proof.
  destruct (start_ingestion_job_never_terminates (fun w => w = job_failed)
              pets_kb (mkSt job_failed [])
              {| ingestionJobId := "JOB1"; job_status := "FAILED" |} job_failed)
    as [Hspin _].
  - intros w id ->.
    exists {| ingestionJobId := "JOB1"; job_status := "FAILED" |}, job_failed.
    repeat split. discriminate.
  - reflexivity.
  - discriminate.
  - reflexivity.
  - destruct (Hspin 1000) as (st' & evs & Hrun & Hlog & Hlen & _).
    exists st'. split; [exact Hrun |]. rewrite Hlog. cbn. by rewrite Hlen.
Defined.

(** *** Teardown *)



(** The data bucket is gone: the listing fails, [delete_kb] raises, and the
    role is never deleted. *)
Lemma storage_failure_stops_teardown : ¬ optional_steps_best_effort.
Proof.
  intros Hc.
  destruct (Hc Account _ pets_kb bucket_gone RNone) as [_ Hret].
  - apply list_elem_of_In. vm_compute. auto.
  - vm_compute in Hret. exact Hret.
Qed.

(** The same teardown, step by step: the exception of the listing is the
    exception of [delete_kb], and no IAM call was made. *)
Lemma optional_steps_witness :
  let st := mkSt bucket_gone [] in
  let st1 :=
    snd ((call (DeleteDataSource "DS2" "KB1") ;;
          call (DeleteKnowledgeBase "KB1")) st) in
  let st2 := snd (delete_s3 pets_names st1) in
  delete_kb pets_kb true true st = (Raise (ClientError S3 "NoSuchBucket"), st2)
  ∧ calls_of (log st2)
    = [DeleteDataSource "DS2" "KB1"; DeleteKnowledgeBase "KB1";
       ListObjects "bedrock-kb-bucket-1234"].
Proof.
  intros st st1 st2. split; [| vm_compute; reflexivity].
  destruct (optional_steps_are_not_best_effort pets_kb st st1 RNone) as [Hs3 _].
  - apply pair_eq_fst. vm_compute. reflexivity.
  - apply Hs3. apply pair_eq_fst. vm_compute. reflexivity.
Defined.

(** * Further properties of the code *)

(** ** File names and document identifiers *)

Lemma lower_ascii_class c : is_space_or_hyphen (lower_ascii c) = is_space_or_hyphen c.
Proof. destruct c as [[] [] [] [] [] [] [] []]; reflexivity. Qed.

Lemma lower_ascii_idem c : lower_ascii (lower_ascii c) = lower_ascii c.
Proof. destruct c as [[] [] [] [] [] [] [] []]; reflexivity. Qed.

Lemma eqb_dot_lower c : Ascii.eqb "." (lower_ascii c) = Ascii.eqb "." c.
Proof. destruct c as [[] [] [] [] [] [] [] []]; reflexivity. Qed.

Lemma eqb_slash_lower c : Ascii.eqb "/" (lower_ascii c) = Ascii.eqb "/" c.
Proof. destruct c as [[] [] [] [] [] [] [] []]; reflexivity. Qed.

Lemma eqb_lower_dot c : Ascii.eqb (lower_ascii c) "." = Ascii.eqb c ".".
Proof. destruct c as [[] [] [] [] [] [] [] []]; reflexivity. Qed.

Lemma class_not_dot_slash c :
  is_space_or_hyphen c = true →
  Ascii.eqb c "." = false ∧ Ascii.eqb "/" c = false.
Proof. destruct c as [[] [] [] [] [] [] [] []]; try discriminate; by split. Qed.

Lemma lower_idem s : lower (lower s) = lower s.
Proof.
  induction s as [| c r IH]; [reflexivity |].
  cbn [lower]. by rewrite lower_ascii_idem, IH.
Qed.

Lemma lower_app s t : lower (s +:+ t) = lower s +:+ lower t.
Proof.
  induction s as [| c r IH]; [reflexivity |].
  change (lower (String c (r +:+ t)) = String (lower_ascii c) (lower r +:+ lower t)).
  cbn [lower]. by rewrite IH.
Qed.

(** Cleaning commutes with lower-casing: the letters are outside the class
    of the regular expression. *)
Lemma sub_runs_lower b s : sub_runs b (lower s) = lower (sub_runs b s).
Proof.
  revert b. induction s as [| c r IH]; intros b; [reflexivity |].
  cbn [lower sub_runs]. rewrite lower_ascii_class.
  destruct (is_space_or_hyphen c); [destruct b |]; cbn [lower]; by rewrite IH.
Qed.

(** A cleaned name is clean: every run is one hyphen already. *)
Lemma sub_runs_idem s :
  (∀ b, sub_runs b (sub_runs true s) = sub_runs true s)
  ∧ sub_runs false (sub_runs false s) = sub_runs false s.
Proof.
  induction s as [| c r [IH1 IH2]]; [by split |].
  cbn [sub_runs]. destruct (is_space_or_hyphen c) eqn:Hc.
  - split; [exact IH1 |]. cbn [sub_runs].
    change (is_space_or_hyphen "-") with true. cbn iota. by rewrite IH1.
  - split; [intros b |]; cbn [sub_runs]; rewrite Hc; by rewrite IH2.
Qed.

Lemma rfind_from_lower c :
  (∀ d, Ascii.eqb c (lower_ascii d) = Ascii.eqb c d) →
  ∀ s i, rfind_from i c (lower s) = rfind_from i c s.
Proof.
  intros Hc. induction s as [| d r IH]; intros i; [reflexivity |].
  cbn [lower rfind_from]. by rewrite IH, Hc.
Qed.

Lemma non_dot_between_lower lo hi s i :
  non_dot_between i lo hi (lower s) = non_dot_between i lo hi s.
Proof.
  revert i. induction s as [| d r IH]; intros i; [reflexivity |].
  cbn [lower non_dot_between]. by rewrite IH, eqb_lower_dot.
Qed.

Lemma substring_lower m s : ∀ n,
  String.substring n m (lower s) = lower (String.substring n m s).
Proof.
  revert m. induction s as [| c r IH]; intros m n.
  - destruct n, m; reflexivity.
  - destruct n; [destruct m |]; cbn [lower String.substring]; try reflexivity;
      by rewrite IH.
Qed.

Lemma splitext_root_lower s : splitext_root (lower s) = lower (splitext_root s).
Proof.
  unfold splitext_root, rfind, take_prefix.
  rewrite !rfind_from_lower by (apply eqb_slash_lower || apply eqb_dot_lower).
  rewrite non_dot_between_lower. destruct (_ && _); [apply substring_lower | reflexivity].
Qed.

(** X1.  For an ASCII file name: the name [extract_zip_file] computes for
    the extracted file (then passed to [os.rename]) is a fixed point of the
    cleaning; the document identifier that the ingestion computes from
    that name is the one it computes from the name in the archive; and it
    is that name without its extension.  (Outside ASCII the lower-casing
    of Python depends on the context of a letter, and the second equality
    is not claimed.) *)
Theorem clean_filename_doc_id file :
  ascii_only file = true →
  clean_filename (clean_filename file) = clean_filename file
  ∧ doc_id_of (clean_filename file) = doc_id_of file
  ∧ doc_id_of (clean_filename file) = splitext_root (clean_filename file).
Proof.
  intros _.
  assert (Hclean : re_sub_space_hyphen (clean_filename file) = clean_filename file).
  { unfold clean_filename, re_sub_space_hyphen.
    by rewrite sub_runs_lower, (proj2 (sub_runs_idem file)). }
  assert (Hlow : lower (clean_filename file) = clean_filename file).
  { unfold clean_filename. apply lower_idem. }
  repeat split.
  - unfold clean_filename at 1. by rewrite Hclean.
  - unfold doc_id_of. rewrite Hclean. unfold clean_filename.
    by rewrite splitext_root_lower, lower_idem.
  - unfold doc_id_of. rewrite Hclean.
    by rewrite <- splitext_root_lower, Hlow.
Qed.

Lemma clean_filename_doc_id_witness :
  clean_filename (clean_filename "Cat  Food - Wikipedia.PDF")
  = clean_filename "Cat  Food - Wikipedia.PDF"
  ∧ doc_id_of (clean_filename "Cat  Food - Wikipedia.PDF")
    = doc_id_of "Cat  Food - Wikipedia.PDF"
  ∧ doc_id_of (clean_filename "Cat  Food - Wikipedia.PDF")
    = splitext_root (clean_filename "Cat  Food - Wikipedia.PDF").
Proof. exact (clean_filename_doc_id "Cat  Food - Wikipedia.PDF" eq_refl). Defined.

Lemma sub_runs_app_pdf s : ∀ b,
  sub_runs b (s +:+ ".pdf") = sub_runs b s +:+ ".pdf".
Proof.
  induction s as [| c r IH]; intros b; [reflexivity |].
  change (sub_runs b (String c (r +:+ ".pdf")) = sub_runs b (String c r) +:+ ".pdf").
  cbn [sub_runs]. destruct (is_space_or_hyphen c); [destruct b |];
    rewrite IH; reflexivity.
Qed.

Lemma occurs_app c s t : occurs c (s +:+ t) = occurs c s || occurs c t.
Proof.
  induction s as [| d r IH]; [reflexivity |].
  change (occurs c (String d (r +:+ t)) = occurs c (String d r) || occurs c t).
  cbn [occurs]. rewrite IH. by destruct (Ascii.eqb c d).
Qed.

Lemma occurs_slash_sub_runs s : ∀ b,
  occurs "/" (sub_runs b s) = occurs "/" s.
Proof.
  induction s as [| c r IH]; intros b; [reflexivity |].
  cbn [sub_runs]. destruct (is_space_or_hyphen c) eqn:Hc.
  - destruct (class_not_dot_slash c Hc) as [_ Hs].
    destruct b; cbn [occurs]; rewrite IH, Hs; reflexivity.
  - cbn [occurs]. by rewrite IH.
Qed.

Lemma has_non_dot_sub_runs s :
  has_non_dot (sub_runs false s) = has_non_dot s.
Proof.
  induction s as [| c r IH]; [reflexivity |].
  cbn [sub_runs]. destruct (is_space_or_hyphen c) eqn:Hc.
  - destruct (class_not_dot_slash c Hc) as [Hd _].
    cbn [has_non_dot]. rewrite Hd. reflexivity.
  - cbn [has_non_dot]. by rewrite IH.
Qed.

Lemma all_dots_fixed s :
  has_non_dot s = false →
  sub_runs false s = s ∧ lower s = s.
Proof.
  induction s as [| c r IH]; [by split |].
  cbn [has_non_dot]. intros Hs. apply orb_false_elim in Hs as [Hc Hr].
  apply negb_false_iff, Ascii.eqb_eq in Hc. subst c.
  destruct (IH Hr) as [E1 E2]. cbn [sub_runs lower].
  change (is_space_or_hyphen ".") with false. cbn iota.
  change (lower_ascii ".") with "."%char. by rewrite E1, E2.
Qed.

Lemma rfind_from_absent c s : ∀ i,
  occurs c s = false → rfind_from i c s = (-1)%Z.
Proof.
  induction s as [| d r IH]; intros i Hs; [reflexivity |].
  cbn [occurs] in Hs. apply orb_false_elim in Hs as [Hd Hr].
  cbn [rfind_from]. rewrite (IH _ Hr), Hd. reflexivity.
Qed.

Lemma rfind_from_dot_suffix t : ∀ i, (0 ≤ i)%Z →
  rfind_from i "." (t +:+ ".pdf") = (i + Z.of_nat (String.length t))%Z.
Proof.
  induction t as [| d r IH]; intros i Hi.
  - change (rfind_from i "." ".pdf" = (i + 0)%Z). cbn. lia.
  - change (rfind_from i "." (String d (r +:+ ".pdf"))
            = (i + Z.of_nat (S (String.length r)))%Z).
    cbn [rfind_from]. rewrite IH by lia.
    destruct (Z.leb_spec 0 (i + 1 + Z.of_nat (String.length r))); lia.
Qed.

Lemma non_dot_between_beyond lo hi s : ∀ i, (hi ≤ i)%Z →
  non_dot_between i lo hi s = false.
Proof.
  induction s as [| d r IH]; intros i Hi; [reflexivity |].
  cbn [non_dot_between]. rewrite IH by lia.
  destruct (Z.ltb_spec i hi); [lia |]. by rewrite andb_false_r.
Qed.

Lemma non_dot_between_prefix lo t u : ∀ i, (lo ≤ i)%Z →
  non_dot_between i lo (i + Z.of_nat (String.length t)) (t +:+ u)
  = has_non_dot t.
Proof.
  induction t as [| d r IH]; intros i Hi.
  - apply non_dot_between_beyond. cbn. lia.
  - change (non_dot_between i lo (i + Z.of_nat (S (String.length r)))
              (String d (r +:+ u)) = has_non_dot (String d r)).
    cbn [non_dot_between has_non_dot].
    replace (i + Z.of_nat (S (String.length r)))%Z
      with (i + 1 + Z.of_nat (String.length r))%Z by lia.
    rewrite IH by lia.
    destruct (Z.leb_spec lo i); [| lia].
    destruct (Z.ltb_spec i (i + 1 + Z.of_nat (String.length r))); [| lia].
    reflexivity.
Qed.

Lemma substring_prefix t u :
  String.substring 0 (String.length t) (t +:+ u) = t.
Proof.
  induction t as [| d r IH].
  - destruct u; reflexivity.
  - change (String.substring 0 (S (String.length r)) (String d (r +:+ u))
            = String d r).
    cbn [String.substring]. by rewrite IH.
Qed.

(** The root [os.path.splitext] gives a name that ends in [.pdf] and has no
    directory part. *)
Lemma splitext_root_pdf t :
  occurs "/" t = false →
  splitext_root (t +:+ ".pdf") = if has_non_dot t then t else t +:+ ".pdf".
Proof.
  intros Ht. unfold splitext_root, rfind, take_prefix.
  rewrite (rfind_from_absent "/") by (rewrite occurs_app, Ht; reflexivity).
  rewrite rfind_from_dot_suffix by lia.
  replace (-1 + 1)%Z with 0%Z by lia.
  rewrite (non_dot_between_prefix 0 t ".pdf" 0) by lia.
  destruct (Z.ltb_spec (-1) (0 + Z.of_nat (String.length t))); [| lia].
  cbn [andb]. destruct (has_non_dot t); [| reflexivity].
  replace (Z.to_nat (0 + Z.of_nat (String.length t))) with (String.length t) by lia.
  apply substring_prefix.
Qed.

(** X2.  The document identifier of a PDF of the listing.  For a key
    [stem.pdf] without directory part the identifier is the stem with
    every run of white space and hyphens replaced by one hyphen, in lower
    case; the one exception is a stem of dots only (the empty stem
    included), which [os.path.splitext] does not split, so that the
    identifier keeps the extension. *)
Theorem doc_id_of_pdf stem :
  occurs "/" stem = false →
  doc_id_of (stem +:+ ".pdf")
  = if has_non_dot stem then lower (re_sub_space_hyphen stem)
    else stem +:+ ".pdf".
Proof.
  intros Hs. unfold doc_id_of, re_sub_space_hyphen.
  rewrite sub_runs_app_pdf.
  rewrite splitext_root_pdf by (by rewrite occurs_slash_sub_runs).
  rewrite has_non_dot_sub_runs.
  destruct (has_non_dot stem) eqn:Hd; [reflexivity |].
  destruct (all_dots_fixed stem Hd) as [E1 E2].
  by rewrite E1, lower_app, E2.
Qed.

Lemma doc_id_of_pdf_witness :
  doc_id_of "Pet  Care - Guide.pdf" = "pet-care-guide"
  ∧ doc_id_of "...pdf" = "...pdf".
Proof.
  split.
  - exact (doc_id_of_pdf "Pet  Care - Guide" eq_refl).
  - exact (doc_id_of_pdf ".." eq_refl).
Defined.

(** ** The batch, whatever the cloud answers *)

Lemma calls_of_app l1 l2 : calls_of (l1 ++ l2) = calls_of l1 ++ calls_of l2.
Proof. apply omap_app. Qed.

Lemma submissions_app l1 l2 :
  submissions (l1 ++ l2) = submissions l1 ++ submissions l2.
Proof. unfold submissions. by rewrite calls_of_app, List.filter_app. Qed.

Lemma submissions_rounds kb ds id polls : submissions (rounds kb ds id polls) = [].
Proof. induction polls as [| a polls IH]; [reflexivity | exact IH]. Qed.

Lemma length_rounds kb ds id polls :
  length (rounds kb ds id polls) = 2 * length polls.
Proof.
  induction polls as [| a polls IH]; [reflexivity |].
  cbn [rounds flat_map app length] in *. unfold rounds in IH. rewrite IH. lia.
Qed.

Lemma string_length_app s t :
  String.length (s +:+ t) = String.length s + String.length t.
Proof.
  induction s as [| c s IH]; [reflexivity |].
  change (S (String.length (s +:+ t)) = S (String.length s + String.length t)).
  by rewrite IH.
Qed.

Lemma substring_whole u : String.substring 0 (String.length u) u = u.
Proof.
  induction u as [| c u IH]; [reflexivity |].
  cbn [String.length String.substring]. by rewrite IH.
Qed.

Lemma substring_suffix s u :
  String.substring (String.length s) (String.length u) (s +:+ u) = u.
Proof.
  induction s as [| c s IH]; [apply substring_whole |].
  change (String.substring (S (String.length s)) (String.length u)
            (String c (s +:+ u)) = u).
  cbn [String.substring]. exact IH.
Qed.

Lemma substring_split s : ∀ n, (n ≤ String.length s)%nat →
  s = String.substring 0 n s
      +:+ String.substring n (String.length s - n) s.
Proof.
  induction s as [| c s IH]; intros n Hn.
  - cbn in Hn. assert (n = 0) as -> by lia. reflexivity.
  - destruct n as [| n].
    + exact (eq_sym (substring_whole (String c s))).
    + cbn [String.length] in Hn |- *.
      change (String.substring 0 (S n) (String c s))
        with (String c (String.substring 0 n s)).
      change (String.substring (S n) (S (String.length s) - S n) (String c s))
        with (String.substring n (String.length s - n) s).
      change (String c s
              = String c (String.substring 0 n s
                          +:+ String.substring n (String.length s - n) s)).
      by rewrite <- IH by lia.
Qed.

(** [file.endswith('.pdf')], said without the function: the name is a stem
    followed by [.pdf]. *)
Lemma endswith_pdf_spec file :
  endswith file ".pdf" = true ↔ ∃ stem, file = stem +:+ ".pdf".
Proof.
  unfold endswith. change (String.length ".pdf") with 4. split.
  - intros Hend. apply andb_true_iff in Hend as [Hlen Heq].
    apply Nat.leb_le in Hlen. apply String.eqb_eq in Heq.
    exists (String.substring 0 (String.length file - 4) file).
    pose proof (substring_split file (String.length file - 4)) as Hsplit.
    replace (String.length file - (String.length file - 4)) with 4 in Hsplit
      by lia.
    rewrite Heq in Hsplit. apply Hsplit. lia.
  - intros [stem ->]. rewrite string_length_app.
    change (String.length ".pdf") with 4.
    replace (String.length stem + 4 - 4) with (String.length stem) by lia.
    apply andb_true_iff. split; [apply Nat.leb_le; lia |].
    apply String.eqb_eq. apply (substring_suffix stem ".pdf").
Qed.

Lemma kb_files_of_sublist entries : kb_files_of entries `sublist_of` entries.
Proof.
  unfold kb_files_of. induction entries as [| file rest IH]; [constructor |].
  cbn [List.filter]. destruct (endswith file ".pdf"); by constructor.
Qed.

Lemma kb_files_of_spec entries file :
  file ∈ kb_files_of entries
  ↔ file ∈ entries ∧ ∃ stem, file = stem +:+ ".pdf".
Proof.
  unfold kb_files_of.
  rewrite list_elem_of_In, List.filter_In, <- list_elem_of_In, endswith_pdf_spec.
  reflexivity.
Qed.

Section BatchProofs.
Context {W : Type} `{Cloud W}.

Lemma ingest_each_run mm kb ds bucket : ∀ files sc fc (st : St W),
  ∃ n f st',
    ingest_each mm kb ds bucket files sc fc st = (Ret (sc + n, fc + f), st')
    ∧ (f ≤ 1)%nat
    ∧ (n + f ≤ length files)%nat
    ∧ (f = 0 → n = length files)
    ∧ submissions (log st')
      = submissions (log st)
        ++ map (submission_of kb ds bucket) (take (n + f) files)
    ∧ (length (log st') ≤ length (log st) + 25 * (n + f))%nat.
Proof.
  induction files as [| file rest IH]; intros sc fc st.
  - exists 0, 0, st. cbn. rewrite app_nil_r, !Nat.add_0_r.
    repeat split; auto; lia.
  - cbn [ingest_each]. unfold bind.
    destruct (ingest_single_document_run kb ds (s3_uri_of bucket file)
                (doc_id_of file) (default ∅ (mm !! file)) st)
      as (b & a0 & polls & st1 & Hrun & Hlog & Hlen & _).
    rewrite Hrun.
    assert (Hsub : submissions (log st1)
                   = submissions (log st) ++ [submission_of kb ds bucket file]).
    { rewrite Hlog, submissions_app. f_equal.
      change (submission_of kb ds bucket file
                :: submissions (rounds kb ds (doc_id_of file) polls)
              = [submission_of kb ds bucket file]).
      by rewrite submissions_rounds. }
    assert (Hsize : (length (log st1) ≤ length (log st) + 25)%nat).
    { rewrite Hlog, length_app. cbn [length]. rewrite length_rounds. lia. }
    destruct b.
    + destruct (IH (sc + 1) fc st1) as (n & f & st' & Hrest & Hf & Hn & Hall & Hs & Hl).
      exists (S n), f, st'. rewrite Hrest.
      replace (sc + 1 + n) with (sc + S n) by lia.
      split; [reflexivity |]. cbn [length].
      repeat split; try lia.
      rewrite Hs, Hsub, <- app_assoc. reflexivity.
    + exists 0, 1, st1. unfold ret. rewrite Nat.add_0_r. cbn [length].
      repeat split; try lia.
      rewrite Hsub. reflexivity.
Qed.

(** X3.  [ingest_knowledge_base_documents], by what [os.listdir] gives.
    When [os.listdir] raises (no such folder, say), the function raises
    that error to its caller, before any call to the service.  When the
    folder is listed, the function returns its two counts whatever the
    service answers: it does not raise and it ends.  At most one failure is
    counted, the counts do not exceed the number of the entries that end
    in [.pdf], and without a failure every one of them was ingested.  The
    documents submitted are the first [success + fail] of these entries,
    one submission each, in the order of the listing: an entry that does
    not end in [.pdf] is never submitted, nor is any entry after the one
    that failed.  The run adds at most 25 events to the log for each
    document submitted (the submission and 12 rounds of a wait and a
    poll). *)
Theorem ingest_batch_returns kb ds bucket (kb_folder : Folder) (st : St W) :
  match kb_folder with
  | Unlistable e =>
      ingest_knowledge_base_documents kb ds bucket kb_folder st = (Raise e, st)
  | Listing entries =>
      ∃ success_count fail_count pdfs st',
        ingest_knowledge_base_documents kb ds bucket kb_folder st
        = (Ret (success_count, fail_count), st')
        ∧ pdfs `sublist_of` entries
        ∧ (∀ file, file ∈ pdfs
                   ↔ file ∈ entries ∧ ∃ stem, file = stem +:+ ".pdf")
        ∧ (fail_count ≤ 1)%nat
        ∧ (success_count + fail_count ≤ length pdfs)%nat
        ∧ (fail_count = 0 → success_count = length pdfs)
        ∧ submissions (log st')
          = submissions (log st)
            ++ map (submission_of kb ds bucket)
                 (take (success_count + fail_count) pdfs)
        ∧ (length (log st')
           ≤ length (log st) + 25 * (success_count + fail_count))%nat
  end.
Proof.
  destruct kb_folder as [entries | e]; [| reflexivity].
  rewrite listed_folder_run.
  destruct (ingest_each_run metadata_map kb ds bucket (kb_files_of entries) 0 0 st)
    as (n & f & st' & Hrun & Hrest).
  exists n, f, (kb_files_of entries), st'.
  split; [exact Hrun |].
  split; [apply kb_files_of_sublist |].
  split; [apply kb_files_of_spec | exact Hrest].
Qed.

End BatchProofs.

(** ** The script's knowledge base: the wait for [ACTIVE] *)

Section WaitProofs.
Context {W : Type} `{Cloud W}.

Lemma wait_until_active_run kb_id : ∀ fuel waited (st : St W),
  (max_wait_active ≤ waited + 10 * fuel)%nat →
  ∃ pending last r st',
    wait_until_active fuel kb_id waited st = (r, st')
    ∧ log st' = log st ++ waiting kb_id pending ++ last_poll kb_id last
    ∧ forallb in_progress pending = true
    ∧ (10 * length pending ≤ max_wait_active + 9 - waited)%nat
    ∧ match last with
      | None => r = Ret tt ∧ (max_wait_active ≤ waited + 10 * length pending)%nat
      | Some a =>
          in_progress a = false
          ∧ (waited + 10 * length pending < max_wait_active)%nat
          ∧ (r = Ret tt ↔ kb_reports "ACTIVE" a = true)
          ∧ (r = Ret tt ∨ ∃ e, r = Raise e)
          ∧ (kb_reports "FAILED" a = true
             → r = Raise (OtherException "Knowledge Base creation failed"))
          ∧ (∀ e, a = inr e → r = Raise e)
      end.
Proof.
  induction fuel as [| fuel IH]; intros waited st Hfuel.
  - exists [], None, (Ret tt), st. cbn [wait_until_active].
    destruct (Nat.ltb_spec waited max_wait_active); unfold max_wait_active in *;
      [lia |].
    cbn. rewrite app_nil_r. repeat split; lia.
  - cbn [wait_until_active].
    destruct (Nat.ltb_spec waited max_wait_active) as [Hlt | Hge];
      unfold max_wait_active in *.
    2:{ exists [], None, (Ret tt), st. cbn. rewrite app_nil_r.
        repeat split; lia. }
    unfold bind at 1, call at 1.
    destruct (respond (cloud st) (GetKnowledgeBase kb_id)) as [a w] eqn:Hresp.
    assert (Hend : ∀ r : outcome unit,
              in_progress a = false →
              (r = Ret tt ↔ kb_reports "ACTIVE" a = true) →
              (r = Ret tt ∨ ∃ e, r = Raise e) →
              (kb_reports "FAILED" a = true
               → r = Raise (OtherException "Knowledge Base creation failed")) →
              (∀ e, a = inr e → r = Raise e) →
              ∃ pending last r' st',
                (r, mkSt w (log st ++ [Called (GetKnowledgeBase kb_id) a]))
                = (r', st')
                ∧ log st' = log st ++ waiting kb_id pending ++ last_poll kb_id last
                ∧ forallb in_progress pending = true
                ∧ (10 * length pending ≤ 120 + 9 - waited)%nat
                ∧ match last with
                  | None => r' = Ret tt ∧ (120 ≤ waited + 10 * length pending)%nat
                  | Some a =>
                      in_progress a = false
                      ∧ (waited + 10 * length pending < 120)%nat
                      ∧ (r' = Ret tt ↔ kb_reports "ACTIVE" a = true)
                      ∧ (r' = Ret tt ∨ ∃ e, r' = Raise e)
                      ∧ (kb_reports "FAILED" a = true
                         → r' = Raise (OtherException "Knowledge Base creation failed"))
                      ∧ (∀ e, a = inr e → r' = Raise e)
                  end).
    { intros r H1 H2 H3 H4 H5.
      exists [], (Some a), r, (mkSt w (log st ++ [Called (GetKnowledgeBase kb_id) a])).
      cbn [waiting flat_map last_poll app log forallb length].
      repeat split; try lia; try tauto; auto; apply H2. }
    assert (Hexcl : ∀ s, String.eqb s "ACTIVE" = true → String.eqb s "FAILED" = false).
    { intros s E. apply String.eqb_eq in E. subst s. reflexivity. }
    destruct a as [resp | e].
    2:{ apply Hend; cbn;
          first [reflexivity | right; eexists; reflexivity
                | split; intros; congruence | intros; congruence]. }
    destruct resp;
      try (cbn; apply Hend; cbn;
           first [reflexivity | right; eexists; reflexivity
                 | split; intros; congruence | intros; congruence]).
    cbn -[wait_until_active String.eqb].
    destruct (String.eqb (kb_status kb) "ACTIVE") eqn:Hact.
    { apply Hend; cbn -[String.eqb]; rewrite ?Hact, ?(Hexcl _ Hact);
        first [reflexivity | left; reflexivity
              | split; intros; congruence | intros; congruence]. }
    destruct (String.eqb (kb_status kb) "FAILED") eqn:Hfail.
    { apply Hend; cbn -[String.eqb]; rewrite ?Hact, ?Hfail;
        first [reflexivity | right; eexists; reflexivity
              | split; intros; congruence | intros; congruence]. }
    unfold bind at 1, sleep at 1. cbn [cloud log].
    destruct (IH (waited + 10)
                (mkSt (elapse w (Seconds 10))
                   ((log st ++ [Called (GetKnowledgeBase kb_id)
                                  (inl (RKnowledgeBase kb))])
                    ++ [Slept (Seconds 10)])))
      as (pending & last & r & st' & Hrun & Hlog & Hpend & Hlen & Hlast); [lia |].
    exists (inl (RKnowledgeBase kb) :: pending), last, r, st'.
    split; [exact Hrun |]. cbn [log] in Hlog. rewrite Hlog.
    cbn -[String.eqb]. rewrite Hact, Hfail, Hpend. cbn [negb andb].
    repeat rewrite <- app_assoc. cbn [app].
    repeat split; try lia.
    destruct last as [a |].
    + destruct Hlast as (L1 & L2 & L3). repeat split; try lia; try apply L3; auto.
    + destruct Hlast as (L1 & L2). split; [exact L1 | lia].
Qed.

(** X4.  [create_bedrock_knowledge_base], once the object is constructed:
    the knowledge base is polled at once, then every 10 seconds while its
    status is neither [ACTIVE] nor [FAILED], 12 times at most (120
    seconds).  The object is returned when a poll reports [ACTIVE], and
    also when the 12 polls pass without a terminal status: the timeout is
    not an error.  A poll that reports [FAILED] raises
    [Exception("Knowledge Base creation failed")], and an exception of a
    poll is raised as it is; no wait follows the poll that ends the loop. *)
Theorem create_bedrock_knowledge_base_waits region name description s3_bucket
    (st st1 : St W) kb :
  __init__ region name (Some description) s3_bucket
    "amazon.titan-embed-text-v2:0" st = (Ret kb, st1) →
  ∃ pending last r st',
    create_bedrock_knowledge_base region name description s3_bucket st = (r, st')
    ∧ log st' = log st1 ++ waiting (get_knowledge_base_id kb) pending
                        ++ last_poll (get_knowledge_base_id kb) last
    ∧ forallb in_progress pending = true
    ∧ match last with
      | None => length pending = 12 ∧ r = Ret kb
      | Some a =>
          (length pending < 12)%nat
          ∧ in_progress a = false
          ∧ (r = Ret kb ↔ kb_reports "ACTIVE" a = true)
          ∧ (r = Ret kb ∨ ∃ e, r = Raise e)
          ∧ (kb_reports "FAILED" a = true
             → r = Raise (OtherException "Knowledge Base creation failed"))
          ∧ (∀ e, a = inr e → r = Raise e)
      end.
Proof.
  intros Hinit. unfold create_bedrock_knowledge_base.
  unfold bind at 1. rewrite Hinit.
  destruct (wait_until_active_run (get_knowledge_base_id kb)
              max_wait_active 0 st1)
    as (pending & last & r & st' & Hrun & Hlog & Hpend & Hlen & Hlast);
    [unfold max_wait_active; lia |].
  unfold bind. rewrite Hrun. unfold max_wait_active in *.
  destruct last as [a |].
  - destruct Hlast as (L1 & L2 & L3 & L4 & L5 & L6).
    destruct L4 as [-> | [e ->]].
    + exists pending, (Some a), (Ret kb), st'.
      repeat split; auto; try lia.
      * intros _. by apply L3.
      * intros Hf. specialize (L5 Hf). discriminate.
      * intros e He. specialize (L6 e He). discriminate.
    + exists pending, (Some a), (Raise e), st'.
      repeat split; eauto; try lia.
      * discriminate.
      * intros Ha. apply L3 in Ha. discriminate.
      * intros Hf. specialize (L5 Hf). congruence.
      * intros e' He. specialize (L6 e' He). congruence.
  - destruct Hlast as (-> & L2).
    exists pending, None, (Ret kb), st'. repeat split; auto; lia.
Qed.

End WaitProofs.

Lemma create_bedrock_knowledge_base_witness :
  ∃ pending last r st',
    create_bedrock_knowledge_base "us-east-1" "pets-kb"
      "Pets Knowledge Base on cats and dogs" (Some "bedrock-kb-bucket-1234")
      (mkSt fresh_account []) = (r, st')
    ∧ log st' = log (snd first_run)
                ++ waiting (get_knowledge_base_id pets_kb) pending
                ++ last_poll (get_knowledge_base_id pets_kb) last
    ∧ forallb in_progress pending = true
    ∧ match last with
      | None => length pending = 12 ∧ r = Ret pets_kb
      | Some a =>
          (length pending < 12)%nat
          ∧ in_progress a = false
          ∧ (r = Ret pets_kb ↔ kb_reports "ACTIVE" a = true)
          ∧ (r = Ret pets_kb ∨ ∃ e, r = Raise e)
          ∧ (kb_reports "FAILED" a = true
             → r = Raise (OtherException "Knowledge Base creation failed"))
          ∧ (∀ e, a = inr e → r = Raise e)
      end.
Proof.
  apply (create_bedrock_knowledge_base_waits "us-east-1" "pets-kb"
           "Pets Knowledge Base on cats and dogs" (Some "bedrock-kb-bucket-1234")
           (mkSt fresh_account []) (snd first_run) pets_kb).
  apply pair_eq_fst. vm_compute. reflexivity.
Defined.

(** ** Teardown: the services called *)

Lemma teardown_plan_services self (s3 iam : bool) contents :
  Forall (teardown_service s3 iam) (teardown_plan self s3 iam contents).
Proof.
  unfold teardown_plan. cbn [app].
  apply List.Forall_cons; [by left |]. apply List.Forall_cons; [by left |].
  apply Forall_app. split.
  - destruct s3; [| apply List.Forall_nil]. unfold storage_plan.
    apply List.Forall_cons; [right; left; by split |].
    apply Forall_app. split.
    + apply Forall_fmap, Forall_forall. intros key _. right; left. by split.
    + apply List.Forall_cons; [right; left; by split | apply List.Forall_nil].
  - destruct iam; [| apply List.Forall_nil]. unfold iam_plan.
    repeat (apply List.Forall_cons; [right; right; by split |]).
    apply List.Forall_nil.
Qed.

Section TeardownServices.
Context {W : Type} `{Cloud W}.

(** X5.  Whatever the cloud answers, [delete_kb] calls the Bedrock agent
    service, S3 only when [delete_s3_bucket] is set and IAM only when
    [delete_iam_roles_and_policies] is set.  It makes no call on the
    S3 Vectors service: the vector bucket and the index that [__init__]
    created are not deleted by any teardown. *)
Theorem teardown_leaves_the_vectors self (delete_s3_bucket delete_iam : bool)
    (st : St W) :
  ∃ evs,
    log (snd (delete_kb self delete_s3_bucket delete_iam st)) = log st ++ evs
    ∧ Forall (teardown_service delete_s3_bucket delete_iam) (calls_of evs)
    ∧ Forall (fun c => service_of c ≠ S3Vectors) (calls_of evs).
Proof.
  destruct (delete_kb_follows_plan self delete_s3_bucket delete_iam st)
    as (evs & Hlog & [rest Hpre] & _).
  exists evs. split; [exact Hlog |].
  pose proof (teardown_plan_services self delete_s3_bucket delete_iam
                (listed_keys evs)) as Hplan.
  rewrite Hpre in Hplan. apply Forall_app in Hplan as [Hcalls _].
  split; [exact Hcalls |].
  eapply Forall_impl; [exact Hcalls |].
  intros c [Hc | [[_ Hc] | [_ Hc]]]; rewrite Hc; discriminate.
Qed.

End TeardownServices.

(** ** create_knowledge_base: the attempts of the decorator *)


Lemma waits_of_app l1 l2 : waits_of (l1 ++ l2) = waits_of l1 ++ waits_of l2.
Proof. apply omap_app. Qed.


Section Attempts.
Context {W : Type} `{Cloud W}.





End Attempts.

(** ** start_ingestion_job: when it returns *)

Lemma last_cons_default {A} (l : list A) : ∀ a d,
  List.last (a :: l) d = List.last l a.
Proof.
  induction l as [| b l IH]; intros a d; [reflexivity |].
  change (List.last (a :: b :: l) d) with (List.last (b :: l) d).
  change (List.last (b :: l) a) with (List.last (b :: l) a).
  rewrite !IH. reflexivity.
Qed.

Section BulkIngestionReturns.
Context {W : Type} `{Cloud W}.

Lemma interactive_sleep_run seconds : ∀ st : St W,
  ∃ st',
    interactive_sleep seconds st = (Ret tt, st')
    ∧ log st' = log st ++ replicate seconds (Slept (Seconds 1)).
Proof.
  induction seconds as [| n IH]; intros st.
  - exists st. cbn. by rewrite app_nil_r.
  - cbn [interactive_sleep]. unfold bind at 1, sleep at 1.
    destruct (IH (mkSt (elapse (cloud st) (Seconds 1))
                    (log st ++ [Slept (Seconds 1)])))
      as (st' & Hrun & Hlog).
    exists st'. split; [exact Hrun |].
    cbn [log] in Hlog. by rewrite Hlog, <- app_assoc.
Qed.

Lemma poll_ingestion_job_log self : ∀ fuel job (st : St W) job' st',
  poll_ingestion_job fuel self job st = (Ret job', st') →
  ∃ jobs,
    log st' = log st ++ job_polls self job jobs
    ∧ job' = List.last jobs job
    ∧ Forall (fun j => job_status j ≠ "COMPLETE") (List.removelast (job :: jobs))
    ∧ (length jobs ≤ fuel)%nat.
Proof.
  induction fuel as [| fuel IH]; intros job st job' st'; cbn [poll_ingestion_job];
    destruct (String.eqb_spec (job_status job) "COMPLETE") as [E | E];
    cbn [negb]; try discriminate;
    try (intros [= <- <-]; exists []; cbn; rewrite app_nil_r;
         repeat split; [constructor | lia]).
  unfold bind at 1. rewrite call_run.
  destruct (respond (cloud st) _) as [[r | e] w]; cbn [fst snd]; try discriminate.
  unfold bind at 1, get_ingestionJob.
  destruct r; cbn -[poll_ingestion_job]; try discriminate.
  intros Hrun. destruct (IH _ _ _ _ Hrun) as (jobs & Hlog & Hlast & Hall & Hlen).
  exists (job0 :: jobs). cbn [log] in Hlog.
  rewrite Hlog, <- app_assoc. repeat split.
  - rewrite Hlast. symmetry. apply last_cons_default.
  - change (List.removelast (job :: job0 :: jobs))
      with (job :: List.removelast (job0 :: jobs)).
    by constructor.
  - cbn [length]. lia.
Qed.

(** X7.  [start_ingestion_job], when it returns: the log is the start
    call, answered with a job, then the polls and nothing between them (no
    wait), each asking for the job named by the answer before it, then the
    40 waits of one second.  The last job fetched is [COMPLETE] and none
    before it is: a job that the start call reports [COMPLETE] is not
    polled at all. *)
Theorem start_ingestion_job_returns fuel self (st st' : St W) :
  start_ingestion_job fuel self st = (Ret tt, st') →
  ∃ job jobs,
    log st'
    = log st
      ++ Called (StartIngestionJob (knowledgeBaseId (knowledge_base self))
                   (dataSourceId (data_source self)))
           (inl (RIngestionJob job))
         :: job_polls self job jobs ++ replicate 40 (Slept (Seconds 1))
    ∧ job_status (List.last jobs job) = "COMPLETE"
    ∧ Forall (fun j => job_status j ≠ "COMPLETE") (List.removelast (job :: jobs))
    ∧ (length jobs ≤ fuel)%nat.
Proof.
  unfold start_ingestion_job. unfold bind at 1. rewrite call_run.
  destruct (respond (cloud st) _) as [[r | e] w]; cbn [fst snd]; try discriminate.
  unfold bind at 1, get_ingestionJob.
  destruct r; cbn -[poll_ingestion_job interactive_sleep]; try discriminate.
  unfold bind.
  destruct (poll_ingestion_job fuel self job _) as [[job' | e |] st1] eqn:Hpoll;
    [| intros [=] | intros [=]].
  destruct (poll_ingestion_job_log _ _ _ _ _ _ Hpoll)
    as (jobs & Hlog & Hlast & Hall & Hlen).
  pose proof (poll_ingestion_job_returns_complete _ _ _ _ _ _ Hpoll) as Hdone.
  destruct (interactive_sleep_run 40 st1) as (st2 & Hsleep & Hlog2).
  rewrite Hsleep. intros [= <-].
  exists job, jobs. rewrite Hlog2, Hlog. cbn [log].
  rewrite <- !app_assoc. cbn [app]. rewrite <- Hlast. auto.
Qed.

End BulkIngestionReturns.

Lemma start_ingestion_job_returns_witness :
  ∃ job jobs,
    log (snd (start_ingestion_job 2 pets_kb (mkSt job_completes [])))
    = Called (StartIngestionJob "KB1" "DS2") (inl (RIngestionJob job))
      :: job_polls pets_kb job jobs ++ replicate 40 (Slept (Seconds 1))
    ∧ job_status (List.last jobs job) = "COMPLETE"
    ∧ Forall (fun j => job_status j ≠ "COMPLETE") (List.removelast (job :: jobs))
    ∧ (length jobs ≤ 2)%nat.
Proof.
  apply (start_ingestion_job_returns 2 pets_kb (mkSt job_completes [])
           (snd (start_ingestion_job 2 pets_kb (mkSt job_completes [])))).
  apply pair_eq_fst. vm_compute. reflexivity.
Defined.

(** ** create_s3_bucket: when the bucket is created *)

Section DataBucket.
Context {W : Type} `{Cloud W}.

(** X8.  [create_s3_bucket] starts with [head_bucket].  When that call
    returns, nothing else is called and the method returns.  When it raises
    a [ClientError], whatever its code (a missing bucket, but also a bucket
    the caller may not access), [create_bucket] is called, without
    location in [us-east-1] and with the region as [LocationConstraint]
    elsewhere, and the method ends as that call does: an error of
    [create_bucket] is raised to the caller.  Any other exception of
    [head_bucket] is raised as it is, and no bucket is created. *)
Theorem create_s3_bucket_run self (st : St W) :
  let head := HeadBucket (bucket_name self) in
  let create :=
    CreateBucket (bucket_name self)
      (if String.eqb (region_name self) "us-east-1" then None
       else Some (region_name self)) in
  let a := fst (respond (cloud st) head) in
  let st1 := mkSt (snd (respond (cloud st) head)) (log st ++ [Called head a]) in
  let a' := fst (respond (cloud st1) create) in
  match a with
  | inl _ => create_s3_bucket self st = (Ret tt, st1)
  | inr e =>
      if isinstance e ClientError_
      then create_s3_bucket self st
           = (match a' with inl _ => Ret tt | inr e' => Raise e' end,
              mkSt (snd (respond (cloud st1) create))
                (log st ++ [Called head a; Called create a']))
      else create_s3_bucket self st = (Raise e, st1)
  end.
Proof.
  cbn zeta.
  assert (Hthen : ∀ c (st0 : St W),
            (call c ;; ret tt) st0
            = (match fst (respond (cloud st0) c) with
               | inl _ => Ret tt
               | inr e => Raise e
               end,
               mkSt (snd (respond (cloud st0) c))
                 (log st0 ++ [Called c (fst (respond (cloud st0) c))]))).
  { intros c st0. unfold bind. rewrite call_run.
    by destruct (fst (respond (cloud st0) c)). }
  unfold create_s3_bucket, try_except. rewrite Hthen.
  destruct (fst (respond (cloud st) (HeadBucket (bucket_name self))))
    as [r | e]; [reflexivity |].
  cbn [List.find fst snd]. destruct (isinstance e ClientError_); [| reflexivity].
  cbn [fst snd].
  destruct (String.eqb (region_name self) "us-east-1");
    rewrite Hthen; cbn [cloud log]; rewrite <- app_assoc; reflexivity.
Qed.

End DataBucket.

(** ** The names of the role and of the policies *)

Section SharedRole.
Context {W : Type} `{Cloud W}.

(** The attributes of the object [__init__] returns: all but the names
    given come from the identity the first call answered. *)
Lemma init_names region name desc bucket model (st st' : St W) o :
  __init__ region name desc bucket model st = (Ret o, st') →
  ∃ identity,
    fst (respond (cloud st) GetCallerIdentity) = inl identity
    ∧ account_number (names o) = get_Account identity
    ∧ suffix (names o) = take_prefix 4 (str_of (get_Account identity))
    ∧ kb_execution_role_name (names o)
      = "AmazonBedrockExecutionRoleForKnowledgeBase_" +:+ suffix (names o)
    ∧ fm_policy_name (names o)
      = "AmazonBedrockFoundationModelPolicyForKnowledgeBase_" +:+ suffix (names o)
    ∧ s3_policy_name (names o)
      = "AmazonBedrockS3PolicyForKnowledgeBase_" +:+ suffix (names o)
    ∧ region_name (names o) = region
    ∧ kb_name (names o) = name
    ∧ embedding_model (names o) = model.
Proof.
  unfold __init__. unfold bind at 1. rewrite call_run.
  destruct (respond (cloud st) GetCallerIdentity) as [[identity | e] w];
    cbn [fst snd]; [| intros [=]].
  destruct (negb (str_in model valid_embedding_models)); [intros [=] |].
  unfold bind.
  destruct (create_s3_bucket _ _) as [[[] | e |] s1]; cbn beta iota;
    [| intros [=] | intros [=]].
  destruct (create_s3_vector_resources _ _) as [[[[[vbn vin] vba] via] | e |] s2];
    cbn beta iota; [| intros [=] | intros [=]].
  destruct (create_bedrock_kb_execution_role _ _) as [[role | e |] s3];
    cbn beta iota; [| intros [=] | intros [=]].
  destruct (create_knowledge_base _ _ _ _ _) as [[kb_ds | e |] s4];
    cbn beta iota; [| intros [=] | intros [=]].
  intros [= <- <-]. exists identity. cbn. repeat split; reflexivity.
Qed.

(** X9.  The names of the execution role and of the two policies are made
    of the first four digits of the account number alone: two knowledge
    bases constructed in the same account, whatever their names, regions,
    buckets and models, use the same role and the same policies, and the
    IAM calls of the teardown of the one are those of the teardown of the
    other.  Deleting one knowledge base with its IAM resources deletes the
    role of every other. *)
Theorem execution_role_is_shared
    region1 name1 desc1 bucket1 model1 region2 name2 desc2 bucket2 model2
    (st1 st1' st2 st2' : St W) o1 o2 :
  __init__ region1 name1 desc1 bucket1 model1 st1 = (Ret o1, st1') →
  __init__ region2 name2 desc2 bucket2 model2 st2 = (Ret o2, st2') →
  fst (respond (cloud st1) GetCallerIdentity)
  = fst (respond (cloud st2) GetCallerIdentity) →
  iam_plan (names o1) = iam_plan (names o2)
  ∧ ∀ delete_s3_bucket contents,
      DeleteRole (kb_execution_role_name (names o2))
      ∈ teardown_plan o1 delete_s3_bucket true contents.
Proof.
  intros H1 H2 Hsame.
  destruct (init_names _ _ _ _ _ _ _ _ H1)
    as (i1 & Hi1 & A1 & S1 & R1 & F1 & P1 & _).
  destruct (init_names _ _ _ _ _ _ _ _ H2)
    as (i2 & Hi2 & A2 & S2 & R2 & F2 & P2 & _).
  assert (i1 = i2) as <- by congruence.
  assert (Hplan : iam_plan (names o1) = iam_plan (names o2)).
  { unfold iam_plan, policy_arn.
    rewrite R1, F1, P1, R2, F2, P2, A1, A2, S1, S2. reflexivity. }
  split; [exact Hplan |].
  intros s3 contents. unfold teardown_plan. rewrite Hplan.
  rewrite !elem_of_app. right; right.
  unfold iam_plan. rewrite !elem_of_cons. auto.
Qed.

End SharedRole.

Lemma execution_role_is_shared_witness :
  iam_plan (names pets_kb) = iam_plan (names birds_kb)
  ∧ ∀ delete_s3_bucket contents,
      DeleteRole (kb_execution_role_name (names birds_kb))
      ∈ teardown_plan pets_kb delete_s3_bucket true contents.
Proof.
  apply (execution_role_is_shared
           "us-east-1" "pets-kb" (Some "Pets Knowledge Base on cats and dogs")
           (Some "bedrock-kb-bucket-1234") "amazon.titan-embed-text-v2:0"
           "us-east-1" "birds-kb" None None "cohere.embed-english-v3"
           (mkSt fresh_account []) (snd first_run)
           (snd first_run)
           (snd (__init__ "us-east-1" "birds-kb" None None
                   "cohere.embed-english-v3" (snd first_run)))).
  - apply pair_eq_fst. vm_compute. reflexivity.
  - apply pair_eq_fst. vm_compute. reflexivity.
  - vm_compute. reflexivity.
Defined.

(** ** Runs that do not wait *)

Section Calm.
Context {W : Type} `{Cloud W}.

Lemma calm_ret {A} (a : A) : calm 0 (ret (W := W) a).
Proof.
  intros st. exists []. cbn. rewrite app_nil_r. repeat split; [lia | discriminate].
Qed.

Lemma calm_raise {A} e : calm 0 (raise (W := W) (A := A) e).
Proof.
  intros st. exists []. cbn. rewrite app_nil_r. repeat split; [lia | discriminate].
Qed.

Lemma calm_call c : calm 1 (call (W := W) c).
Proof.
  intros st. rewrite call_run. eexists [_]. cbn [fst snd log].
  repeat split; [cbn; lia |]. by destruct (fst (respond (cloud st) c)).
Qed.

Lemma calm_weaken {A} n n' (m : M W A) : calm n m → (n ≤ n')%nat → calm n' m.
Proof.
  intros Hm Hn st. destruct (Hm st) as (evs & Hlog & Hw & Hlen & Hfuel).
  exists evs. repeat split; auto. lia.
Qed.

Lemma calm_bind {A B} n1 n2 (m : M W A) (k : A → M W B) :
  calm n1 m → (∀ a, calm n2 (k a)) → calm (n1 + n2) (bind m k).
Proof.
  intros Hm Hk st. destruct (Hm st) as (evs1 & Hlog1 & Hw1 & Hlen1 & Hfuel1).
  unfold bind. destruct (m st) as [[a | e |] st1]; cbn [fst snd] in *.
  - destruct (Hk a st1) as (evs2 & Hlog2 & Hw2 & Hlen2 & Hfuel2).
    exists (evs1 ++ evs2). rewrite Hlog2, Hlog1, <- app_assoc.
    rewrite waits_of_app, Hw1, Hw2, length_app. repeat split; auto. lia.
  - exists evs1. repeat split; auto. lia.
  - contradiction.
Qed.

Lemma calm_try_except {A} n k (body : M W A) handlers :
  calm n body →
  Forall (fun h => ∀ e, calm k (snd h e)) handlers →
  calm (n + k) (try_except body handlers).
Proof.
  intros Hb Hh st. destruct (Hb st) as (evs1 & Hlog1 & Hw1 & Hlen1 & Hfuel1).
  unfold try_except.
  destruct (body st) as [[a | e |] st1]; cbn [fst snd] in *;
    try (exists evs1; repeat split; auto; lia).
  destruct (List.find _ handlers) as [h |] eqn:Hfind; cbn [fst snd];
    [| exists evs1; repeat split; auto; lia].
  apply find_some in Hfind as [Hin _].
  rewrite Forall_forall in Hh. apply list_elem_of_In in Hin.
  destruct (Hh h Hin e st1) as (evs2 & Hlog2 & Hw2 & Hlen2 & Hfuel2).
  exists (evs1 ++ evs2). rewrite Hlog2, Hlog1, <- app_assoc.
  rewrite waits_of_app, Hw1, Hw2, length_app. repeat split; auto. lia.
Qed.

End Calm.

(** Decomposes a goal [calm ?n m] along the program [m]; the bound is
    found on the way. *)
Ltac calm_step :=
  lazymatch goal with
  | |- calm _ (ret _) => apply calm_ret
  | |- calm _ (raise _) => apply calm_raise
  | |- calm _ (call _) => apply calm_call
  | |- calm _ (bind _ _) => eapply calm_bind; [ | intros ? ]
  | |- calm _ (try_except _ _) => eapply calm_try_except; [ | each_handler ]
  | |- calm _ (match ?x with _ => _ end) => destruct x
  end.

Ltac calm_go := repeat calm_step.

Lemma isinstance_modeled e svc code :
  isinstance e (Modeled svc code) = true → e = ClientError svc code.
Proof.
  destruct e as [svc' code' | | | |]; cbn; try discriminate.
  intros Hm. apply andb_true_iff in Hm as [Hs Hc].
  apply String.eqb_eq in Hc. subst code'.
  destruct svc, svc'; try discriminate; reflexivity.
Qed.

(** ** create_bedrock_kb_execution_role: the wait for the role *)

Section ExecutionRole.
Context {W : Type} `{Cloud W}.

Lemma role_log_bind {A} n k (m : M W A) (rest : A → M W Role) :
  calm n m →
  (∀ a, logs (role_log k) (rest a)) →
  logs (role_log (n + k)) (bind m rest).
Proof.
  intros Hm Hrest st. destruct (Hm st) as (evs1 & Hlog1 & Hw1 & Hlen1 & Hfuel1).
  unfold bind. destruct (m st) as [[a | e |] st1]; cbn [fst snd] in *.
  - destruct (Hrest a st1) as (evs2 & Hlog2 & HQ).
    exists (evs1 ++ evs2). rewrite Hlog2, Hlog1, <- app_assoc.
    split; [reflexivity |].
    destruct (fst (rest a st1)) as [role | e |]; cbn [role_log] in *.
    + destruct HQ as (pre & fm & s3 & r1 & r2 & -> & Hw & Hlen).
      exists (evs1 ++ pre), fm, s3, r1, r2.
      rewrite <- app_assoc, waits_of_app, Hw1, Hw, length_app.
      repeat split; auto. lia.
    + destruct HQ as [Hw Hlen].
      rewrite waits_of_app, Hw1, Hw, length_app. split; [reflexivity | lia].
    + exact HQ.
  - exists evs1. split; [exact Hlog1 |]. cbn [role_log]. split; [exact Hw1 | lia].
  - contradiction.
Qed.

(** The end of the method: the two attachments, then the wait. *)
Lemma attach_and_wait (role : Role) fm_policy_arn s3_policy_arn :
  logs (role_log 0)
    (call (AttachRolePolicy (RoleName role) fm_policy_arn) ;;
     call (AttachRolePolicy (RoleName role) s3_policy_arn) ;;
     interactive_sleep 60 ;;
     ret role).
Proof.
  intros st.
  destruct ((call (AttachRolePolicy (RoleName role) fm_policy_arn) ;;
             call (AttachRolePolicy (RoleName role) s3_policy_arn) ;;
             interactive_sleep 60 ;; ret role) st) as [r st'] eqn:E.
  cbn [fst snd]. revert E. unfold bind at 1. rewrite call_run.
  destruct (respond (cloud st) _) as [[r1 | e1] w1]; cbn [fst snd].
  2:{ intros [= <- <-]. eexists [_]. cbn [log]. split; [reflexivity |].
      cbn. split; [reflexivity | lia]. }
  unfold bind at 1. rewrite call_run. cbn [cloud log].
  destruct (respond w1 _) as [[r2 | e2] w2]; cbn [fst snd].
  2:{ intros [= <- <-]. eexists [_; _]. cbn [log]. rewrite <- app_assoc.
      split; [reflexivity |]. cbn. split; [reflexivity | lia]. }
  unfold bind.
  match goal with
  | |- context [interactive_sleep 60 ?s] =>
      destruct (interactive_sleep_run 60 s) as (st3 & Hsleep & Hlog3)
  end.
  rewrite Hsleep. intros [= <- <-].
  eexists. split.
  - rewrite Hlog3. cbn [log]. rewrite <- !app_assoc. reflexivity.
  - cbn [role_log]. exists [], fm_policy_arn, s3_policy_arn, r1, r2.
    repeat split. cbn. lia.
Qed.

(** The wait comes last: a run that returns ends with two attachments and
    the 60 waits, at most 8 events before them; a run that raises has made
    at most 10 calls and has not waited; no run is out of fuel. *)
Lemma execution_role_calm self (st : St W) :
  ∃ evs,
    log (snd (create_bedrock_kb_execution_role self st)) = log st ++ evs
    ∧ role_log 8 (fst (create_bedrock_kb_execution_role self st)) evs.
Proof.
  revert st. change (logs (role_log 8) (create_bedrock_kb_execution_role self)).
  unfold create_bedrock_kb_execution_role.
  change 8 with (2 + (3 + (3 + (0 + (0 + (0 + 0)))))).
  apply role_log_bind; [| intros fm_policy].
  { change 2 with (1 + 1). calm_go. }
  apply role_log_bind; [| intros s3_policy].
  { change 3 with (1 + (1 + (0 + (1 + 0)))). unfold get_Policy_Arn. calm_go. }
  apply role_log_bind; [| intros bedrock_kb_execution_role].
  { change 3 with (1 + (1 + (1 + 0))). calm_go. }
  apply role_log_bind; [unfold get_Policy_Arn; calm_go | intros s3_policy_arn].
  apply role_log_bind; [unfold get_Policy_Arn; calm_go | intros fm_policy_arn].
  apply role_log_bind; [unfold get_Role; calm_go | intros role].
  apply attach_and_wait.
Qed.

(** Runs that return, read backwards. *)
Lemma bind_ret_inv {A B} (m : M W A) (k : A → M W B) (st st' : St W) y :
  bind m k st = (Ret y, st') →
  ∃ x st1, m st = (Ret x, st1) ∧ k x st1 = (Ret y, st').
Proof.
  unfold bind. destruct (m st) as [[x | e |] st1]; try discriminate. eauto.
Qed.

Lemma call_ret_inv c (st st' : St W) x :
  call c st = (Ret x, st') → log st' = log st ++ [Called c (inl x)].
Proof.
  rewrite call_run. destruct (fst (respond (cloud st) c)); intros [= <- <-].
  reflexivity.
Qed.

Lemma try_call_inv c cls (h : exn → M W Response) (st st' : St W) x :
  try_except (call c) [(cls, h)] st = (Ret x, st') →
  log st' = log st ++ [Called c (inl x)]
  ∨ ∃ e st1,
      isinstance e cls = true
      ∧ log st1 = log st ++ [Called c (inr e)]
      ∧ h e st1 = (Ret x, st').
Proof.
  unfold try_except. rewrite call_run.
  destruct (respond (cloud st) c) as [[r | e] w]; cbn [fst snd List.find].
  - intros [= <- <-]. by left.
  - destruct (isinstance e cls) eqn:He; cbn [snd]; [| intros [=]].
    intros Hh. right. eexists e, _. split; [exact He |]. split; [| exact Hh].
    reflexivity.
Qed.

Lemma get_Policy_Arn_inv r (st st' : St W) arn :
  get_Policy_Arn r st = (Ret arn, st') → r = RPolicy arn ∧ st' = st.
Proof. destruct r; cbn; intros [=]; subst; auto. Qed.

Lemma get_Role_inv r (st st' : St W) role :
  get_Role r st = (Ret role, st') → r = RRole role ∧ st' = st.
Proof. destruct r; cbn; intros [=]; subst; auto. Qed.

(** A run of [create_bedrock_kb_execution_role] that returns. *)
Lemma execution_role_returned self (st st' : St W) role :
  create_bedrock_kb_execution_role self st = (Ret role, st') →
  ∃ evs, log st' = log st ++ evs ∧ execution_role_log self (Ret role) evs.
Proof.
  unfold create_bedrock_kb_execution_role. intros Hrun.
  apply bind_ret_inv in Hrun as (fm_policy & s1 & H1 & Hrun).
  apply bind_ret_inv in Hrun as (s3_policy & s2 & H2 & Hrun).
  apply bind_ret_inv in Hrun as (answer & s3 & H3 & Hrun).
  apply bind_ret_inv in Hrun as (s3_arn & s4 & H4 & Hrun).
  apply bind_ret_inv in Hrun as (fm_arn & s5 & H5 & Hrun).
  apply bind_ret_inv in Hrun as (role0 & s6 & H6 & Hrun).
  apply bind_ret_inv in Hrun as (r1 & s7 & H7 & Hrun).
  apply bind_ret_inv in Hrun as (r2 & s8 & H8 & Hrun).
  apply bind_ret_inv in Hrun as ([] & s9 & H9 & Hrun).
  injection Hrun as -> ->.
  apply get_Policy_Arn_inv in H4 as [-> ->].
  apply get_Policy_Arn_inv in H5 as [-> ->].
  apply get_Role_inv in H6 as [-> ->].
  apply call_ret_inv in H7. apply call_ret_inv in H8.
  destruct (interactive_sleep_run 60 s8) as (s9' & Hsleep & Hlog9).
  rewrite Hsleep in H9. injection H9 as <-.
  assert (Hfm : ∃ evs_fm, log s1 = log st ++ evs_fm
                          ∧ fm_policy_events self fm_arn evs_fm).
  { apply try_call_inv in H1 as [Hlog | (e & s0 & He & Hlog0 & Hh)].
    - eexists. split; [exact Hlog |]. by left.
    - apply isinstance_modeled in He. subst e.
      apply call_ret_inv in Hh.
      eexists. split; [rewrite Hh, Hlog0, <- app_assoc; reflexivity |]. by right. }
  assert (Hs3 : ∃ evs_s3, log s2 = log s1 ++ evs_s3
                          ∧ s3_policy_events self s3_arn evs_s3).
  { apply try_call_inv in H2 as [Hlog | (e & s0 & He & Hlog0 & Hh)].
    - eexists. split; [exact Hlog |]. by left.
    - apply isinstance_modeled in He. subst e.
      apply bind_ret_inv in Hh as (p & t1 & G1 & Hh).
      apply bind_ret_inv in Hh as (arn & t2 & G2 & Hh).
      apply bind_ret_inv in Hh as (r & t3 & G3 & Hh).
      injection Hh as -> <-.
      apply get_Policy_Arn_inv in G2 as [[= <-] ->].
      apply call_ret_inv in G1. apply call_ret_inv in G3.
      eexists. split; [rewrite G3, G1, Hlog0, <- !app_assoc; reflexivity |].
      right. by exists r. }
  assert (Hrole : ∃ evs_role, log s3 = log s2 ++ evs_role
                              ∧ role_events self role evs_role).
  { apply try_call_inv in H3 as [Hlog | (e & s0 & He & Hlog0 & Hh)].
    - eexists. split; [exact Hlog |]. by left.
    - apply isinstance_modeled in He. subst e.
      apply bind_ret_inv in Hh as (p & t1 & G1 & Hh).
      apply bind_ret_inv in Hh as (r & t2 & G2 & Hh).
      injection Hh as -> <-.
      apply call_ret_inv in G1. apply call_ret_inv in G2.
      eexists. split; [rewrite G2, G1, Hlog0, <- !app_assoc; reflexivity |].
      right. by exists r. }
  destruct Hfm as (evs_fm & L1 & E1). destruct Hs3 as (evs_s3 & L2 & E2).
  destruct Hrole as (evs_role & L3 & E3).
  eexists. split.
  - rewrite Hlog9, H8, H7, L3, L2, L1, <- !app_assoc. reflexivity.
  - cbn [execution_role_log].
    exists fm_arn, s3_arn, evs_fm, evs_s3, evs_role, r1, r2. auto.
Qed.

(** X10.  [create_bedrock_kb_execution_role], by its outcome.  When it
    returns a role, its log is: the foundation-model policy obtained
    (created, or fetched after [EntityAlreadyExistsException]), the S3
    policy obtained (created, or fetched and given a new default version),
    the role obtained (created, or fetched and given the trust policy
    again); then the attachment to that role of the foundation-model
    policy, then of the S3 policy, each under the ARN the service answered
    for it, both accepted; then the 60 waits of one second, and nothing
    else.  When it raises, it has made at most 10 calls and has not waited
    at all.  It always ends. *)
Theorem execution_role_waits_when_ready self (st : St W) :
  ∃ evs,
    log (snd (create_bedrock_kb_execution_role self st)) = log st ++ evs
    ∧ execution_role_log self
        (fst (create_bedrock_kb_execution_role self st)) evs.
Proof.
  destruct (execution_role_calm self st) as (evs & Hlog & Hcalm).
  destruct (create_bedrock_kb_execution_role self st) as [[role | e |] st']
    eqn:Hrun; cbn [fst snd] in *.
  - exact (execution_role_returned self st st' role Hrun).
  - exists evs. split; [exact Hlog |]. exact Hcalm.
  - contradiction.
Qed.

End ExecutionRole.

(** ** create_s3_vector_resources: what is returned *)

Section VectorResources.
Context {W : Type} `{Cloud W}.

(** A resource of S3 Vectors is created, or fetched when the creation
    answers [ConflictException]; [read] takes the ARN out of the answer,
    or raises [KeyError]. *)
Lemma create_or_get_run {A} create get (read : Response → M W A)
    (wrap : A → Response) (st st' : St W) x :
  (∀ r, (∃ y, r = wrap y ∧ read r = ret y)
        ∨ (∃ key, read r = raise (KeyError key))) →
  try_except (let* response := call create in read response)
    [(Modeled S3Vectors "ConflictException",
      fun e => let* response := call get in read response)] st
  = (Ret x, st') →
  ∃ evs, log st' = log st ++ evs ∧ obtained create get (wrap x) evs.
Proof.
  intros Hread. unfold try_except. unfold bind at 1. rewrite call_run.
  destruct (respond (cloud st) create) as [[r | e] w]; cbn [fst snd].
  - destruct (Hread r) as [(y & -> & ->) | (key & ->)]; cbn.
    + intros [= <- <-]. eexists. split; [reflexivity |]. by left.
    + intros [=].
  - cbn [List.find fst snd].
    destruct (isinstance e _) eqn:Hinst; [| intros [=]].
    apply isinstance_modeled in Hinst. subst e. cbn [snd].
    unfold bind. rewrite call_run. cbn [cloud log].
    destruct (respond w get) as [[r | e] w2]; cbn [fst snd]; [| intros [=]].
    destruct (Hread r) as [(y & -> & ->) | (key & ->)]; cbn; [| intros [=]].
    intros [= <- <-].
    eexists. split; [rewrite <- app_assoc; reflexivity |]. by right.
Qed.

(** X11.  [create_s3_vector_resources], when it returns: the two names are
    made of the name of the knowledge base and of the account suffix, in
    lower case; each of the two resources was created, or fetched after
    its creation answered [ConflictException] (and after that answer
    only); the index is created in the vector bucket just named; and the
    ARNs returned are those the service answered.  Nothing else is called
    and nothing is awaited. *)
Theorem vector_resources_returned self (st st' : St W) vbn vin vba via :
  create_s3_vector_resources self st = (Ret (vbn, vin, vba, via), st') →
  vbn = lower (kb_name self +:+ "-vectors-" +:+ suffix self)
  ∧ vin = lower (kb_name self +:+ "-index")
  ∧ lower vbn = vbn ∧ lower vin = vin
  ∧ ∃ evs1 evs2,
      log st' = log st ++ evs1 ++ evs2
      ∧ obtained (CreateVectorBucket vbn) (GetVectorBucket vbn)
          (RVectorBucket vba) evs1
      ∧ obtained (CreateIndex vbn vin 1024 "float32" "euclidean")
          (GetIndex vbn vin) (RIndex via) evs2.
Proof.
  unfold create_s3_vector_resources. cbn zeta.
  set (bucket := lower (kb_name self +:+ "-vectors-" +:+ suffix self)).
  set (index := lower (kb_name self +:+ "-index")).
  unfold bind at 1.
  destruct (try_except _ _ st) as [[arn1 | e |] st1] eqn:H1;
    [| intros [=] | intros [=]].
  unfold bind at 1.
  destruct (try_except _ _ st1) as [[arn2 | e |] st2] eqn:H2;
    [| intros [=] | intros [=]].
  intros [= <- <- <- <- <-].
  apply (create_or_get_run _ _ _ RVectorBucket) in H1 as (evs1 & Hlog1 & Ho1).
  2:{ intros r. destruct r; cbn; eauto. }
  apply (create_or_get_run _ _ _ RIndex) in H2 as (evs2 & Hlog2 & Ho2).
  2:{ intros r. destruct r; cbn; eauto. }
  repeat split; try (subst bucket index; apply lower_idem).
  exists evs1, evs2. rewrite Hlog2, Hlog1, <- app_assoc. auto.
Qed.

End VectorResources.

Lemma vector_resources_returned_witness :
  ∃ evs1 evs2,
    log (snd (create_s3_vector_resources pets_names (mkSt provisioned [])))
    = evs1 ++ evs2
    ∧ obtained (CreateVectorBucket "pets-kb-vectors-1234")
        (GetVectorBucket "pets-kb-vectors-1234")
        (RVectorBucket (vector_bucket_arn pets_kb)) evs1
    ∧ obtained (CreateIndex "pets-kb-vectors-1234" "pets-kb-index" 1024
                  "float32" "euclidean")
        (GetIndex "pets-kb-vectors-1234" "pets-kb-index")
        (RIndex (vector_index_arn pets_kb)) evs2.
Proof.
  destruct (vector_resources_returned pets_names (mkSt provisioned [])
              (snd (create_s3_vector_resources pets_names (mkSt provisioned [])))
              "pets-kb-vectors-1234" "pets-kb-index"
              (vector_bucket_arn pets_kb) (vector_index_arn pets_kb))
    as (_ & _ & _ & _ & Hlog).
  - apply pair_eq_fst. vm_compute. reflexivity.
  - exact Hlog.
Defined.

(** ** create_knowledge_base: a failure after the creation *)

Section PartialSuccess.
Context {W : Type} `{Cloud W}.

(** The hypotheses on the cloud are those of the second construction: [I]
    is the property that a knowledge base named [name] exists. *)
Variable I : W → Prop.
Variable name : string.
Hypothesis create_establishes :
  ∀ w desc role type model storage vb idx r,
    fst (respond w (CreateKnowledgeBase name desc role type model storage vb idx))
    = inl r →
    I (snd (respond w (CreateKnowledgeBase name desc role type model storage vb idx))).
Hypothesis create_conflicts :
  ∀ w desc role type model storage vb idx,
    I w →
    fst (respond w (CreateKnowledgeBase name desc role type model storage vb idx))
    = inr conflict.
Hypothesis respond_keeps : ∀ w c, is_delete c = false → I w → I (snd (respond w c)).
Hypothesis elapse_keeps : ∀ w d, I w → I (elapse w d).

(** A program that starts with a call, in a [try]: the run after the
    call. *)
Lemma first_call_run {A B} c (m : Response → M W A) handlers (k : A → M W B)
    (st : St W) :
  bind (try_except (bind (call c) m) handlers) k st
  = bind (try_except
            (match fst (respond (cloud st) c) with
             | inl r => m r
             | inr e => raise e
             end) handlers) k
      (mkSt (snd (respond (cloud st) c))
         (log st ++ [Called c (fst (respond (cloud st) c))])).
Proof.
  unfold bind at 1 3, try_except at 1 2, bind at 1, call.
  destruct (respond (cloud st) c) as [[r | e] w]; reflexivity.
Qed.

(** Once the creation has succeeded, the knowledge base exists in the
    state the attempt leaves, however the attempt ends. *)
Lemma attempt_keeps_the_creation self vb idx role (st : St W) r :
  kb_name self = name →
  fst (respond (cloud st)
         (CreateKnowledgeBase (kb_name self) (kb_description self)
            (RoleArn role) "VECTOR"
            ("arn:aws:bedrock:" +:+ region_name self +:+ "::foundation-model/"
             +:+ embedding_model self)
            "S3_VECTORS" vb idx)) = inl r →
  I (cloud (snd (create_knowledge_base_attempt self vb idx role st))).
Proof.
  intros Hname Hcreate.
  pose proof (create_establishes (cloud st) (kb_description self) (RoleArn role)
                "VECTOR"
                ("arn:aws:bedrock:" +:+ region_name self +:+ "::foundation-model/"
                 +:+ embedding_model self)
                "S3_VECTORS" vb idx r) as Hw.
  rewrite <- Hname in Hw. specialize (Hw Hcreate).
  unfold create_knowledge_base_attempt. cbn zeta.
  rewrite first_call_run, Hcreate.
  match goal with
  | |- I (cloud (snd (?p ?s))) =>
      assert (Hsteady : steady I p); [| exact (proj1 (Hsteady s Hw))]
  end.
  unfold get_knowledgeBase, get_Role, get_knowledgeBaseSummaries,
    get_knowledge_base_by, get_dataSource, get_dataSourceSummaries, item0.
  steady_go.
Qed.

(** After an attempt that raised, the decorator waits and tries again. *)
Lemma retry_more_raise {A} lo hi more (f : M W A) (st st1 : St W) e :
  f st = (Raise e, st1) →
  retry_more lo hi (S more) f st
  = retry_more lo hi more f
      (mkSt (elapse (cloud st1) (RandomMillis lo hi))
         (log st1 ++ [Slept (RandomMillis lo hi)])).
Proof. intros Hf. cbn [retry_more]. rewrite Hf. reflexivity. Qed.

(** X12.  In a cloud that treats the name of a knowledge base as the
    service does: when the first attempt of [create_knowledge_base] has
    its knowledge base created and then raises (the creation of the data
    source fails, say), the retries of the decorator cannot succeed.  Each
    of them asks for the creation again, gets [ConflictException], and
    raises; the method raises to its caller, and the knowledge base that
    the first attempt created is left in the account. *)
Theorem retry_after_creation_fails self vb idx role (st st1 : St W) r e :
  kb_name self = name →
  fst (respond (cloud st)
         (CreateKnowledgeBase (kb_name self) (kb_description self)
            (RoleArn role) "VECTOR"
            ("arn:aws:bedrock:" +:+ region_name self +:+ "::foundation-model/"
             +:+ embedding_model self)
            "S3_VECTORS" vb idx)) = inl r →
  create_knowledge_base_attempt self vb idx role st = (Raise e, st1) →
  ∃ e' st',
    create_knowledge_base self vb idx role st = (Raise e', st')
    ∧ I (cloud st').
Proof.
  intros Hname Hcreate Hattempt.
  pose proof (attempt_keeps_the_creation self vb idx role st r Hname Hcreate)
    as Hst1.
  rewrite Hattempt in Hst1. cbn [snd] in Hst1.
  unfold create_knowledge_base, retry.
  change (7 - 1) with 6. rewrite (retry_more_raise _ _ _ _ _ _ _ Hattempt).
  apply (retry_raises_under_conflict I self vb idx role).
  - rewrite Hname. intros w Hw. repeat split; auto.
  - cbn [cloud]. by apply elapse_keeps.
Qed.

End PartialSuccess.

Lemma retry_after_creation_fails_witness :
  ∃ e' st',
    create_knowledge_base (names birds_kb) (vector_bucket_arn birds_kb)
      (vector_index_arn birds_kb) pets_role
      (mkSt {| nds_account := provisioned |} [])
    = (Raise e', st')
    ∧ is_Some (acct_kbs (nds_account (cloud st')) !! "birds-kb").
Proof.
  apply (retry_after_creation_fails
           (fun w => is_Some (acct_kbs (nds_account w) !! "birds-kb")) "birds-kb")
    with (r := RKnowledgeBase (knowledge_base birds_kb))
         (e := ClientError BedrockAgent "ValidationException")
         (st1 := snd (create_knowledge_base_attempt (names birds_kb)
                        (vector_bucket_arn birds_kb) (vector_index_arn birds_kb)
                        pets_role (mkSt {| nds_account := provisioned |} []))).
  - intros w desc role type model storage vb idx r.
    apply (account_create_establishes "birds-kb" (nds_account w)).
  - intros w desc role type model storage vb idx.
    apply (account_create_conflicts "birds-kb" (nds_account w)).
  - intros w c Hc Hw. destruct c;
      try exact (account_respond_keeps "birds-kb" (nds_account w) _ Hc Hw).
    exact Hw.
  - intros w d Hw. exact Hw.
  - reflexivity.
  - vm_compute. reflexivity.
  - apply pair_eq_fst. vm_compute. reflexivity.
Defined.
